(** * Omnisight multi-satellite fusion engine: a shallow embedding

    The development follows [data_fusion.py], class [DataFusionEngine].

    Conventions of the embedding.
    - Python objects that reach the engine from its callers (the input
      mapping and everything nested in it) are values of [pyval].
    - Finite Python numbers (int and float alike) are exact rationals [Q];
      rounding of binary floating point is not modelled.  The non-finite
      floats (nan, inf, -inf) are one separate constructor: every range
      test of the engine rejects them, so they never reach the arithmetic.
    - A Python dict is an association list in insertion order; assignment
      [d[k] = v] is [dict_set], which overwrites in place or appends.
    - A Python exception is the [Raise] branch of the [result] monad.
    - The wall clock read by [datetime.now()] is an explicit argument. *)

From Stdlib Require Import QArith Qminmax Lqa Lia ZArith.
From Stdlib Require Import String Bool List Sorted Permutation Arith.
Import ListNotations.
Open Scope string_scope.
Open Scope list_scope.
Open Scope Q_scope.

Set Warnings "-register-all".

(** ** Python values *)

Inductive pyval : Type :=
| VNone
| VBool (b : bool)
| VNum (q : Q)
| VNonFinite
| VStr (s : string)
| VList (l : list pyval)
| VDict (d : list (string * pyval)).

Inductive exn : Type :=
| AttributeError
| TypeError
| KeyError
| ZeroDivisionError.

Inductive result (A : Type) : Type :=
| Ok (a : A)
| Raise (e : exn).

Arguments Ok {A} a.
Arguments Raise {A} e.

Definition bind {A B : Type} (m : result A) (k : A -> result B) : result B :=
  match m with
  | Ok a => k a
  | Raise e => Raise e
  end.

Notation "x <- m ;; k" := (bind m (fun x => k))
  (at level 61, m at next level, right associativity).

(** ** Dictionaries *)

Section Dict.
Context {V : Type}.

Fixpoint dict_get (k : string) (d : list (string * V)) : option V :=
  match d with
  | [] => None
  | (k', v) :: r => if String.eqb k k' then Some v else dict_get k r
  end.

Fixpoint dict_set (k : string) (v : V) (d : list (string * V))
  : list (string * V) :=
  match d with
  | [] => [(k, v)]
  | (k', v') :: r =>
      if String.eqb k k' then (k, v) :: r else (k', v') :: dict_set k v r
  end.

Definition dict_keys (d : list (string * V)) : list string := map fst d.
Definition dict_values (d : list (string * V)) : list V := map snd d.
End Dict.

(** [x in [a, b, c]] for a string [x]. *)
Definition str_in (x : string) (l : list string) : bool :=
  existsb (String.eqb x) l.

(** ** Operations on Python values *)

(** Truth value of an object, as tested by [not x] and [if x]. *)
Definition truthy (v : pyval) : bool :=
  match v with
  | VNone => false
  | VBool b => b
  | VNum q => negb (Qeq_bool q 0)
  | VNonFinite => true
  | VStr s => negb (String.eqb s "")
  | VList l => match l with [] => false | _ => true end
  | VDict d => match d with [] => false | _ => true end
  end.

(** [v.get(k, dflt)]: only a dict has the method. *)
Definition py_get (v : pyval) (k : string) (dflt : pyval) : result pyval :=
  match v with
  | VDict d => Ok (match dict_get k d with Some x => x | None => dflt end)
  | _ => Raise AttributeError
  end.

(** [v.items()]. *)
Definition py_items (v : pyval) : result (list (string * pyval)) :=
  match v with
  | VDict d => Ok d
  | _ => Raise AttributeError
  end.

Definition is_str (s : string) (v : pyval) : bool :=
  match v with
  | VStr s' => String.eqb s s'
  | _ => false
  end.

Fixpoint is_substring (p s : string) : bool :=
  if String.prefix p s then true
  else match s with
       | EmptyString => false
       | String _ r => is_substring p r
       end.

(** [k in v]. *)
Definition py_contains (k : string) (v : pyval) : result bool :=
  match v with
  | VDict d => Ok (match dict_get k d with Some _ => true | None => false end)
  | VList l => Ok (existsb (is_str k) l)
  | VStr s => Ok (is_substring k s)
  | _ => Raise TypeError
  end.

(** [v[k]] for a string key [k]. *)
Definition py_getitem (v : pyval) (k : string) : result pyval :=
  match v with
  | VDict d => match dict_get k d with Some x => Ok x | None => Raise KeyError end
  | _ => Raise TypeError
  end.

(** [isinstance(v, dict)]. *)
Definition is_dict (v : pyval) : bool :=
  match v with
  | VDict _ => true
  | _ => false
  end.

(** The guard [v is not None and lo <= v <= hi], together with the number
    that is stored when the guard holds.  [Ok None] is a rejected value;
    comparing an int with a str, a list or a dict raises [TypeError];
    [True] and [False] compare as 1 and 0. *)
Definition accept_in_range (lo hi : Q) (v : pyval) : result (option Q) :=
  match v with
  | VNone => Ok None
  | VNum q => Ok (if Qle_bool lo q && Qle_bool q hi then Some q else None)
  | VBool b =>
      let q := if b then 1 else 0 in
      Ok (if Qle_bool lo q && Qle_bool q hi then Some q else None)
  | VNonFinite => Ok None
  | VStr _ | VList _ | VDict _ => Raise TypeError
  end.

(** Python's two-argument [min] and [max]: the first argument wins ties. *)
Definition pymin (a b : Q) : Q := if Qlt_le_dec b a then b else a.
Definition pymax (a b : Q) : Q := if Qlt_le_dec a b then b else a.

(** [sum(l)]. *)
Definition qsum (l : list Q) : Q := fold_left Qplus l 0.

(** [np.var(values)]: the population variance. *)
Definition np_var (values : list Q) : Q :=
  let n := inject_Z (Z.of_nat (length values)) in
  let mean := qsum values / n in
  qsum (map (fun x => (x - mean) * (x - mean)) values) / n.

(** ** The engine *)

Module DataFusionEngine.

(** [self.satellite_weights.get(sat_name, 0.5)] over the table set up by
    [__init__]. *)
Definition satellite_weights : list (string * Q) :=
  [ ("cartosat", 1.0);
    ("sentinel2", 0.95);
    ("irs", 0.90);
    ("landsat8", 0.85);
    ("sentinel1", 0.80);
    ("risat", 0.80);
    ("modis", 0.60);
    ("oceansat", 0.70) ].

Definition weight_of (sat_name : string) : Q :=
  match dict_get sat_name satellite_weights with
  | Some w => w
  | None => 0.5
  end.

(** One entry of the per-metric working dict: [{'value': .., 'weight': ..}]. *)
Record contribution : Type := mkContribution {
  c_value : Q;
  c_weight : Q
}.

(** The ['cross_val'] dict of a metric. *)
Record cross_val : Type := mkCrossVal {
  cv_sources : list (string * Q);
  cv_fused : Q;
  cv_variance : Q;
  cv_agreement : string;
  cv_num_sources : nat
}.

(** The dict a per-metric routine returns. *)
Record metric_result : Type := mkMetricResult {
  m_value : Q;
  m_confidence : Q;
  m_cross_val : cross_val
}.

(** *** Helper methods *)

(** [_calculate_confidence].  The four call sites pass a nonzero literal
    for [max_variance].  With [max_variance] zero the Python division
    fails ([ZeroDivisionError] for a float variance); that case is outside
    this definition, and statements about it assume [max_variance]
    nonzero. *)
Definition _calculate_confidence (num_sources : nat) (variance max_variance : Q)
  : Q :=
  let source_confidence := pymin (inject_Z (Z.of_nat num_sources) / 4.0) 1.0 in
  let variance_confidence := pymax 0.0 (1.0 - (variance / max_variance)) in
  let confidence := source_confidence * 0.6 + variance_confidence * 0.4 in
  pymin (pymax confidence 0.0) 1.0.

(** [_calculate_overall_confidence]: [statistics.mean] of the scores. *)
Definition _calculate_overall_confidence (confidence_scores : list (string * Q))
  : Q :=
  match confidence_scores with
  | [] => 0.0
  | _ =>
      let scores := dict_values confidence_scores in
      qsum scores / inject_Z (Z.of_nat (length scores))
  end.

Definition count_str (x : string) (l : list string) : nat :=
  length (filter (String.eqb x) l).

(** [_calculate_consensus_level].  Every cross-validation record carries an
    agreement tier, so the default of [cv.get('agreement', 'Low')] is never
    taken. *)
Definition _calculate_consensus_level (cross_validation : list (string * cross_val))
  : string :=
  match cross_validation with
  | [] => "Unknown"
  | _ =>
      let agreements := map cv_agreement (dict_values cross_validation) in
      let high_count := inject_Z (Z.of_nat (count_str "High" agreements)) in
      let medium_count := inject_Z (Z.of_nat (count_str "Medium" agreements)) in
      let len := inject_Z (Z.of_nat (length agreements)) in
      if Qle_bool (len * 0.7) high_count then "High"
      else if Qle_bool (len * 0.7) (high_count + medium_count) then "Medium"
      else "Low"
  end.

(** [_determine_quality]. *)
Definition _determine_quality (confidence : Q) (num_sources : nat) : string :=
  if Qle_bool 0.8 confidence && (4 <=? num_sources)%nat then "Excellent"
  else if Qle_bool 0.7 confidence && (3 <=? num_sources)%nat then "Good"
  else if Qle_bool 0.5 confidence && (2 <=? num_sources)%nat then "Fair"
  else "Limited".

(** *** Validation and filtering *)

(** [_filter_valid_satellites]: the loop over [satellites.items()]. *)
Fixpoint filter_loop (items : list (string * pyval)) (valid : list (string * pyval))
  : result (list (string * pyval)) :=
  match items with
  | [] => Ok valid
  | (sat_name, sat_data) :: rest =>
      if negb (truthy sat_data) then filter_loop rest valid
      else
        status <- py_get sat_data "status" (VStr "") ;;
        if existsb (fun s => is_str s status) ["success"; "fallback"; "simulated"]
        then filter_loop rest (dict_set sat_name sat_data valid)
        else filter_loop rest valid
  end.

Definition _filter_valid_satellites (satellites : pyval)
  : result (list (string * pyval)) :=
  items <- py_items satellites ;;
  filter_loop items [].

(** *** The per-metric routines *)

(** The loop shared by the four routines: [body] is the part of the loop
    body that decides whether the source contributes, and with which
    value and weight; the assignment [sources[sat_name] = {...}] follows. *)
Fixpoint collect (body : string -> pyval -> result (option contribution))
  (items : list (string * pyval)) (sources : list (string * contribution))
  : result (list (string * contribution)) :=
  match items with
  | [] => Ok sources
  | (sat_name, sat_data) :: rest =>
      c <- body sat_name sat_data ;;
      match c with
      | Some vw => collect body rest (dict_set sat_name vw sources)
      | None => collect body rest sources
      end
  end.

(** The statements after the loop, the same in the four routines up to
    [max_variance] and the two agreement thresholds. *)
Definition fuse_sources (max_variance high_below medium_below : Q)
  (sources : list (string * contribution)) : result (option metric_result) :=
  match sources with
  | [] => Ok None
  | _ =>
      let total_weight := qsum (map c_weight (dict_values sources)) in
      let weighted := qsum (map (fun s => c_value s * c_weight s) (dict_values sources)) in
      if Qeq_bool total_weight 0 then Raise ZeroDivisionError
      else
        let fused := weighted / total_weight in
        let values := map c_value (dict_values sources) in
        let variance := if (1 <? length values)%nat then np_var values else 0.0 in
        let confidence := _calculate_confidence (length sources) variance max_variance in
        let agreement :=
          if Qlt_le_dec variance high_below then "High"
          else if Qlt_le_dec variance medium_below then "Medium"
          else "Low" in
        Ok (Some {|
          m_value := fused;
          m_confidence := confidence;
          m_cross_val := {|
            cv_sources := map (fun '(name, data) => (name, c_value data)) sources;
            cv_fused := fused;
            cv_variance := variance;
            cv_agreement := agreement;
            cv_num_sources := length sources |} |})
  end.

Definition contribute (sat_name : string) (lo hi : Q) (v : pyval)
  : result (option contribution) :=
  a <- accept_in_range lo hi v ;;
  match a with
  | Some q => Ok (Some {| c_value := q; c_weight := weight_of sat_name |})
  | None => Ok None
  end.

(** [_fuse_ndvi]. *)
Definition ndvi_body (sat_name : string) (sat_data : pyval)
  : result (option contribution) :=
  if str_in sat_name ["sentinel2"; "landsat8"; "irs"] then
    indices <- py_get sat_data "indices" (VDict []) ;;
    ndvi <- py_get indices "ndvi" VNone ;;
    contribute sat_name (-1) 1 ndvi
  else Ok None.

Definition _fuse_ndvi (satellites : list (string * pyval))
  : result (option metric_result) :=
  ndvi_sources <- collect ndvi_body satellites [] ;;
  fuse_sources 0.04 0.02 0.05 ndvi_sources.

(** [_fuse_temperature]. *)
Definition temperature_body (sat_name : string) (sat_data : pyval)
  : result (option contribution) :=
  temp <-
    (if String.eqb sat_name "landsat8" then
       py_get sat_data "temperature" VNone
     else if String.eqb sat_name "modis" then
       temp_data <- py_get sat_data "temperature" (VDict []) ;;
       if is_dict temp_data then
         dflt <- py_get temp_data "mean" VNone ;;
         py_get temp_data "land_surface" dflt
       else Ok temp_data
     else if String.eqb sat_name "irs" then
       py_get sat_data "temperature" VNone
     else Ok VNone) ;;
  contribute sat_name 0 60 temp.

Definition _fuse_temperature (satellites : list (string * pyval))
  : result (option metric_result) :=
  temp_sources <- collect temperature_body satellites [] ;;
  fuse_sources 4.0 1.0 3.0 temp_sources.

(** [_fuse_moisture]. *)
Definition moisture_body (sat_name : string) (sat_data : pyval)
  : result (option contribution) :=
  if str_in sat_name ["sentinel1"; "risat"] then
    moisture <- py_get sat_data "soil_moisture_estimate" VNone ;;
    contribute sat_name 0 100 moisture
  else Ok None.

Definition _fuse_moisture (satellites : list (string * pyval))
  : result (option metric_result) :=
  moisture_sources <- collect moisture_body satellites [] ;;
  fuse_sources 100.0 25 50 moisture_sources.

(** [_fuse_evi]. *)
Definition evi_body (sat_name : string) (sat_data : pyval)
  : result (option contribution) :=
  if str_in sat_name ["sentinel2"; "landsat8"; "irs"] then
    indices <- py_get sat_data "indices" (VDict []) ;;
    evi <- py_get indices "evi" VNone ;;
    contribute sat_name (-1) 1 evi
  else Ok None.

Definition _fuse_evi (satellites : list (string * pyval))
  : result (option metric_result) :=
  evi_sources <- collect evi_body satellites [] ;;
  fuse_sources 0.04 0.02 0.05 evi_sources.

(** *** The main fusion method *)

(** The [fused] dict.  The keys ['overall_confidence'], ['status'] and
    ['message'] are not in the initial dict; they are [None] until the
    method assigns them. *)
Record report : Type := mkReport {
  timestamp : string;
  location : pyval;
  fused_metrics : list (string * Q);
  cross_validation : list (string * cross_val);
  confidence_scores : list (string * Q);
  data_sources : list string;
  consensus_level : string;
  overall_quality : string;
  overall_confidence : option Q;
  status : option string;
  message : option string
}.

(** What [fuse_satellite_data] returns: the two-key dict of the first
    [return], or the [fused] dict. *)
Inductive fusion_output : Type :=
| InvalidInput (status message : string)
| Fused (r : report).

(** The three assignments made for a metric whose routine returned a dict. *)
Definition record_metric (name : string) (m : option metric_result) (fused : report)
  : report :=
  match m with
  | Some r =>
      {| timestamp := timestamp fused;
         location := location fused;
         fused_metrics := dict_set name (m_value r) (fused_metrics fused);
         cross_validation := dict_set name (m_cross_val r) (cross_validation fused);
         confidence_scores := dict_set name (m_confidence r) (confidence_scores fused);
         data_sources := data_sources fused;
         consensus_level := consensus_level fused;
         overall_quality := overall_quality fused;
         overall_confidence := overall_confidence fused;
         status := status fused;
         message := message fused |}
  | None => fused
  end.

(** [fused['data_sources'] = l]. *)
Definition set_data_sources (l : list string) (fused : report) : report :=
  {| timestamp := timestamp fused;
     location := location fused;
     fused_metrics := fused_metrics fused;
     cross_validation := cross_validation fused;
     confidence_scores := confidence_scores fused;
     data_sources := l;
     consensus_level := consensus_level fused;
     overall_quality := overall_quality fused;
     overall_confidence := overall_confidence fused;
     status := status fused;
     message := message fused |}.

Definition fuse_satellite_data (now : string) (satellite_data : pyval)
  : result fusion_output :=
  invalid <-
    (if negb (truthy satellite_data) then Ok true
     else present <- py_contains "satellites" satellite_data ;;
          Ok (negb present)) ;;
  if invalid : bool then Ok (InvalidInput "error" "Invalid input data")
  else
    satellites <- py_getitem satellite_data "satellites" ;;
    loc <- py_get satellite_data "location" (VDict []) ;;
    let fused :=
      {| timestamp := now;
         location := loc;
         fused_metrics := [];
         cross_validation := [];
         confidence_scores := [];
         data_sources := [];
         consensus_level := "Unknown";
         overall_quality := "Unknown";
         overall_confidence := None;
         status := None;
         message := None |} in
    valid_satellites <- _filter_valid_satellites satellites ;;
    match valid_satellites with
    | [] =>
        Ok (Fused
          {| timestamp := timestamp fused;
             location := location fused;
             fused_metrics := fused_metrics fused;
             cross_validation := cross_validation fused;
             confidence_scores := confidence_scores fused;
             data_sources := data_sources fused;
             consensus_level := consensus_level fused;
             overall_quality := overall_quality fused;
             overall_confidence := overall_confidence fused;
             status := Some "no_valid_data";
             message := Some "No valid satellite data available for fusion" |})
    | _ =>
        let fused := set_data_sources (dict_keys valid_satellites) fused in
        fused_ndvi <- _fuse_ndvi valid_satellites ;;
        let fused := record_metric "ndvi" fused_ndvi fused in
        fused_temp <- _fuse_temperature valid_satellites ;;
        let fused := record_metric "temperature" fused_temp fused in
        fused_moisture <- _fuse_moisture valid_satellites ;;
        let fused := record_metric "soil_moisture" fused_moisture fused in
        fused_evi <- _fuse_evi valid_satellites ;;
        let fused := record_metric "evi" fused_evi fused in
        let overall := _calculate_overall_confidence (confidence_scores fused) in
        Ok (Fused
          {| timestamp := timestamp fused;
             location := location fused;
             fused_metrics := fused_metrics fused;
             cross_validation := cross_validation fused;
             confidence_scores := confidence_scores fused;
             data_sources := data_sources fused;
             consensus_level := _calculate_consensus_level (cross_validation fused);
             overall_quality := _determine_quality overall (length valid_satellites);
             overall_confidence := Some overall;
             status := Some "success";
             message := None |})
    end.

(** [fuse_all] is an alias. *)
Definition fuse_all := fuse_satellite_data.

End DataFusionEngine.

Import DataFusionEngine.

(** ** The module's own test input *)

Definition num (n d : Z) : pyval := VNum (n # Z.to_pos d).

(** The ['satellites'] mapping of [test_fusion_engine]. *)
Definition valid_test_satellites : list (string * pyval) :=
  [ ("sentinel2", VDict
      [ ("status", VStr "success");
        ("indices", VDict [("ndvi", num 65 100); ("evi", num 52 100)]) ]);
    ("landsat8", VDict
      [ ("status", VStr "success");
        ("temperature", num 285 10);
        ("indices", VDict [("ndvi", num 63 100); ("evi", num 50 100)]) ]);
    ("sentinel1", VDict
      [ ("status", VStr "success");
        ("soil_moisture_estimate", num 45 1) ]);
    ("irs", VDict
      [ ("status", VStr "simulated");
        ("indices", VDict [("ndvi", num 64 100); ("evi", num 51 100)]) ]) ].


(** The input of [test_fusion_engine]. *)
Definition test_data : pyval :=
  VDict
    [ ("location", VDict [("lat", num 286139 10000); ("lon", num 772090 10000)]);
      ("satellites", VDict valid_test_satellites) ].

(** ** The metrics, and the claims' vocabulary *)

Inductive metric : Type := Ndvi | Evi | Temperature | SoilMoisture.

Definition fuse_metric (m : metric)
  : list (string * pyval) -> result (option metric_result) :=
  match m with
  | Ndvi => _fuse_ndvi
  | Evi => _fuse_evi
  | Temperature => _fuse_temperature
  | SoilMoisture => _fuse_moisture
  end.

Definition metric_body (m : metric) : string -> pyval -> result (option contribution) :=
  match m with
  | Ndvi => ndvi_body
  | Evi => evi_body
  | Temperature => temperature_body
  | SoilMoisture => moisture_body
  end.

Definition metric_key (m : metric) : string :=
  match m with
  | Ndvi => "ndvi"
  | Evi => "evi"
  | Temperature => "temperature"
  | SoilMoisture => "soil_moisture"
  end.

(** The confidence formula in the words of the specification. *)
Definition spec_confidence (contributor_count : nat) (variance max_variance : Q) : Q :=
  let raw :=
    0.6 * Qmin (inject_Z (Z.of_nat contributor_count) / 4) 1
    + 0.4 * Qmax 0 (1 - variance / max_variance) in
  Qmax 0 (Qmin raw 1).

(** The per-metric constant of the specification. *)
Definition spec_max_variance (m : metric) : Q :=
  match m with
  | Ndvi | Evi => 0.04
  | Temperature => 4.0
  | SoilMoisture => 100
  end.

(** The range in which the code accepts a value of the metric. *)
Definition valid_lo (m : metric) : Q :=
  match m with
  | Ndvi | Evi => -1
  | Temperature | SoilMoisture => 0
  end.

Definition valid_hi (m : metric) : Q :=
  match m with
  | Ndvi | Evi => 1
  | Temperature => 60
  | SoilMoisture => 100
  end.

(** The constants each routine passes to the shared statements. *)
Definition metric_max_variance (m : metric) : Q :=
  match m with
  | Ndvi | Evi => 0.04
  | Temperature => 4.0
  | SoilMoisture => 100.0
  end.

Definition metric_high_below (m : metric) : Q :=
  match m with
  | Ndvi | Evi => 0.02
  | Temperature => 1.0
  | SoilMoisture => 25
  end.

Definition metric_medium_below (m : metric) : Q :=
  match m with
  | Ndvi | Evi => 0.05
  | Temperature => 3.0
  | SoilMoisture => 50
  end.

Definition source_values (sources : list (string * contribution)) : list Q :=
  map c_value (dict_values sources).

Definition variance_of (sources : list (string * contribution)) : Q :=
  if (1 <? length (source_values sources))%nat
  then np_var (source_values sources) else 0.0.

Definition weighted_mean (sources : list (string * contribution)) : Q :=
  qsum (map (fun s => c_value s * c_weight s) (dict_values sources))
  / qsum (map c_weight (dict_values sources)).

(** The number a Python value stands for in arithmetic, if it is one. *)
Definition py_number (v : pyval) : option Q :=
  match v with
  | VNum q => Some q
  | VBool b => Some (if b then 1 else 0)
  | _ => None
  end.

(** The object a routine reads for one source before the range guard:
    [None] for a source the routine does not consult. *)
Definition metric_raw (m : metric) (sat_name : string) (sat_data : pyval)
  : result pyval :=
  match m with
  | Ndvi =>
      if str_in sat_name ["sentinel2"; "landsat8"; "irs"] then
        indices <- py_get sat_data "indices" (VDict []) ;;
        py_get indices "ndvi" VNone
      else Ok VNone
  | Evi =>
      if str_in sat_name ["sentinel2"; "landsat8"; "irs"] then
        indices <- py_get sat_data "indices" (VDict []) ;;
        py_get indices "evi" VNone
      else Ok VNone
  | Temperature =>
      if String.eqb sat_name "landsat8" then
        py_get sat_data "temperature" VNone
      else if String.eqb sat_name "modis" then
        temp_data <- py_get sat_data "temperature" (VDict []) ;;
        if is_dict temp_data then
          dflt <- py_get temp_data "mean" VNone ;;
          py_get temp_data "land_surface" dflt
        else Ok temp_data
      else if String.eqb sat_name "irs" then
        py_get sat_data "temperature" VNone
      else Ok VNone
  | SoilMoisture =>
      if str_in sat_name ["sentinel1"; "risat"] then
        py_get sat_data "soil_moisture_estimate" VNone
      else Ok VNone
  end.

(** [lo <= value <= hi] for a kept contribution. *)
Definition in_range (lo hi : Q) (c : contribution) : Prop :=
  lo <= c_value c /\ c_value c <= hi.


(** A temperature scenario: landsat8 reports a sub-zero land-surface
    temperature, irs reports 21.5. *)
Definition frosty_satellites : list (string * pyval) :=
  [ ("landsat8", VDict [("status", VStr "success"); ("temperature", num (-35) 10)]);
    ("irs", VDict [("status", VStr "success"); ("temperature", num 215 10)]) ].

(** The status test of the source filter. *)
Definition eligible_status (status : pyval) : bool :=
  existsb (fun s => is_str s status) ["success"; "fallback"; "simulated"].

(** A source entry the filter drops: an empty (falsy) entry, or a dict
    whose status is missing or not one of the three eligible tags. *)
Definition dropped (sat_data : pyval) : bool :=
  match sat_data with
  | VDict d =>
      negb (truthy sat_data)
      || negb (eligible_status
                 (match dict_get "status" d with Some s => s | None => VStr "" end))
  | _ => negb (truthy sat_data)
  end.

(** [satellite_data.get('location', {})] on a dict. *)
Definition location_of (top : list (string * pyval)) : pyval :=
  match dict_get "location" top with
  | Some x => x
  | None => VDict []
  end.

(** The statements of [fuse_satellite_data] that follow the filter. *)
Definition report_of_valid (now : string) (loc : pyval)
  (valid_satellites : list (string * pyval)) : result fusion_output :=
  match valid_satellites with
  | [] =>
      Ok (Fused
        {| timestamp := now;
           location := loc;
           fused_metrics := [];
           cross_validation := [];
           confidence_scores := [];
           data_sources := [];
           consensus_level := "Unknown";
           overall_quality := "Unknown";
           overall_confidence := None;
           status := Some "no_valid_data";
           message := Some "No valid satellite data available for fusion" |})
  | _ =>
      fused_ndvi <- _fuse_ndvi valid_satellites ;;
      fused_temp <- _fuse_temperature valid_satellites ;;
      fused_moisture <- _fuse_moisture valid_satellites ;;
      fused_evi <- _fuse_evi valid_satellites ;;
      let fused :=
        record_metric "evi" fused_evi
          (record_metric "soil_moisture" fused_moisture
            (record_metric "temperature" fused_temp
              (record_metric "ndvi" fused_ndvi
                {| timestamp := now;
                   location := loc;
                   fused_metrics := [];
                   cross_validation := [];
                   confidence_scores := [];
                   data_sources := [];
                   consensus_level := "Unknown";
                   overall_quality := "Unknown";
                   overall_confidence := None;
                   status := None;
                   message := None |}))) in
      let overall := _calculate_overall_confidence (confidence_scores fused) in
      Ok (Fused
        {| timestamp := now;
           location := loc;
           fused_metrics := fused_metrics fused;
           cross_validation := cross_validation fused;
           confidence_scores := confidence_scores fused;
           data_sources := dict_keys valid_satellites;
           consensus_level := _calculate_consensus_level (cross_validation fused);
           overall_quality := _determine_quality overall (length valid_satellites);
           overall_confidence := Some overall;
           status := Some "success";
           message := None |})
  end.

(** [fused['timestamp'] = t] on whatever the method returned. *)
Definition with_timestamp (t : string) (out : result fusion_output)
  : result fusion_output :=
  match out with
  | Ok (Fused r) =>
      Ok (Fused
        {| timestamp := t;
           location := location r;
           fused_metrics := fused_metrics r;
           cross_validation := cross_validation r;
           confidence_scores := confidence_scores r;
           data_sources := data_sources r;
           consensus_level := consensus_level r;
           overall_quality := overall_quality r;
           overall_confidence := overall_confidence r;
           status := status r;
           message := message r |})
  | other => other
  end.

(** The input [{"satellites": {}}]. *)
Definition empty_input : pyval := VDict [("satellites", VDict [])].

(** An input with one failed source next to the sources of [test_data]. *)
Definition input_with_error_source : list (string * pyval) :=
  [ ("location", VDict []);
    ("satellites", VDict
       (("modis", VDict [("status", VStr "error"); ("temperature", num 30 1)])
        :: valid_test_satellites)) ].

(** The three-source NDVI scenario of the specification. *)
Definition ndvi_scenario : pyval :=
  VDict
    [ ("satellites", VDict
        [ ("sentinel2", VDict
            [("status", VStr "success"); ("indices", VDict [("ndvi", VNum 0.65)])]);
          ("landsat8", VDict
            [("status", VStr "success"); ("indices", VDict [("ndvi", VNum 0.63)])]);
          ("irs", VDict
            [("status", VStr "success"); ("indices", VDict [("ndvi", VNum 0.64)])]) ]) ].

(** [y] is [x] with [e] put in at some position. *)
Definition inserted {A : Type} (e : A) (x y : list A) : Prop :=
  exists a1 a2, x = a1 ++ a2 /\ y = a1 ++ e :: a2.

(** Two sources agree on an ndvi of 0.64; a third, irs, reports the same. *)
Definition agreeing_pair : list (string * pyval) :=
  [ ("sentinel2", VDict
      [("status", VStr "success"); ("indices", VDict [("ndvi", VNum 0.64)])]);
    ("landsat8", VDict
      [("status", VStr "success"); ("indices", VDict [("ndvi", VNum 0.64)])]) ].

Definition agreeing_irs : pyval :=
  VDict [("status", VStr "simulated"); ("indices", VDict [("ndvi", VNum 0.64)])].

(** A value that the range guard can compare with a number. *)
Definition scalar_or_none (v : pyval) : bool :=
  match v with
  | VNone | VBool _ | VNum _ | VNonFinite => true
  | _ => false
  end.

Definition field_ok (k : string) (d : list (string * pyval)) : bool :=
  match dict_get k d with
  | Some v => scalar_or_none v
  | None => true
  end.

(** A source entry of the expected shape: empty, or a dict whose
    [indices], when present, is a dict with scalar or missing [ndvi] and
    [evi]; whose [temperature], when present, is a scalar or [None], or,
    for modis, a dict with a scalar [land_surface], or without that key
    and with a scalar or missing [mean]; and whose soil moisture estimate
    is a scalar, [None] or missing.  Values may be out of range. *)
Definition well_shaped_source (sat_name : string) (sat_data : pyval) : bool :=
  match sat_data with
  | VDict d =>
      match dict_get "indices" d with
      | None => true
      | Some (VDict i) => field_ok "ndvi" i && field_ok "evi" i
      | Some _ => false
      end
      && match dict_get "temperature" d with
         | None => true
         | Some (VDict t) =>
             String.eqb sat_name "modis"
             && match dict_get "land_surface" t with
                | Some v => scalar_or_none v
                | None => field_ok "mean" t
                end
         | Some v => scalar_or_none v
         end
      && field_ok "soil_moisture_estimate" d
  | _ => negb (truthy sat_data)
  end.

(** The per-source names kept for a metric in a report. *)
Definition metric_sources (r : report) (m : metric) : list string :=
  match dict_get (metric_key m) (cross_validation r) with
  | Some cv => dict_keys (cv_sources cv)
  | None => []
  end.

(** The temperature scalar of a source in the words of the amended claim:
    landsat8 and irs report it flat; modis reports it flat, or nested, in
    which case [land_surface] is taken when the key is present and [mean]
    otherwise. *)
Definition normalised_temperature (sat_name : string) (d : list (string * pyval))
  : option pyval :=
  if str_in sat_name ["landsat8"; "irs"] then dict_get "temperature" d
  else if String.eqb sat_name "modis" then
    match dict_get "temperature" d with
    | Some (VDict t) =>
        match dict_get "land_surface" t with
        | Some x => Some x
        | None => dict_get "mean" t
        end
    | other => other
    end
  else None.

(** An input in which sentinel2 reports its ndvi as text. *)
Definition input_with_text_ndvi : pyval :=
  VDict
    [ ("satellites", VDict
        [ ("sentinel2", VDict
            [("status", VStr "success"); ("indices", VDict [("ndvi", VStr "0.65")])]);
          ("landsat8", VDict
            [("status", VStr "success"); ("temperature", VNum 28.5)]) ]) ].

(** An input with defects of the tolerated kinds: landsat8 reports an
    ndvi out of range and no evi, irs has no temperature, modis reports a
    day/night profile, sentinel1 reports a moisture above 100, and risat
    failed. *)
Definition defective_satellites : list (string * pyval) :=
  [ ("landsat8", VDict
      [ ("status", VStr "success");
        ("temperature", VNum 28.5);
        ("indices", VDict [("ndvi", VNum 1.7)]) ]);
    ("irs", VDict
      [ ("status", VStr "simulated");
        ("indices", VDict [("ndvi", VNum 0.64); ("evi", VNone)]) ]);
    ("modis", VDict
      [ ("status", VStr "fallback");
        ("temperature", VDict [("day", VNum 31); ("night", VNum 18); ("range", VNum 13)]) ]);
    ("sentinel1", VDict
      [ ("status", VStr "success"); ("soil_moisture_estimate", VNum 140) ]);
    ("risat", VDict [("status", VStr "error")]) ].

(** landsat8 reporting the nested day/night/mean shape. *)
Definition landsat8_nested : list (string * pyval) :=
  [ ("landsat8", VDict
      [ ("status", VStr "success");
        ("temperature",
         VDict [("day", VNum 30); ("night", VNum 20); ("mean", VNum 25)]) ]) ].

(** modis reporting the nested shape, with both preferred fields. *)
Definition modis_nested : list (string * pyval) :=
  [ ("status", VStr "success");
    ("temperature",
     VDict [("day", VNum 30); ("night", VNum 20); ("mean", VNum 25);
            ("land_surface", VNum 27)]) ].

(** ** Fusion algorithm variants *)

(** A magnitude well inside the binary64 range: numbers within it can be
    converted to floats, and the sum of two of them does not overflow. *)
Definition float_safe : Q := inject_Z (10 ^ 300).

Definition within_float_safe (x : Q) : Prop := - float_safe <= x /\ x <= float_safe.


(** [max(items, key=...)]: the first item whose key is not exceeded. *)
Fixpoint max_by_weight (best : string * contribution)
  (items : list (string * contribution)) : string * contribution :=
  match items with
  | [] => best
  | x :: rest =>
      if Qlt_le_dec (c_weight (snd best)) (c_weight (snd x))
      then max_by_weight x rest
      else max_by_weight best rest
  end.

(** [_max_confidence_fusion]: [None] for an empty dict. *)
Definition _max_confidence_fusion (sources : list (string * contribution))
  : option Q :=
  match sources with
  | [] => None
  | first :: rest => Some (c_value (snd (max_by_weight first rest)))
  end.





(** ** Vocabulary of the further properties *)

(** The sources a routine consults. *)
Definition eligible_names (m : metric) : list string :=
  match m with
  | Ndvi | Evi => ["sentinel2"; "landsat8"; "irs"]
  | Temperature => ["landsat8"; "modis"; "irs"]
  | SoilMoisture => ["sentinel1"; "risat"]
  end.

(** The keys a report can list, in the order the method records them. *)
Definition metric_order : list metric := [Ndvi; Temperature; SoilMoisture; Evi].

(** The quality tiers, from worst to best. *)
Definition quality_rank (q : string) : nat :=
  if String.eqb q "Excellent" then 3
  else if String.eqb q "Good" then 2
  else if String.eqb q "Fair" then 1
  else 0.

(** A falsy entry or a dict: what the filter can look at without raising. *)
Definition filterable (sat_data : pyval) : bool :=
  negb (truthy sat_data) || is_dict sat_data.

(** The temperature profile of [get_modis_data] and
    [generate_fallback_modis] in [satellite_data.py]: the keys are
    ['day'], ['night'] and ['range']. *)
Definition modis_temperature_profile (day night range : pyval) : pyval :=
  VDict [("day", day); ("night", night); ("range", range)].


(** ** Feature-level fusion *)

(** [isinstance(val, (int, float))]: [bool] is a subclass of [int]. *)
Definition is_number (v : pyval) : bool :=
  match v with
  | VNum _ | VBool _ | VNonFinite => true
  | _ => false
  end.

(** [v.keys()]. *)
Definition py_keys (v : pyval) : result (list string) :=
  match v with
  | VDict d => Ok (dict_keys d)
  | _ => Raise AttributeError
  end.

(** The numbers of a list of numeric objects, or [None] when one of them
    is not finite. *)
Fixpoint finite_numbers (values : list pyval) : option (list Q) :=
  match values with
  | [] => Some []
  | v :: rest =>
      match py_number v, finite_numbers rest with
      | Some q, Some qs => Some (q :: qs)
      | _, _ => None
      end
  end.

(** [np.mean(values)] on a list of numeric objects: not finite as soon as
    one of them is not.  The mean is the exact one; an int too large for
    a float, on which the code raises [OverflowError], is outside the
    definition, and statements about it bound the numbers by
    [float_safe]. *)
Definition np_mean (values : list pyval) : pyval :=
  match finite_numbers values with
  | Some qs => VNum (qsum qs / inject_Z (Z.of_nat (length qs)))
  | None => VNonFinite
  end.

(** The inner loop of [feature_level_fusion], over [features.values()]. *)
Fixpoint gather_feature (feature_name : string) (sources : list pyval)
  (values : list pyval) : result (list pyval) :=
  match sources with
  | [] => Ok values
  | source_features :: rest =>
      present <- py_contains feature_name source_features ;;
      if present : bool then
        val <- py_getitem source_features feature_name ;;
        if is_number val then gather_feature feature_name rest (values ++ [val])
        else gather_feature feature_name rest values
      else gather_feature feature_name rest values
  end.

(** The outer loop, over the keys of the first source. *)
Fixpoint feature_loop (names : list string) (sources : list pyval)
  (fused_features : list (string * pyval)) : result (list (string * pyval)) :=
  match names with
  | [] => Ok fused_features
  | feature_name :: rest =>
      values <- gather_feature feature_name sources [] ;;
      match values with
      | [] => feature_loop rest sources fused_features
      | _ =>
          feature_loop rest sources
            (dict_set feature_name (np_mean values) fused_features)
      end
  end.

Record feature_report : Type := mkFeatureReport {
  ff_success : bool;
  ff_fused_features : list (string * pyval);
  ff_method : string;
  ff_num_sources : nat
}.

(** What [feature_level_fusion] returns: [{}] or the four-key dict. *)
Inductive feature_output : Type :=
| NoFeatures
| FeatureReport (r : feature_report).

Definition feature_level_fusion (features : pyval) : result feature_output :=
  if negb (truthy features) then Ok NoFeatures
  else
    match features with
    | VDict (((_, first) :: _) as d) =>
        names <- py_keys first ;;
        fused_features <- feature_loop names (dict_values d) [] ;;
        Ok (FeatureReport
              {| ff_success := true;
                 ff_fused_features := fused_features;
                 ff_method := "feature_average";
                 ff_num_sources := length d |})
    | VDict [] => Ok NoFeatures
    | _ => Raise AttributeError
    end.

(** Two sources with partly shared features. *)
Definition sample_features : list (string * pyval) :=
  [ ("sentinel2", VDict [("ndvi", VNum 0.65); ("label", VStr "crop")]);
    ("landsat8", VDict [("ndvi", VNum 0.63); ("evi", VNum 0.50)]) ].


(** ** The contributors of a metric, read off the input *)




(** ** Arithmetic *)

Lemma pymin_Qmin (a b : Q) : pymin a b == Qmin a b.
Proof.
  unfold pymin. destruct (Qlt_le_dec b a) as [H | H].
  - symmetry. apply Q.min_r. apply Qlt_le_weak. exact H.
  - symmetry. apply Q.min_l. exact H.
Qed.

Lemma pymax_Qmax (a b : Q) : pymax a b == Qmax a b.
Proof.
  unfold pymax. destruct (Qlt_le_dec a b) as [H | H].
  - symmetry. apply Q.max_r. apply Qlt_le_weak. exact H.
  - symmetry. apply Q.max_l. exact H.
Qed.

(** Replaces every [Qmin]/[Qmax] of the goal by a fresh variable that
    carries the defining case split, innermost first. *)
Ltac name_minmax :=
  repeat match goal with
  | |- context [Qmin ?a ?b] =>
      lazymatch a with context [Qmin _ _] => fail | context [Qmax _ _] => fail | _ => idtac end;
      lazymatch b with context [Qmin _ _] => fail | context [Qmax _ _] => fail | _ => idtac end;
      let H := fresh "Hmin" in
      pose proof (Q.min_spec a b) as H;
      let m := fresh "m" in
      set (m := Qmin a b) in *; clearbody m
  | |- context [Qmax ?a ?b] =>
      lazymatch a with context [Qmin _ _] => fail | context [Qmax _ _] => fail | _ => idtac end;
      lazymatch b with context [Qmin _ _] => fail | context [Qmax _ _] => fail | _ => idtac end;
      let H := fresh "Hmax" in
      pose proof (Q.max_spec a b) as H;
      let m := fresh "m" in
      set (m := Qmax a b) in *; clearbody m
  end.

Ltac split_minmax :=
  repeat match goal with
  | H : _ /\ _ \/ _ /\ _ |- _ => destruct H as [[? ?] | [? ?]]
  end.

Lemma calculate_confidence_spec (n : nat) (v mv : Q) :
  _calculate_confidence n v mv == spec_confidence n v mv.
Proof.
  unfold _calculate_confidence, spec_confidence.
  assert (Ha : inject_Z (Z.of_nat n) / 4.0 == inject_Z (Z.of_nat n) / 4)
    by (apply Qdiv_comp; [reflexivity | lra]).
  generalize dependent (inject_Z (Z.of_nat n) / 4.0).
  generalize (inject_Z (Z.of_nat n) / 4). generalize (v / mv).
  intros d c4 c4' Ha.
  name_minmax. unfold pymin, pymax.
  repeat destruct Qlt_le_dec; split_minmax; lra.
Qed.

Lemma spec_confidence_compat (n : nat) (v mv mv' : Q) :
  mv == mv' -> spec_confidence n v mv == spec_confidence n v mv'.
Proof.
  intros E. unfold spec_confidence.
  assert (Hd : v / mv == v / mv') by (apply Qdiv_comp; [reflexivity | exact E]).
  generalize dependent (v / mv). generalize (v / mv').
  generalize (inject_Z (Z.of_nat n) / 4).
  intros c d' d Hd.
  name_minmax. split_minmax; lra.
Qed.

(** ** The per-metric routines, unfolded *)

Lemma fuse_metric_unfold (m : metric) (sats : list (string * pyval)) :
  fuse_metric m sats =
  (sources <- collect (metric_body m) sats [] ;;
   fuse_sources (metric_max_variance m) (metric_high_below m)
     (metric_medium_below m) sources).
Proof. destruct m; reflexivity. Qed.

Lemma metric_max_variance_spec (m : metric) :
  metric_max_variance m == spec_max_variance m.
Proof. destruct m; reflexivity. Qed.

Lemma fuse_sources_Some (mv hb mb : Q) (sources : list (string * contribution))
  (r : metric_result) :
  fuse_sources mv hb mb sources = Ok (Some r) ->
  sources <> []
  /\ m_value r = weighted_mean sources
  /\ m_confidence r = _calculate_confidence (length sources) (variance_of sources) mv
  /\ cv_sources (m_cross_val r) = map (fun '(name, data) => (name, c_value data)) sources
  /\ cv_fused (m_cross_val r) = m_value r
  /\ cv_variance (m_cross_val r) = variance_of sources
  /\ cv_num_sources (m_cross_val r) = length sources.
Proof.
  unfold fuse_sources. destruct sources as [| s0 rest]; [discriminate |].
  destruct (Qeq_bool _ 0); [discriminate |].
  intros H. injection H as <-. simpl.
  repeat split. discriminate.
Qed.

Lemma fuse_metric_Some (m : metric) (sats : list (string * pyval)) (r : metric_result) :
  fuse_metric m sats = Ok (Some r) ->
  exists sources,
    collect (metric_body m) sats [] = Ok sources
    /\ fuse_sources (metric_max_variance m) (metric_high_below m)
         (metric_medium_below m) sources = Ok (Some r).
Proof.
  rewrite fuse_metric_unfold. unfold bind.
  destruct (collect (metric_body m) sats []) as [sources | e]; [| discriminate].
  intros H. exists sources. split; [reflexivity | exact H].
Qed.

(** ** Sums and weighted means *)

Lemma fold_Qplus_acc (l : list Q) :
  forall a, fold_left Qplus l a == a + fold_left Qplus l 0.
Proof.
  induction l as [| x l IH]; intros a; simpl.
  - lra.
  - rewrite (IH (a + x)), (IH (0 + x)). lra.
Qed.

Lemma qsum_cons (x : Q) (l : list Q) : qsum (x :: l) == x + qsum l.
Proof. unfold qsum. simpl. rewrite fold_Qplus_acc. lra. Qed.

Lemma qsum_nil : qsum [] == 0.
Proof. reflexivity. Qed.

Lemma weighted_sums_bounds (lo hi : Q) (cs : list contribution) :
  Forall (fun c => in_range lo hi c /\ 0 < c_weight c) cs ->
  0 <= qsum (map c_weight cs)
  /\ lo * qsum (map c_weight cs) <= qsum (map (fun s => c_value s * c_weight s) cs)
  /\ qsum (map (fun s => c_value s * c_weight s) cs) <= hi * qsum (map c_weight cs).
Proof.
  induction 1 as [| c cs [[Hlo Hhi] Hw] _ (IH0 & IH1 & IH2)]; simpl.
  - rewrite !qsum_nil. lra.
  - rewrite !qsum_cons.
    generalize dependent (qsum (map c_weight cs)).
    generalize (qsum (map (fun s => c_value s * c_weight s) cs)).
    intros S W IH0 IH1 IH2. nra.
Qed.

Lemma total_weight_pos (cs : list contribution) :
  cs <> [] -> Forall (fun c => 0 < c_weight c) cs -> 0 < qsum (map c_weight cs).
Proof.
  intros Hne H. destruct H as [| c cs Hc Hcs]; [congruence |].
  simpl. rewrite qsum_cons.
  assert (0 <= qsum (map c_weight cs)).
  { clear Hne Hc. induction Hcs as [| c' cs' Hc' _ IH]; simpl.
    - rewrite qsum_nil. lra.
    - rewrite qsum_cons. lra. }
  lra.
Qed.

Lemma weighted_mean_in_range (lo hi : Q) (sources : list (string * contribution)) :
  sources <> [] ->
  Forall (fun kc => in_range lo hi (snd kc) /\ 0 < c_weight (snd kc)) sources ->
  lo <= weighted_mean sources /\ weighted_mean sources <= hi.
Proof.
  intros Hne HF. unfold weighted_mean, dict_values.
  assert (HF' : Forall (fun c => in_range lo hi c /\ 0 < c_weight c) (map snd sources)).
  { apply Forall_map. exact HF. }
  assert (Hpos : 0 < qsum (map c_weight (map snd sources))).
  { apply total_weight_pos.
    - destruct sources; [congruence | discriminate].
    - eapply Forall_impl; [| exact HF']. intros c [_ H]. exact H. }
  destruct (weighted_sums_bounds lo hi _ HF') as (_ & H1 & H2).
  split.
  - apply Qle_shift_div_l; assumption.
  - apply Qle_shift_div_r; [assumption |]. lra.
Qed.

(** ** The working dict of a routine *)

Section DictFacts.
Context {V : Type}.
Implicit Types (d : list (string * V)) (k : string) (v : V).

Lemma dict_set_Forall (P : string * V -> Prop) k v d :
  Forall P d -> P (k, v) -> Forall P (dict_set k v d).
Proof.
  intros Hd Hk. induction Hd as [| [k' v'] d Hx Hd IH]; simpl.
  - constructor; [exact Hk | constructor].
  - destruct (String.eqb k k'); constructor; assumption.
Qed.

Lemma dict_set_not_nil k v d : dict_set k v d <> [].
Proof. destruct d as [| [k' v'] d]; simpl; [| destruct (String.eqb k k')]; discriminate. Qed.

Lemma dict_set_In_other k v k' v' d :
  k <> k' -> In (k', v') d -> In (k', v') (dict_set k v d).
Proof.
  intros Hne. induction d as [| [k0 v0] d IH]; simpl; [tauto |].
  intros [E | Hin].
  - injection E as -> ->.
    destruct (String.eqb_spec k k'); [contradiction | left; reflexivity].
  - destruct (String.eqb k k0); right; auto.
Qed.

Lemma dict_set_In_same k v d : In (k, v) (dict_set k v d).
Proof.
  induction d as [| [k0 v0] d IH]; simpl; [left; reflexivity |].
  destruct (String.eqb k k0); [left; reflexivity | right; exact IH].
Qed.

Lemma dict_set_keys_In k v d x :
  In x (dict_keys (dict_set k v d)) <-> x = k \/ In x (dict_keys d).
Proof.
  unfold dict_keys. induction d as [| [k0 v0] d IH]; simpl.
  - intuition congruence.
  - destruct (String.eqb_spec k k0) as [-> | Hne]; simpl.
    + intuition congruence.
    + rewrite IH. intuition congruence.
Qed.
End DictFacts.

Lemma collect_invariant (P : string * contribution -> Prop)
  (body : string -> pyval -> result (option contribution))
  (items : list (string * pyval)) :
  (forall k d c, In (k, d) items -> body k d = Ok (Some c) -> P (k, c)) ->
  forall acc res,
    Forall P acc -> collect body items acc = Ok res -> Forall P res.
Proof.
  induction items as [| [k d] items IH]; intros Hbody acc res Hacc; simpl.
  - intros H. injection H as <-. exact Hacc.
  - unfold bind. destruct (body k d) as [[c |] | e] eqn:E; [| | discriminate].
    + apply IH.
      * intros k' d' c' Hin. apply Hbody. right. exact Hin.
      * apply dict_set_Forall; [exact Hacc |].
        apply (Hbody k d c); [left; reflexivity | exact E].
    + apply IH; [| exact Hacc].
      intros k' d' c' Hin. apply Hbody. right. exact Hin.
Qed.

(** ** What a loop body accepts *)

Lemma weight_of_pos (sat_name : string) : 0 < weight_of sat_name.
Proof.
  unfold weight_of, satellite_weights. simpl.
  repeat match goal with
  | |- context [String.eqb ?a ?b] => destruct (String.eqb a b)
  end; reflexivity.
Qed.

Lemma metric_body_raw (m : metric) (sat_name : string) (sat_data : pyval) :
  metric_body m sat_name sat_data =
  (raw <- metric_raw m sat_name sat_data ;;
   contribute sat_name (valid_lo m) (valid_hi m) raw).
Proof.
  destruct m; cbn [metric_body metric_raw valid_lo valid_hi];
    unfold ndvi_body, evi_body, temperature_body, moisture_body.
  - destruct (str_in sat_name _); [| reflexivity].
    destruct (py_get sat_data "indices" (VDict [])) as [i |]; [| reflexivity].
    reflexivity.
  - destruct (str_in sat_name _); [| reflexivity].
    destruct (py_get sat_data "indices" (VDict [])) as [i |]; [| reflexivity].
    reflexivity.
  - reflexivity.
  - destruct (str_in sat_name _); reflexivity.
Qed.

Lemma accept_in_range_Some (lo hi : Q) (v : pyval) (q : Q) :
  accept_in_range lo hi v = Ok (Some q) ->
  py_number v = Some q /\ lo <= q /\ q <= hi.
Proof.
  destruct v as [| b | x | | s | l | d]; simpl; try discriminate.
  - destruct (Qle_bool lo _) eqn:E1; [| discriminate].
    destruct (Qle_bool _ hi) eqn:E2; [| discriminate].
    simpl. intros H. injection H as <-.
    apply Qle_bool_iff in E1, E2. auto.
  - destruct (Qle_bool lo x) eqn:E1; [| discriminate].
    destruct (Qle_bool x hi) eqn:E2; [| discriminate].
    simpl. intros H. injection H as <-.
    apply Qle_bool_iff in E1, E2. auto.
Qed.

Lemma accept_in_range_outside (lo hi : Q) (v : pyval) (q : Q) :
  py_number v = Some q -> ~ (lo <= q /\ q <= hi) ->
  accept_in_range lo hi v = Ok None.
Proof.
  destruct v as [| b | x | | s | l | d]; simpl; try discriminate;
    intros H Hout; injection H as <-.
  - destruct (Qle_bool lo _) eqn:E1; [| reflexivity].
    destruct (Qle_bool _ hi) eqn:E2; [| reflexivity].
    apply Qle_bool_iff in E1, E2. tauto.
  - destruct (Qle_bool lo x) eqn:E1; [| reflexivity].
    destruct (Qle_bool x hi) eqn:E2; [| reflexivity].
    apply Qle_bool_iff in E1, E2. tauto.
Qed.

Lemma contribute_Some (sat_name : string) (lo hi : Q) (v : pyval) (c : contribution) :
  contribute sat_name lo hi v = Ok (Some c) ->
  py_number v = Some (c_value c) /\ in_range lo hi c
  /\ c_weight c = weight_of sat_name.
Proof.
  unfold contribute, bind.
  destruct (accept_in_range lo hi v) as [[q |] | e] eqn:E; try discriminate.
  intros H. injection H as <-. simpl.
  apply accept_in_range_Some in E. unfold in_range. simpl. tauto.
Qed.

Lemma metric_body_Some (m : metric) (sat_name : string) (sat_data : pyval)
  (c : contribution) :
  metric_body m sat_name sat_data = Ok (Some c) ->
  exists raw,
    metric_raw m sat_name sat_data = Ok raw
    /\ py_number raw = Some (c_value c)
    /\ in_range (valid_lo m) (valid_hi m) c
    /\ c_weight c = weight_of sat_name.
Proof.
  rewrite metric_body_raw. unfold bind.
  destruct (metric_raw m sat_name sat_data) as [raw | e]; [| discriminate].
  intros H. exists raw. split; [reflexivity |].
  apply contribute_Some in H. exact H.
Qed.

Lemma collected_sources_sound (m : metric) (sats : list (string * pyval))
  (sources : list (string * contribution)) :
  collect (metric_body m) sats [] = Ok sources ->
  Forall (fun kc =>
    in_range (valid_lo m) (valid_hi m) (snd kc)
    /\ c_weight (snd kc) = weight_of (fst kc)
    /\ exists d raw,
         In (fst kc, d) sats
         /\ metric_raw m (fst kc) d = Ok raw
         /\ py_number raw = Some (c_value (snd kc))) sources.
Proof.
  apply collect_invariant; [| constructor].
  intros k d c Hin Hb. simpl.
  apply metric_body_Some in Hb. destruct Hb as (raw & Hraw & Hnum & Hr & Hw).
  split; [exact Hr |]. split; [exact Hw |].
  exists d, raw. auto.
Qed.

Lemma In_cv_sources (sources : list (string * contribution)) (name : string) (v : Q) :
  In (name, v) (map (fun '(name, data) => (name, c_value data)) sources) ->
  exists c, In (name, c) sources /\ c_value c = v.
Proof.
  intros H. apply in_map_iff in H. destruct H as ([k c] & E & Hin).
  injection E as -> <-. exists c. auto.
Qed.

Lemma fuse_metric_value_in_range (m : metric) (sats : list (string * pyval))
  (r : metric_result) :
  fuse_metric m sats = Ok (Some r) ->
  valid_lo m <= m_value r /\ m_value r <= valid_hi m.
Proof.
  intros H. apply fuse_metric_Some in H. destruct H as (sources & Hc & H).
  apply fuse_sources_Some in H.
  destruct H as (Hne & Hval & _).
  pose proof (collected_sources_sound m sats sources Hc) as HF.
  rewrite Hval. apply weighted_mean_in_range; [exact Hne |].
  eapply Forall_impl; [| exact HF].
  intros [k c] (Hr & Hw & _). simpl in *. split; [exact Hr |].
  rewrite Hw. apply weight_of_pos.
Qed.

Lemma fuse_metric_kept_values (m : metric) (sats : list (string * pyval))
  (r : metric_result) (name : string) (v : Q) :
  fuse_metric m sats = Ok (Some r) ->
  In (name, v) (cv_sources (m_cross_val r)) ->
  (valid_lo m <= v /\ v <= valid_hi m)
  /\ exists d raw,
       In (name, d) sats
       /\ metric_raw m name d = Ok raw
       /\ py_number raw = Some v.
Proof.
  intros H Hin. apply fuse_metric_Some in H. destruct H as (sources & Hc & H).
  apply fuse_sources_Some in H.
  destruct H as (_ & _ & _ & Hs & _).
  pose proof (collected_sources_sound m sats sources Hc) as HF.
  rewrite Hs in Hin.
  apply In_cv_sources in Hin. destruct Hin as (c & Hin & <-).
  rewrite Forall_forall in HF. specialize (HF _ Hin). simpl in HF.
  destruct HF as (Hr & _ & Hex). split; [exact Hr | exact Hex].
Qed.

Lemma metric_body_outside (m : metric) (name : string) (d raw : pyval) (q : Q) :
  metric_raw m name d = Ok raw ->
  py_number raw = Some q ->
  ~ (valid_lo m <= q /\ q <= valid_hi m) ->
  metric_body m name d = Ok None.
Proof.
  intros Hraw Hnum Hout.
  rewrite metric_body_raw, Hraw. unfold bind, contribute.
  rewrite (accept_in_range_outside _ _ _ _ Hnum Hout). reflexivity.
Qed.

(** A source the loop body rejects leaves no trace in the working dict. *)
Lemma collect_skip body (k : string) (d : pyval) (s1 s2 : list (string * pyval)) :
  body k d = Ok None ->
  forall acc, collect body (s1 ++ (k, d) :: s2) acc = collect body (s1 ++ s2) acc.
Proof.
  intros Hb. induction s1 as [| [k1 d1] s1 IH]; intros acc; simpl.
  - rewrite Hb. reflexivity.
  - unfold bind. destruct (body k1 d1) as [[c |] | e]; auto.
Qed.

Lemma fuse_metric_skip (m : metric) (k : string) (d : pyval)
  (s1 s2 : list (string * pyval)) :
  metric_body m k d = Ok None ->
  fuse_metric m (s1 ++ (k, d) :: s2) = fuse_metric m (s1 ++ s2).
Proof.
  intros Hb. rewrite !fuse_metric_unfold.
  rewrite (collect_skip _ k d s1 s2 Hb). reflexivity.
Qed.

(** ** The main method, unfolded *)

Lemma fuse_satellite_data_dict (now : string) (top : list (string * pyval))
  (satellites : pyval) :
  dict_get "satellites" top = Some satellites ->
  fuse_satellite_data now (VDict top) =
  (valid <- _filter_valid_satellites satellites ;;
   report_of_valid now (location_of top) valid).
Proof.
  intros H. unfold fuse_satellite_data.
  destruct top as [| e top]; [discriminate |].
  cbn [truthy negb py_contains py_getitem py_get bind].
  rewrite H. cbn [negb bind].
  destruct (_filter_valid_satellites satellites) as [valid | e']; [| reflexivity].
  cbn [bind]. unfold report_of_valid, location_of.
  destruct valid as [| v valid]; [reflexivity |].
  unfold bind.
  destruct (_fuse_ndvi (v :: valid)) as [r1 |]; [| reflexivity].
  destruct (_fuse_temperature (v :: valid)) as [r2 |]; [| reflexivity].
  destruct (_fuse_moisture (v :: valid)) as [r3 |]; [| reflexivity].
  destruct (_fuse_evi (v :: valid)) as [r4 |]; [| reflexivity].
  destruct r1, r2, r3, r4; reflexivity.
Qed.

(** ** The source filter *)

Lemma filter_loop_dropped (k : string) (d : pyval) (rest valid : list (string * pyval)) :
  dropped d = true ->
  filter_loop ((k, d) :: rest) valid = filter_loop rest valid.
Proof.
  intros H. cbn [filter_loop].
  destruct (truthy d) eqn:T; cbn [negb]; [| reflexivity].
  destruct d as [| b | q | | s | l | dd]; cbn [dropped] in H;
    try (rewrite T in H; discriminate).
  rewrite T in H. cbn [negb orb] in H.
  cbn [py_get bind]. fold (eligible_status
    (match dict_get "status" dd with Some s => s | None => VStr "" end)).
  destruct (eligible_status _); [discriminate | reflexivity].
Qed.

Lemma filter_loop_skip (k : string) (d : pyval) (s1 s2 : list (string * pyval)) :
  dropped d = true ->
  forall valid,
    filter_loop (s1 ++ (k, d) :: s2) valid = filter_loop (s1 ++ s2) valid.
Proof.
  intros H. induction s1 as [| [k1 d1] s1 IH]; intros valid.
  - apply filter_loop_dropped. exact H.
  - cbn [app filter_loop]. destruct (negb (truthy d1)); [apply IH |].
    unfold bind. destruct (py_get d1 "status" (VStr "")) as [st |]; [| reflexivity].
    destruct (existsb _ _); apply IH.
Qed.

Lemma filter_loop_invariant (P : string * pyval -> Prop)
  (items : list (string * pyval)) :
  (forall k d, In (k, d) items -> dropped d = false -> P (k, d)) ->
  forall valid res,
    Forall P valid -> filter_loop items valid = Ok res -> Forall P res.
Proof.
  induction items as [| [k d] items IH]; intros HP valid res Hv.
  - cbn. intros H. injection H as <-. exact Hv.
  - assert (HP' : forall k' d', In (k', d') items -> dropped d' = false -> P (k', d')).
    { intros k' d' Hin. apply HP. right. exact Hin. }
    destruct (dropped d) eqn:D.
    + rewrite (filter_loop_dropped k d items valid D). apply IH; assumption.
    + cbn [filter_loop].
      destruct (negb (truthy d)); [apply IH; assumption |].
      unfold bind. destruct (py_get d "status" (VStr "")) as [st |]; [| discriminate].
      destruct (existsb _ _); [| apply IH; assumption].
      apply IH; [exact HP' |].
      apply dict_set_Forall; [exact Hv |].
      apply HP; [left; reflexivity | exact D].
Qed.

Lemma filtered_keys_eligible (sats valid : list (string * pyval)) (name : string) :
  _filter_valid_satellites (VDict sats) = Ok valid ->
  In name (dict_keys valid) ->
  exists d, In (name, d) sats /\ dropped d = false.
Proof.
  unfold _filter_valid_satellites. cbn [py_items bind]. intros H Hin.
  assert (HF : Forall (fun kd => In kd sats /\ dropped (snd kd) = false) valid).
  { eapply filter_loop_invariant; [| constructor | exact H].
    intros k d Hk Hd. split; assumption. }
  unfold dict_keys in Hin. apply in_map_iff in Hin.
  destruct Hin as ([k d] & <- & Hin).
  rewrite Forall_forall in HF. destruct (HF _ Hin) as [H1 H2].
  exists d. split; assumption.
Qed.

(** Every cross-validation record of a report comes from one of the four
    routines run on the filtered sources. *)
Lemma report_cross_validation (now : string) (loc : pyval)
  (valid : list (string * pyval)) (r : report) (key : string) (cv : cross_val) :
  report_of_valid now loc valid = Ok (Fused r) ->
  In (key, cv) (cross_validation r) ->
  exists m mr,
    fuse_metric m valid = Ok (Some mr)
    /\ key = metric_key m /\ cv = m_cross_val mr
    /\ dict_get key (confidence_scores r) = Some (m_confidence mr)
    /\ dict_get key (fused_metrics r) = Some (m_value mr).
Proof.
  unfold report_of_valid. destruct valid as [| v0 valid']; [| set (valid := v0 :: valid')].
  - intros H. injection H as <-. simpl. tauto.
  - unfold bind.
    destruct (_fuse_ndvi valid) as [r1 |] eqn:E1; [| discriminate].
    destruct (_fuse_temperature valid) as [r2 |] eqn:E2; [| discriminate].
    destruct (_fuse_moisture valid) as [r3 |] eqn:E3; [| discriminate].
    destruct (_fuse_evi valid) as [r4 |] eqn:E4; [| discriminate].
    intros H. injection H as <-.
    destruct r1 as [m1 |], r2 as [m2 |], r3 as [m3 |], r4 as [m4 |];
      cbn; intros Hin;
      repeat match goal with
      | H : _ \/ _ |- _ => destruct H as [H | H]
      | H : False |- _ => destruct H
      | H : (_, _) = (key, cv) |- _ => injection H as <- <-
      end;
      first [ exists Ndvi; eexists; repeat split; [exact E1 | ..]; reflexivity
            | exists Temperature; eexists; repeat split; [exact E2 | ..]; reflexivity
            | exists SoilMoisture; eexists; repeat split; [exact E3 | ..]; reflexivity
            | exists Evi; eexists; repeat split; [exact E4 | ..]; reflexivity ].
Qed.

Lemma report_data_sources (now : string) (loc : pyval)
  (valid : list (string * pyval)) (r : report) :
  report_of_valid now loc valid = Ok (Fused r) ->
  data_sources r = dict_keys valid.
Proof.
  unfold report_of_valid. destruct valid as [| v0 valid'].
  - intros H. injection H as <-. reflexivity.
  - unfold bind.
    destruct (_fuse_ndvi _) as [r1 |]; [| discriminate].
    destruct (_fuse_temperature _) as [r2 |]; [| discriminate].
    destruct (_fuse_moisture _) as [r3 |]; [| discriminate].
    destruct (_fuse_evi _) as [r4 |]; [| discriminate].
    intros H. injection H as <-. reflexivity.
Qed.

Section DictGetSet.
Context {V : Type}.

Lemma dict_get_set_same (k : string) (v : V) (d : list (string * V)) :
  dict_get k (dict_set k v d) = Some v.
Proof.
  induction d as [| [k0 v0] d IH]; simpl.
  - rewrite String.eqb_refl. reflexivity.
  - destruct (String.eqb k k0) eqn:E; simpl; rewrite ?String.eqb_refl, ?E; auto.
Qed.

Lemma dict_get_set_other (k k' : string) (v : V) (d : list (string * V)) :
  k' <> k -> dict_get k' (dict_set k v d) = dict_get k' d.
Proof.
  intros Hne. induction d as [| [k0 v0] d IH]; simpl.
  - destruct (String.eqb_spec k' k); [contradiction | reflexivity].
  - destruct (String.eqb_spec k k0) as [-> | Hk]; simpl.
    + destruct (String.eqb_spec k' k0); [contradiction | reflexivity].
    + rewrite IH. reflexivity.
Qed.
End DictGetSet.

Lemma fuse_ignores_dropped (now : string) (top s1 s2 : list (string * pyval))
  (name : string) (d : pyval) :
  dict_get "satellites" top = Some (VDict (s1 ++ (name, d) :: s2)) ->
  dropped d = true ->
  fuse_satellite_data now (VDict top) =
  fuse_satellite_data now (VDict (dict_set "satellites" (VDict (s1 ++ s2)) top)).
Proof.
  intros Hs Hd.
  rewrite (fuse_satellite_data_dict now top _ Hs).
  rewrite (fuse_satellite_data_dict now _ _ (dict_get_set_same "satellites" _ top)).
  unfold location_of. rewrite dict_get_set_other by discriminate.
  unfold _filter_valid_satellites. cbn [py_items bind].
  rewrite (filter_loop_skip name d s1 s2 Hd). reflexivity.
Qed.

Lemma fused_sources_are_filtered (now : string) (top sats : list (string * pyval))
  (r : report) :
  dict_get "satellites" top = Some (VDict sats) ->
  fuse_satellite_data now (VDict top) = Ok (Fused r) ->
  exists valid,
    _filter_valid_satellites (VDict sats) = Ok valid
    /\ report_of_valid now (location_of top) valid = Ok (Fused r).
Proof.
  intros Hs H. rewrite (fuse_satellite_data_dict now top _ Hs) in H.
  unfold bind in H.
  destruct (_filter_valid_satellites (VDict sats)) as [valid |]; [| discriminate].
  exists valid. split; [reflexivity | exact H].
Qed.

(** ** Adding one contributor *)

Lemma dict_set_inserted {V : Type} (k : string) (v : V) (e : string * V)
  (x y : list (string * V)) :
  k <> fst e -> inserted e x y -> inserted e (dict_set k v x) (dict_set k v y).
Proof.
  intros Hne (a1 & a2 & -> & ->). destruct e as [ke ve]. simpl in Hne.
  induction a1 as [| [k0 v0] a1 IH]; simpl.
  - destruct (String.eqb_spec k ke); [contradiction |].
    exists [], (dict_set k v a2). split; reflexivity.
  - destruct (String.eqb k k0).
    + exists ((k, v) :: a1), a2. split; reflexivity.
    + destruct IH as (b1 & b2 & E1 & E2).
      exists ((k0, v0) :: b1), b2. simpl. rewrite E1, E2. split; reflexivity.
Qed.

Lemma dict_set_fresh {V : Type} (k : string) (v : V) (d : list (string * V)) :
  ~ In k (dict_keys d) -> dict_set k v d = d ++ [(k, v)].
Proof.
  unfold dict_keys. induction d as [| [k0 v0] d IH]; simpl; intros H.
  - reflexivity.
  - destruct (String.eqb_spec k k0) as [-> | Hne]; [tauto |].
    rewrite IH by tauto. reflexivity.
Qed.

Lemma collect_app body (s1 s2 : list (string * pyval)) :
  forall acc,
    collect body (s1 ++ s2) acc = (a <- collect body s1 acc ;; collect body s2 a).
Proof.
  induction s1 as [| [k d] s1 IH]; intros acc; simpl.
  - reflexivity.
  - unfold bind at 1 3. destruct (body k d) as [[c |] | e]; auto.
Qed.

Lemma collect_keys body (items : list (string * pyval)) :
  forall acc res k,
    collect body items acc = Ok res ->
    In k (dict_keys res) -> In k (dict_keys acc) \/ In k (dict_keys items).
Proof.
  induction items as [| [k0 d0] items IH]; intros acc res k; simpl.
  - intros H. injection H as <-. auto.
  - unfold bind. destruct (body k0 d0) as [[c |] | e]; [| | discriminate].
    + intros H Hin. destruct (IH _ _ _ H Hin) as [Hk | Hk]; [| auto].
      apply dict_set_keys_In in Hk. destruct Hk as [-> | Hk]; auto.
    + intros H Hin. destruct (IH _ _ _ H Hin); auto.
Qed.

Lemma collect_inserted body (e : string * contribution)
  (items : list (string * pyval)) :
  ~ In (fst e) (dict_keys items) ->
  forall x y rx,
    inserted e x y ->
    collect body items x = Ok rx ->
    exists ry, collect body items y = Ok ry /\ inserted e rx ry.
Proof.
  induction items as [| [k d] items IH]; intros Hk x y rx Hxy; simpl.
  - intros H. injection H as <-. exists y. auto.
  - simpl in Hk. unfold bind.
    destruct (body k d) as [[c |] | e']; [| | discriminate].
    + apply IH; [tauto |]. apply dict_set_inserted; [| exact Hxy].
      intros ->. tauto.
    + apply IH; [tauto | exact Hxy].
Qed.

Lemma collect_add_source body (s1 s2 : list (string * pyval)) (name : string)
  (d : pyval) (c : contribution) (rx : list (string * contribution)) :
  ~ In name (dict_keys (s1 ++ s2)) ->
  body name d = Ok (Some c) ->
  collect body (s1 ++ s2) [] = Ok rx ->
  exists ry,
    collect body (s1 ++ (name, d) :: s2) [] = Ok ry /\ inserted (name, c) rx ry.
Proof.
  intros Hfresh Hb. rewrite !collect_app. unfold bind.
  destruct (collect body s1 []) as [a1 |] eqn:E1; [| discriminate].
  intros H2. cbn [collect]. rewrite Hb. cbn [bind].
  assert (Hk : ~ In name (dict_keys a1)).
  { intros Hin. destruct (collect_keys _ _ _ _ _ E1 Hin) as [[] | Hin'].
    apply Hfresh. unfold dict_keys in *. rewrite map_app. apply in_or_app. auto. }
  rewrite (dict_set_fresh name c a1 Hk).
  apply (collect_inserted body (name, c) s2) with (x := a1); [| | exact H2].
  - intros Hin. apply Hfresh. unfold dict_keys in *. rewrite map_app.
    apply in_or_app. auto.
  - exists a1, []. rewrite app_nil_r. split; reflexivity.
Qed.

Lemma inserted_length {A : Type} (e : A) (x y : list A) :
  inserted e x y -> length y = S (length x).
Proof.
  intros (a1 & a2 & -> & ->). rewrite !length_app. simpl. lia.
Qed.

Lemma inserted_Forall {A : Type} (P : A -> Prop) (e : A) (x y : list A) :
  inserted e x y -> P e -> Forall P x -> Forall P y.
Proof.
  intros (a1 & a2 & -> & ->) He Hx.
  apply Forall_app in Hx. destruct Hx as [H1 H2].
  apply Forall_app. split; [exact H1 | constructor; assumption].
Qed.

(** ** Variance of agreeing values *)

Lemma inject_nat_succ (n : nat) :
  inject_Z (Z.of_nat (S n)) == inject_Z (Z.of_nat n) + 1.
Proof. rewrite Nat2Z.inj_succ, <- Z.add_1_r, inject_Z_plus. reflexivity. Qed.

Lemma inject_nat_nonneg (n : nat) : 0 <= inject_Z (Z.of_nat n).
Proof.
  change 0 with (inject_Z 0). rewrite <- Zle_Qle. apply Nat2Z.is_nonneg.
Qed.

Lemma qsum_const (v : Q) (l : list Q) :
  Forall (fun x => x == v) l ->
  qsum l == inject_Z (Z.of_nat (length l)) * v.
Proof.
  induction 1 as [| x l Hx _ IH].
  - simpl. rewrite qsum_nil. change (inject_Z 0) with 0. lra.
  - rewrite qsum_cons, IH. cbn [length]. rewrite inject_nat_succ.
    cbv beta in Hx. generalize dependent (inject_Z (Z.of_nat (length l))).
    intros k _. nra.
Qed.

Lemma np_var_const (v : Q) (l : list Q) :
  l <> [] -> Forall (fun x => x == v) l -> np_var l == 0.
Proof.
  intros Hne HF. unfold np_var.
  set (n := inject_Z (Z.of_nat (length l))).
  assert (Hn : 0 < n).
  { unfold n. destruct l as [| x l]; [congruence |].
    cbn [length]. rewrite inject_nat_succ.
    pose proof (inject_nat_nonneg (length l)). lra. }
  assert (Hmean : qsum l / n == v).
  { rewrite (qsum_const v l HF). fold n. field. lra. }
  set (mu := qsum l / n) in *.
  assert (Hsq : Forall (fun x => x == 0) (map (fun x => (x - mu) * (x - mu)) l)).
  { apply Forall_map. eapply Forall_impl; [| exact HF].
    intros x Hx. cbv beta in *. clearbody mu. nra. }
  rewrite (qsum_const 0 _ Hsq). field. lra.
Qed.

Lemma variance_of_agreeing (v : Q) (sources : list (string * contribution)) :
  Forall (fun kc => c_value (snd kc) == v) sources ->
  variance_of sources == 0.
Proof.
  intros HF. unfold variance_of.
  destruct (1 <? length (source_values sources))%nat eqn:E; [| reflexivity].
  apply (np_var_const v).
  - destruct sources; [discriminate E | discriminate].
  - unfold source_values, dict_values. rewrite map_map.
    apply Forall_map. exact HF.
Qed.

(** ** Monotonicity of the confidence score *)

Lemma spec_confidence_monotone (n n' : nat) (v v' mv : Q) :
  (n <= n')%nat -> v' <= v -> 0 < mv ->
  spec_confidence n v mv <= spec_confidence n' v' mv.
Proof.
  intros Hn Hv Hmv. unfold spec_confidence.
  assert (Hc : inject_Z (Z.of_nat n) / 4 <= inject_Z (Z.of_nat n') / 4).
  { apply Qmult_le_compat_r; [| discriminate].
    rewrite <- Zle_Qle. apply Nat2Z.inj_le. exact Hn. }
  assert (Hd : v' / mv <= v / mv).
  { apply Qmult_le_compat_r; [exact Hv |].
    apply Qlt_le_weak. apply Qinv_lt_0_compat. exact Hmv. }
  generalize dependent (inject_Z (Z.of_nat n) / 4).
  generalize (inject_Z (Z.of_nat n') / 4).
  generalize dependent (v / mv). generalize (v' / mv).
  intros d' d Hd c' c Hc.
  name_minmax. split_minmax; lra.
Qed.

Lemma fuse_sources_ok (mv hb mb : Q) (sources : list (string * contribution)) :
  sources <> [] ->
  Forall (fun kc => 0 < c_weight (snd kc)) sources ->
  exists r, fuse_sources mv hb mb sources = Ok (Some r).
Proof.
  intros Hne HF.
  assert (Hpos : 0 < qsum (map c_weight (dict_values sources))).
  { apply total_weight_pos.
    - destruct sources; [congruence | discriminate].
    - unfold dict_values. apply Forall_map. exact HF. }
  unfold fuse_sources. destruct sources as [| s0 rest]; [congruence |].
  destruct (Qeq_bool _ 0) eqn:E.
  - apply Qeq_bool_iff in E. lra.
  - eexists. reflexivity.
Qed.

Lemma metric_max_variance_pos (m : metric) : 0 < metric_max_variance m.
Proof. destruct m; reflexivity. Qed.

Lemma collected_weights_pos (m : metric) (sats : list (string * pyval))
  (sources : list (string * contribution)) :
  collect (metric_body m) sats [] = Ok sources ->
  Forall (fun kc => 0 < c_weight (snd kc)) sources.
Proof.
  intros H. eapply Forall_impl; [| exact (collected_sources_sound m sats sources H)].
  intros [k c] (_ & Hw & _). simpl in *. rewrite Hw. apply weight_of_pos.
Qed.

(** ** Unique keys *)

Lemma dict_set_NoDup {V : Type} (k : string) (v : V) (d : list (string * V)) :
  NoDup (dict_keys d) -> NoDup (dict_keys (dict_set k v d)).
Proof.
  unfold dict_keys. induction d as [| [k0 v0] d IH]; simpl; intros H.
  - constructor; [simpl; tauto | constructor].
  - inversion H as [| ? ? Hk Hd]; subst.
    destruct (String.eqb_spec k k0) as [-> | Hne]; simpl.
    + constructor; assumption.
    + constructor; [| apply IH; exact Hd].
      intros Hin. apply (dict_set_keys_In k v d k0) in Hin.
      destruct Hin as [-> | Hin]; [congruence | contradiction].
Qed.

Lemma NoDup_keys_functional {V : Type} (d : list (string * V)) (k : string) (v v' : V) :
  NoDup (dict_keys d) -> In (k, v) d -> In (k, v') d -> v = v'.
Proof.
  unfold dict_keys. induction d as [| [k0 v0] d IH]; simpl; intros H H1 H2; [tauto |].
  inversion H as [| ? ? Hk Hd]; subst.
  destruct H1 as [E1 | H1], H2 as [E2 | H2].
  - congruence.
  - injection E1 as -> ->. exfalso. apply Hk. apply in_map_iff. exists (k, v'). auto.
  - injection E2 as -> ->. exfalso. apply Hk. apply in_map_iff. exists (k, v). auto.
  - apply IH; assumption.
Qed.

Lemma collect_preserves body (items : list (string * pyval)) (k : string)
  (c : contribution) :
  ~ In k (dict_keys items) ->
  forall acc res,
    In (k, c) acc -> collect body items acc = Ok res -> In (k, c) res.
Proof.
  induction items as [| [k0 d0] items IH]; simpl; intros Hk acc res Hin.
  - intros H. injection H as <-. exact Hin.
  - unfold bind. destruct (body k0 d0) as [[c0 |] | e]; [| | discriminate].
    + apply IH; [tauto |]. apply dict_set_In_other; [| exact Hin].
      intros ->. tauto.
    + apply IH; [tauto | exact Hin].
Qed.

Lemma collect_complete body (items : list (string * pyval)) (k : string)
  (d : pyval) (c : contribution) :
  NoDup (dict_keys items) ->
  In (k, d) items ->
  body k d = Ok (Some c) ->
  forall acc res, collect body items acc = Ok res -> In (k, c) res.
Proof.
  unfold dict_keys.
  induction items as [| [k0 d0] items IH]; simpl; intros Hnd Hin Hb acc res; [tauto |].
  inversion Hnd as [| ? ? Hk0 Hnd']; subst.
  destruct Hin as [E | Hin].
  - injection E as -> ->. rewrite Hb. cbn [bind].
    apply collect_preserves; [exact Hk0 | apply dict_set_In_same].
  - unfold bind. destruct (body k0 d0) as [[c0 |] | e]; [| | discriminate];
      apply IH; assumption.
Qed.

Lemma filter_loop_preserves (items : list (string * pyval)) (k : string) (d : pyval) :
  ~ In k (dict_keys items) ->
  forall valid res,
    In (k, d) valid -> filter_loop items valid = Ok res -> In (k, d) res.
Proof.
  induction items as [| [k0 d0] items IH]; intros Hk valid res Hin.
  - cbn. intros H. injection H as <-. exact Hin.
  - simpl in Hk. cbn [filter_loop].
    destruct (negb (truthy d0)); [apply IH; tauto |].
    unfold bind. destruct (py_get d0 "status" (VStr "")) as [st |]; [| discriminate].
    destruct (existsb _ _); [| apply IH; tauto].
    apply IH; [tauto |]. apply dict_set_In_other; [| exact Hin].
    intros ->. tauto.
Qed.

Lemma filter_loop_complete (items : list (string * pyval)) (k : string) (d : pyval) :
  NoDup (dict_keys items) ->
  In (k, d) items ->
  dropped d = false ->
  forall valid res, filter_loop items valid = Ok res -> In (k, d) res.
Proof.
  unfold dict_keys.
  induction items as [| [k0 d0] items IH]; intros Hnd Hin Hd valid res;
    [destruct Hin |].
  cbn [map fst] in Hnd. inversion Hnd as [| ? ? Hk0 Hnd']; subst.
  cbn [filter_loop]. destruct Hin as [E | Hin].
  - injection E as -> ->.
    destruct (truthy d) eqn:T; cbn [negb].
    + destruct d as [| b | q | | s | l | dd]; cbn [dropped] in Hd;
        try (rewrite T in Hd; discriminate).
      rewrite T in Hd. cbn [negb orb] in Hd.
      cbn [py_get bind]. fold (eligible_status
        (match dict_get "status" dd with Some s => s | None => VStr "" end)).
      destruct (eligible_status _); [| discriminate].
      apply filter_loop_preserves; [exact Hk0 | apply dict_set_In_same].
    + destruct d; cbn [dropped] in Hd; rewrite ?T in Hd; discriminate.
  - destruct (negb (truthy d0)); [apply IH; assumption |].
    unfold bind. destruct (py_get d0 "status" (VStr "")) as [st |]; [| discriminate].
    destruct (existsb _ _); apply IH; assumption.
Qed.

Lemma filter_loop_NoDup (items : list (string * pyval)) :
  forall valid res,
    NoDup (dict_keys valid) -> filter_loop items valid = Ok res ->
    NoDup (dict_keys res).
Proof.
  induction items as [| [k0 d0] items IH]; intros valid res Hv.
  - cbn. intros H. injection H as <-. exact Hv.
  - cbn [filter_loop].
    destruct (negb (truthy d0)); [apply IH; assumption |].
    unfold bind. destruct (py_get d0 "status" (VStr "")) as [st |]; [| discriminate].
    destruct (existsb _ _); apply IH; [apply dict_set_NoDup |]; assumption.
Qed.

Lemma filtered_NoDup (satellites : pyval) (valid : list (string * pyval)) :
  _filter_valid_satellites satellites = Ok valid -> NoDup (dict_keys valid).
Proof.
  unfold _filter_valid_satellites, bind.
  destruct (py_items satellites) as [items |]; [| discriminate].
  apply filter_loop_NoDup. constructor.
Qed.

Lemma filtered_subset (sats valid : list (string * pyval)) :
  _filter_valid_satellites (VDict sats) = Ok valid ->
  Forall (fun kd => In kd sats /\ dropped (snd kd) = false) valid.
Proof.
  unfold _filter_valid_satellites. cbn [py_items bind]. intros H.
  eapply filter_loop_invariant; [| constructor | exact H].
  intros k d Hk Hd. split; assumption.
Qed.

(** ** Well-shaped sources never raise *)

Lemma contribute_scalar (sat_name : string) (lo hi : Q) (raw : pyval) :
  scalar_or_none raw = true -> exists c, contribute sat_name lo hi raw = Ok c.
Proof.
  unfold contribute, bind.
  destruct raw as [| b | q | | s | l | d]; simpl; try discriminate; intros _.
  - eexists. reflexivity.
  - destruct (Qle_bool lo _ && Qle_bool _ hi); eexists; reflexivity.
  - destruct (Qle_bool lo q && Qle_bool q hi); eexists; reflexivity.
  - eexists. reflexivity.
Qed.

Lemma field_ok_get (k : string) (d : list (string * pyval)) :
  field_ok k d = true ->
  scalar_or_none (match dict_get k d with Some x => x | None => VNone end) = true.
Proof. unfold field_ok. destruct (dict_get k d); auto. Qed.

Lemma well_shaped_raw (m : metric) (sat_name : string) (dd : list (string * pyval)) :
  well_shaped_source sat_name (VDict dd) = true ->
  exists raw,
    metric_raw m sat_name (VDict dd) = Ok raw /\ scalar_or_none raw = true.
Proof.
  cbn [well_shaped_source]. intros H.
  apply andb_prop in H. destruct H as [H Hm].
  apply andb_prop in H. destruct H as [Hi Ht].
  destruct m; cbn [metric_raw].
  - destruct (str_in sat_name _); [| exists VNone; auto].
    cbn [py_get bind].
    destruct (dict_get "indices" dd) as [[| | | | | | i] |]; try discriminate.
    + apply andb_prop in Hi. destruct Hi as [Hn _].
      eexists. split; [reflexivity | apply field_ok_get; exact Hn].
    + exists VNone. auto.
  - destruct (str_in sat_name _); [| exists VNone; auto].
    cbn [py_get bind].
    destruct (dict_get "indices" dd) as [[| | | | | | i] |]; try discriminate.
    + apply andb_prop in Hi. destruct Hi as [_ He].
      eexists. split; [reflexivity | apply field_ok_get; exact He].
    + exists VNone. auto.
  - destruct (String.eqb_spec sat_name "landsat8") as [-> | _].
    { cbn [py_get]. eexists. split; [reflexivity |].
      destruct (dict_get "temperature" dd) as [[| | | | | | t] |]; try reflexivity;
        discriminate. }
    destruct (String.eqb_spec sat_name "modis") as [-> | _].
    { cbn [py_get bind].
      destruct (dict_get "temperature" dd) as [[| | | | | | t] |];
        cbn [is_dict py_get bind]; try discriminate;
        try (eexists; split; reflexivity).
      cbn [String.eqb Ascii.eqb Bool.eqb andb] in Ht.
      eexists. split; [reflexivity |].
      destruct (dict_get "land_surface" t) as [x |]; [exact Ht |].
      apply field_ok_get. exact Ht. }
    destruct (String.eqb_spec sat_name "irs") as [-> | _]; [| exists VNone; auto].
    cbn [py_get]. eexists. split; [reflexivity |].
    destruct (dict_get "temperature" dd) as [[| | | | | | t] |]; try reflexivity;
      discriminate.
  - destruct (str_in sat_name _); [| exists VNone; auto].
    cbn [py_get]. eexists. split; [reflexivity | apply field_ok_get; exact Hm].
Qed.

Lemma well_shaped_body (m : metric) (sat_name : string) (dd : list (string * pyval)) :
  well_shaped_source sat_name (VDict dd) = true ->
  exists c, metric_body m sat_name (VDict dd) = Ok c.
Proof.
  intros H. destruct (well_shaped_raw m sat_name dd H) as (raw & Hraw & Hs).
  rewrite metric_body_raw, Hraw. cbn [bind]. apply contribute_scalar. exact Hs.
Qed.

Lemma well_shaped_kept_is_dict (sat_name : string) (d : pyval) :
  well_shaped_source sat_name d = true -> dropped d = false ->
  exists dd, d = VDict dd.
Proof.
  destruct d as [| b | q | | s | l | dd]; cbn [well_shaped_source dropped];
    intros H1 H2; try (rewrite H1 in H2; discriminate).
  exists dd. reflexivity.
Qed.

Lemma collect_total body (items : list (string * pyval)) :
  Forall (fun kd => exists c, body (fst kd) (snd kd) = Ok c) items ->
  forall acc, exists res, collect body items acc = Ok res.
Proof.
  induction 1 as [| [k d] items (c & Hc) _ IH]; intros acc; simpl.
  - exists acc. reflexivity.
  - simpl in Hc. rewrite Hc. cbn [bind]. destruct c; apply IH.
Qed.

Lemma filter_loop_total (items : list (string * pyval)) :
  Forall (fun kd => well_shaped_source (fst kd) (snd kd) = true) items ->
  forall valid, exists res, filter_loop items valid = Ok res.
Proof.
  induction 1 as [| [k d] items Hd _ IH]; intros valid.
  - exists valid. reflexivity.
  - cbn [filter_loop]. simpl in Hd.
    destruct (truthy d) eqn:T; cbn [negb]; [| apply IH].
    destruct d as [| b | q | | s | l | dd]; cbn [well_shaped_source] in Hd;
      try (rewrite T in Hd; discriminate).
    cbn [py_get bind]. destruct (existsb _ _); apply IH.
Qed.

Lemma fuse_metric_total (m : metric) (valid : list (string * pyval)) :
  Forall (fun kd => exists dd, snd kd = VDict dd
                    /\ well_shaped_source (fst kd) (snd kd) = true) valid ->
  exists om, fuse_metric m valid = Ok om.
Proof.
  intros HF. rewrite fuse_metric_unfold.
  destruct (collect_total (metric_body m) valid) with (acc := @nil (string * contribution))
    as (sources & Hc).
  { eapply Forall_impl; [| exact HF]. intros [k d] (dd & E & Hw). simpl in *. subst d.
    apply well_shaped_body. exact Hw. }
  rewrite Hc. cbn [bind].
  destruct sources as [| s0 rest] eqn:Es.
  - exists None. reflexivity.
  - rewrite <- Es in *.
    destruct (fuse_sources_ok (metric_max_variance m) (metric_high_below m)
                (metric_medium_below m) sources) as (r & Hr).
    + rewrite Es. discriminate.
    + apply (collected_weights_pos m valid). exact Hc.
    + exists (Some r). exact Hr.
Qed.

Lemma report_of_valid_total (now : string) (loc : pyval)
  (valid : list (string * pyval)) :
  (forall m, exists om, fuse_metric m valid = Ok om) ->
  exists r, report_of_valid now loc valid = Ok (Fused r).
Proof.
  intros H. unfold report_of_valid. destruct valid as [| v0 valid'].
  - eexists. reflexivity.
  - destruct (H Ndvi) as (o1 & E1), (H Temperature) as (o2 & E2),
      (H SoilMoisture) as (o3 & E3), (H Evi) as (o4 & E4).
    cbn [fuse_metric] in E1, E2, E3, E4.
    rewrite E1, E2, E3, E4. cbn [bind]. eexists. reflexivity.
Qed.

(** The entries of a metric are in the report exactly when its routine
    returned a result, and they are that result's fields. *)
Lemma report_metric_lookup (now : string) (loc : pyval)
  (valid : list (string * pyval)) (r : report) (m : metric) :
  report_of_valid now loc valid = Ok (Fused r) ->
  exists om,
    fuse_metric m valid = Ok om
    /\ dict_get (metric_key m) (cross_validation r) = option_map m_cross_val om
    /\ dict_get (metric_key m) (confidence_scores r) = option_map m_confidence om
    /\ dict_get (metric_key m) (fused_metrics r) = option_map m_value om.
Proof.
  unfold report_of_valid.
  destruct valid as [| v0 valid']; [| set (valid := v0 :: valid')].
  { intros H. injection H as <-. exists None. destruct m; repeat split; reflexivity. }
  unfold bind.
  destruct (_fuse_ndvi valid) as [r1 |] eqn:E1; [| discriminate].
  destruct (_fuse_temperature valid) as [r2 |] eqn:E2; [| discriminate].
  destruct (_fuse_moisture valid) as [r3 |] eqn:E3; [| discriminate].
  destruct (_fuse_evi valid) as [r4 |] eqn:E4; [| discriminate].
  intros H. injection H as <-.
  destruct m; cbn [fuse_metric];
    [exists r1 | exists r4 | exists r2 | exists r3];
    (split; [assumption |]);
    destruct r1, r2, r3, r4; repeat split; reflexivity.
Qed.

Lemma fuse_satellite_data_Fused (now : string) (input : pyval) (r : report) :
  fuse_satellite_data now input = Ok (Fused r) ->
  exists loc valid, report_of_valid now loc valid = Ok (Fused r).
Proof.
  unfold fuse_satellite_data, bind.
  destruct (if negb (truthy input) then Ok true else _) as [[|] |]; try discriminate.
  destruct (py_getitem input "satellites") as [sv |]; [| discriminate].
  destruct (py_get input "location" (VDict [])) as [loc |]; [| discriminate].
  destruct (_filter_valid_satellites sv) as [valid |]; [| discriminate].
  intros H. exists loc, valid. rewrite <- H. unfold report_of_valid, bind.
  destruct valid as [| v valid]; [reflexivity |].
  destruct (_fuse_ndvi (v :: valid)) as [r1 |]; [| reflexivity].
  destruct (_fuse_temperature (v :: valid)) as [r2 |]; [| reflexivity].
  destruct (_fuse_moisture (v :: valid)) as [r3 |]; [| reflexivity].
  destruct (_fuse_evi (v :: valid)) as [r4 |]; [| reflexivity].
  destruct r1, r2, r3, r4; reflexivity.
Qed.

(** A metric entry of a returned report, traced back to its routine. *)
Lemma reported_metric (now : string) (input : pyval) (rep : report) (m : metric) :
  fuse_satellite_data now input = Ok (Fused rep) ->
  exists valid om,
    fuse_metric m valid = Ok om
    /\ dict_get (metric_key m) (cross_validation rep) = option_map m_cross_val om
    /\ dict_get (metric_key m) (confidence_scores rep) = option_map m_confidence om
    /\ dict_get (metric_key m) (fused_metrics rep) = option_map m_value om.
Proof.
  intros H. apply fuse_satellite_data_Fused in H. destruct H as (loc & valid & H).
  destruct (report_metric_lookup now loc valid rep m H) as (om & Hom).
  exists valid, om. exact Hom.
Qed.

Lemma accept_in_range_inside (lo hi : Q) (v : pyval) (q : Q) :
  py_number v = Some q -> lo <= q -> q <= hi ->
  accept_in_range lo hi v = Ok (Some q).
Proof.
  intros Hn Hlo Hhi.
  apply Qle_bool_iff in Hlo. apply Qle_bool_iff in Hhi.
  destruct v as [| b | x | | s | l | d]; simpl in *; try discriminate;
    injection Hn as <-; rewrite Hlo, Hhi; reflexivity.
Qed.

Lemma metric_body_inside (m : metric) (name : string) (d raw : pyval) (q : Q) :
  metric_raw m name d = Ok raw ->
  py_number raw = Some q ->
  valid_lo m <= q -> q <= valid_hi m ->
  metric_body m name d = Ok (Some {| c_value := q; c_weight := weight_of name |}).
Proof.
  intros Hraw Hn Hlo Hhi. rewrite metric_body_raw, Hraw. unfold bind, contribute.
  rewrite (accept_in_range_inside _ _ _ _ Hn Hlo Hhi). reflexivity.
Qed.

(** Whether a kept source contributes to a metric is decided by the value
    it reports for that metric alone. *)
Lemma contributes_iff (m : metric) (valid : list (string * pyval))
  (name : string) (d : pyval) (om : option metric_result) :
  NoDup (dict_keys valid) ->
  In (name, d) valid ->
  fuse_metric m valid = Ok om ->
  In name (match option_map m_cross_val om with
           | Some cv => dict_keys (cv_sources cv)
           | None => []
           end)
  <-> exists raw q,
        metric_raw m name d = Ok raw /\ py_number raw = Some q
        /\ valid_lo m <= q /\ q <= valid_hi m.
Proof.
  intros Hnd Hin Hf. split.
  - destruct om as [mr |]; cbn [option_map]; [| intros []].
    intros Hk. unfold dict_keys in Hk. apply in_map_iff in Hk.
    destruct Hk as ([k v] & E & Hk). simpl in E. subst k.
    destruct (fuse_metric_kept_values m valid mr name v Hf Hk)
      as ([Hlo Hhi] & d' & raw & Hd' & Hraw & Hnum).
    rewrite (NoDup_keys_functional valid name d d' Hnd Hin Hd').
    exists raw, v. auto.
  - intros (raw & q & Hraw & Hnum & Hlo & Hhi).
    pose proof (metric_body_inside m name d raw q Hraw Hnum Hlo Hhi) as Hb.
    rewrite fuse_metric_unfold in Hf. unfold bind in Hf.
    destruct (collect (metric_body m) valid []) as [sources |] eqn:Hc; [| discriminate].
    pose proof (collect_complete _ valid name d _ Hnd Hin Hb [] sources Hc) as Hs.
    destruct om as [mr |].
    + apply fuse_sources_Some in Hf. destruct Hf as (_ & _ & _ & Hsrc & _).
      cbn [option_map]. rewrite Hsrc. unfold dict_keys.
      apply in_map_iff. eexists (name, _). split; [reflexivity |].
      apply in_map_iff. eexists (name, _). split; [reflexivity | exact Hs].
    + unfold fuse_sources in Hf. destruct sources; [destruct Hs |].
      destruct (Qeq_bool _ 0); discriminate.
Qed.

(** ** The two temperature shapes *)

Lemma normalised_temperature_raw (name : string) (d : list (string * pyval))
  (raw : pyval) :
  normalised_temperature name d = Some raw ->
  metric_raw Temperature name (VDict d) = Ok raw.
Proof.
  unfold normalised_temperature, str_in. cbn [existsb metric_raw].
  destruct (String.eqb_spec name "landsat8") as [-> | _].
  { cbn [orb py_get]. intros ->. reflexivity. }
  destruct (String.eqb_spec name "irs") as [-> | _].
  { cbn [orb py_get String.eqb Ascii.eqb Bool.eqb andb]. intros ->. reflexivity. }
  cbn [orb].
  destruct (String.eqb name "modis"); [| discriminate].
  cbn [py_get bind].
  destruct (dict_get "temperature" d) as [[| b | q | | s | l | t] |];
    cbn [is_dict py_get bind]; try (intros H; injection H as <-; reflexivity);
    try discriminate.
  destruct (dict_get "land_surface" t) as [x |].
  - intros H. injection H as <-. reflexivity.
  - intros ->. reflexivity.
Qed.

Lemma normalised_temperature_none (name : string) (d : list (string * pyval)) :
  normalised_temperature name d = None ->
  temperature_body name (VDict d) = Ok None.
Proof.
  unfold normalised_temperature, str_in, temperature_body. cbn [existsb].
  destruct (String.eqb_spec name "landsat8") as [-> | _].
  { cbn [orb py_get]. intros ->. reflexivity. }
  destruct (String.eqb_spec name "irs") as [-> | _].
  { cbn [orb py_get String.eqb Ascii.eqb Bool.eqb andb]. intros ->. reflexivity. }
  cbn [orb].
  destruct (String.eqb name "modis"); [| reflexivity].
  cbn [py_get bind].
  destruct (dict_get "temperature" d) as [[| b | q | | s | l | t] |];
    cbn [is_dict py_get bind]; try discriminate; try reflexivity.
  destruct (dict_get "land_surface" t) as [x |]; [discriminate |].
  intros ->. reflexivity.
Qed.

Lemma routine_confidence_spec (m : metric) (sats : list (string * pyval))
  (r : metric_result) :
  fuse_metric m sats = Ok (Some r) ->
  m_confidence r ==
    spec_confidence (cv_num_sources (m_cross_val r))
      (cv_variance (m_cross_val r)) (spec_max_variance m).
Proof.
  intros H. apply fuse_metric_Some in H. destruct H as (sources & _ & H).
  apply fuse_sources_Some in H.
  destruct H as (_ & _ & Hc & _ & _ & Hv & Hn).
  rewrite Hc, Hv, Hn, calculate_confidence_spec.
  apply spec_confidence_compat. apply metric_max_variance_spec.
Qed.

(** ** The module's test run *)

Example test_fusion_engine_run :
  exists rep,
    fuse_satellite_data "2026-01-01T00:00:00" test_data = Ok (Fused rep)
    /\ status rep = Some "success"
    /\ data_sources rep = ["sentinel2"; "landsat8"; "sentinel1"; "irs"]
    /\ dict_keys (fused_metrics rep) = ["ndvi"; "temperature"; "soil_moisture"; "evi"]
    /\ consensus_level rep = "High"
    /\ overall_quality rep = "Fair".
Proof.
  eexists. split; [vm_compute; reflexivity |].
  repeat split; reflexivity.
Qed.

(** ** The contributors, read off the input *)








(** ** The claims *)



(** C2. For each metric, the fused value a routine returns, and so the
    fused value a report lists, lies in the range in which the routine
    accepts inputs ([-1,1] for ndvi and evi, [0,100] for soil moisture,
    [0,60] for temperature); every per-source value it kept lies in that
    range and is the number that source reported, unchanged; and a source
    whose reported number is outside the range contributes nothing (it is
    dropped, not clamped). *)
Theorem fused_value_in_valid_range (m : metric) :
  (forall sats r,
     fuse_metric m sats = Ok (Some r) ->
     (valid_lo m <= m_value r /\ m_value r <= valid_hi m)
     /\ (forall name v,
           In (name, v) (cv_sources (m_cross_val r)) ->
           (valid_lo m <= v /\ v <= valid_hi m)
           /\ exists d raw,
                In (name, d) sats
                /\ metric_raw m name d = Ok raw
                /\ py_number raw = Some v))
  /\ (forall now input rep v,
        fuse_satellite_data now input = Ok (Fused rep) ->
        dict_get (metric_key m) (fused_metrics rep) = Some v ->
        valid_lo m <= v /\ v <= valid_hi m)
  /\ (forall name d raw q,
        metric_raw m name d = Ok raw ->
        py_number raw = Some q ->
        ~ (valid_lo m <= q /\ q <= valid_hi m) ->
        metric_body m name d = Ok None).
Proof.
  split; [| split].
  - intros sats r H. split.
    + apply (fuse_metric_value_in_range m sats r H).
    + intros name v Hin. apply (fuse_metric_kept_values m sats r name v H Hin).
  - intros now input rep v H Hv.
    destruct (reported_metric now input rep m H) as (valid & om & Hom & _ & _ & Hx).
    rewrite Hv in Hx. destruct om as [mr |]; [| discriminate].
    injection Hx as ->. apply (fuse_metric_value_in_range m valid mr Hom).
  - apply metric_body_outside.
Qed.

Lemma fused_value_in_valid_range_witness :
  (exists r,
     fuse_metric SoilMoisture valid_test_satellites = Ok (Some r)
     /\ (valid_lo SoilMoisture <= m_value r /\ m_value r <= valid_hi SoilMoisture))
  /\ (exists rep v,
        fuse_satellite_data "2026-01-01T00:00:00" test_data = Ok (Fused rep)
        /\ dict_get "soil_moisture" (fused_metrics rep) = Some v
        /\ 0 <= v /\ v <= 100)
  /\ metric_body SoilMoisture "sentinel1"
       (VDict [("status", VStr "success"); ("soil_moisture_estimate", VNum 140)])
     = Ok None.
Proof.
  destruct (fused_value_in_valid_range SoilMoisture) as (Hroutine & Hreport & Hdrop).
  split; [| split].
  - eexists. split; [vm_compute; reflexivity |].
    apply (Hroutine valid_test_satellites). vm_compute. reflexivity.
  - eexists. eexists.
    match goal with
    | |- ?A = Ok (Fused ?rep) /\ ?B = Some ?v /\ _ =>
        assert (H1 : A = Ok (Fused rep)) by (vm_compute; reflexivity);
        assert (H2 : B = Some v) by (vm_compute; reflexivity)
    end.
    split; [exact H1 |]. split; [exact H2 |].
    apply (Hreport _ _ _ _ H1 H2).
  - apply (Hdrop "sentinel1" _ (VNum 140) 140).
    + reflexivity.
    + reflexivity.
    + simpl. intros [_ H]. apply H. reflexivity.
Defined.

(** C3 as stated fails: a value of an unexpected shape raises. *)
Lemma text_ndvi_raises :
  fuse_satellite_data "2026-01-01T00:00:00" input_with_text_ndvi = Raise TypeError.
Proof. vm_compute. reflexivity. Qed.

(** C3, amended. On an input whose source entries have the expected
    shape (see [well_shaped_source]), whatever their values, fusion
    raises no exception and returns a report; every source that passes
    the filter is listed in [data_sources]; and such a source is among
    the per-source values of a metric exactly when the value it reports
    for that metric is present and within the metric's range, so that a
    missing or out-of-range value excludes it from that metric only. *)
Theorem well_shaped_sources_never_raise (now : string)
  (top sats : list (string * pyval)) :
  dict_get "satellites" top = Some (VDict sats) ->
  NoDup (dict_keys sats) ->
  Forall (fun kd => well_shaped_source (fst kd) (snd kd) = true) sats ->
  exists r,
    fuse_satellite_data now (VDict top) = Ok (Fused r)
    /\ forall name d,
         In (name, d) sats -> dropped d = false ->
         In name (data_sources r)
         /\ forall m,
              In name (metric_sources r m)
              <-> exists raw q,
                    metric_raw m name d = Ok raw /\ py_number raw = Some q
                    /\ valid_lo m <= q /\ q <= valid_hi m.
Proof.
  intros Hs Hnd Hws.
  rewrite (fuse_satellite_data_dict now top _ Hs).
  destruct (filter_loop_total sats Hws []) as (valid & Hv).
  assert (Hf : _filter_valid_satellites (VDict sats) = Ok valid) by exact Hv.
  rewrite Hf. cbn [bind].
  pose proof (filtered_subset sats valid Hf) as Hsub.
  pose proof (filtered_NoDup _ valid Hf) as Hndv.
  rewrite Forall_forall in Hws, Hsub.
  assert (Htot : forall m, exists om, fuse_metric m valid = Ok om).
  { intros m. apply fuse_metric_total. apply Forall_forall. intros [k d] Hin.
    destruct (Hsub _ Hin) as [Hin' Hd]. specialize (Hws _ Hin'). simpl in *.
    destruct (well_shaped_kept_is_dict k d Hws Hd) as (dd & ->).
    exists dd. auto. }
  destruct (report_of_valid_total now (location_of top) valid Htot) as (r & Hr).
  exists r. split; [exact Hr |].
  intros name d Hin Hd.
  assert (Hinv : In (name, d) valid).
  { apply (filter_loop_complete sats name d Hnd Hin Hd [] valid Hv). }
  split.
  - rewrite (report_data_sources now _ valid r Hr). unfold dict_keys.
    apply in_map_iff. exists (name, d). auto.
  - intros m.
    destruct (report_metric_lookup now _ valid r m Hr) as (om & Hom & Hget & _).
    unfold metric_sources. rewrite Hget.
    apply (contributes_iff m valid name d om Hndv Hinv Hom).
Qed.

Lemma well_shaped_sources_never_raise_witness :
  exists r,
    fuse_satellite_data "2026-01-01T00:00:00"
      (VDict [("satellites", VDict defective_satellites)]) = Ok (Fused r)
    /\ In "landsat8" (data_sources r)
    /\ ~ In "landsat8" (metric_sources r Ndvi)
    /\ In "landsat8" (metric_sources r Temperature).
Proof.
  destruct (well_shaped_sources_never_raise "2026-01-01T00:00:00"
              [("satellites", VDict defective_satellites)] defective_satellites)
    as (r & Hr & Hloc).
  - reflexivity.
  - repeat constructor; simpl; intuition discriminate.
  - repeat constructor.
  - exists r. split; [exact Hr |].
    destruct (Hloc "landsat8"
                (VDict [ ("status", VStr "success");
                         ("temperature", VNum 28.5);
                         ("indices", VDict [("ndvi", VNum 1.7)]) ]))
      as (Hds & Hm).
    + left. reflexivity.
    + reflexivity.
    + split; [exact Hds |]. split.
      * intros Hin. apply (Hm Ndvi) in Hin.
        destruct Hin as (raw & q & Hraw & Hnum & Hlo & Hhi).
        vm_compute in Hraw. injection Hraw as <-.
        vm_compute in Hnum. injection Hnum as <-.
        vm_compute in Hhi. apply Hhi. reflexivity.
      * apply (Hm Temperature). exists (VNum 28.5), 28.5.
        repeat split; vm_compute; congruence.
Defined.

(** C4 as stated fails: the nested shape from landsat8 is not normalised. *)
Lemma landsat8_nested_temperature_raises :
  _fuse_temperature landsat8_nested = Raise TypeError.
Proof. vm_compute. reflexivity. Qed.

(** C4, amended. The temperature routine normalises the accepted input
    shapes to a single scalar before fusing: a flat scalar from landsat8,
    irs or modis is taken as it is, and the nested shape is accepted from
    modis, where the land_surface field is preferred and the mean field
    taken otherwise.  When that scalar is a number in [0, 60] it is the
    value the source contributes: alone, the source yields a result whose
    only per-source value is that scalar, and among other sources it is
    the value recorded for the source. *)
Theorem temperature_shapes_normalised (name : string) (d : list (string * pyval))
  (raw : pyval) (q : Q) :
  normalised_temperature name d = Some raw ->
  py_number raw = Some q -> 0 <= q -> q <= 60 ->
  (exists r,
     _fuse_temperature [(name, VDict d)] = Ok (Some r)
     /\ cv_sources (m_cross_val r) = [(name, q)]
     /\ cv_num_sources (m_cross_val r) = 1%nat)
  /\ (forall sats r,
        NoDup (dict_keys sats) ->
        In (name, VDict d) sats ->
        _fuse_temperature sats = Ok (Some r) ->
        In (name, q) (cv_sources (m_cross_val r))).
Proof.
  intros Hn Hnum Hlo Hhi.
  pose proof (normalised_temperature_raw name d raw Hn) as Hraw.
  pose proof (metric_body_inside Temperature name (VDict d) raw q Hraw Hnum Hlo Hhi) as Hb.
  cbn [metric_body] in Hb.
  split.
  - destruct (fuse_sources_ok 4.0 1.0 3.0
                [(name, {| c_value := q; c_weight := weight_of name |})])
      as (r & Hr).
    + discriminate.
    + constructor; [apply weight_of_pos | constructor].
    + exists r. split.
      * unfold _fuse_temperature. cbn [collect]. rewrite Hb. cbn [bind dict_set].
        exact Hr.
      * apply fuse_sources_Some in Hr. destruct Hr as (_ & _ & _ & Hs & _ & _ & Hc).
        split; [exact Hs | exact Hc].
  - intros sats r Hnd Hin Hf.
    change (_fuse_temperature sats) with (fuse_metric Temperature sats) in Hf.
    apply fuse_metric_Some in Hf. destruct Hf as (sources & Hc & Hf).
    apply fuse_sources_Some in Hf. destruct Hf as (_ & _ & _ & Hs & _).
    rewrite Hs. apply in_map_iff.
    exists (name, {| c_value := q; c_weight := weight_of name |}).
    split; [reflexivity |].
    apply (collect_complete _ sats name (VDict d) _ Hnd Hin Hb [] sources Hc).
Qed.

Lemma temperature_shapes_normalised_witness :
  exists r,
    _fuse_temperature [("modis", VDict modis_nested)] = Ok (Some r)
    /\ cv_sources (m_cross_val r) = [("modis", 27)]
    /\ cv_num_sources (m_cross_val r) = 1%nat.
Proof.
  destruct (temperature_shapes_normalised "modis" modis_nested (VNum 27) 27)
    as [Hone _].
  - reflexivity.
  - reflexivity.
  - discriminate.
  - discriminate.
  - exact Hone.
Defined.

(** C5 as stated fails: the report carries the time of the call. *)
Lemma report_depends_on_clock :
  fuse_satellite_data "2026-01-01T00:00:00" empty_input
  <> fuse_satellite_data "2026-01-01T00:00:01" empty_input.
Proof. vm_compute. discriminate. Qed.

(** C5, amended. The output of the method is determined by its input and
    by the clock reading stored in [timestamp], and by nothing else: two
    calls on the same input return reports that are identical once their
    timestamps are made the same, and identical outright when the method
    returns its invalid-input dict. *)
Theorem report_determined_up_to_timestamp (now1 now2 : string) (input : pyval) :
  fuse_satellite_data now2 input
  = with_timestamp now2 (fuse_satellite_data now1 input).
Proof.
  unfold fuse_satellite_data, bind.
  destruct (if negb (truthy input) then Ok true else _) as [[|] |]; try reflexivity.
  destruct (py_getitem input "satellites") as [sv |]; [| reflexivity].
  destruct (py_get input "location" (VDict [])) as [loc |]; [| reflexivity].
  destruct (_filter_valid_satellites sv) as [[| v valid] |]; try reflexivity.
  destruct (_fuse_ndvi (v :: valid)) as [r1 |]; [| reflexivity].
  destruct (_fuse_temperature (v :: valid)) as [r2 |]; [| reflexivity].
  destruct (_fuse_moisture (v :: valid)) as [r3 |]; [| reflexivity].
  destruct (_fuse_evi (v :: valid)) as [r4 |]; [| reflexivity].
  destruct r1, r2, r3, r4; reflexivity.
Qed.

(** C6. A source that is absent from the input, or whose entry is empty,
    or whose status is not success, fallback or simulated (status "error"
    in particular), is not listed in [data_sources] and is not among the
    per-source values of any metric; the report is the one obtained from
    the input without that entry. *)
Theorem ineligible_source_never_used :
  (forall now top sats name r,
     dict_get "satellites" top = Some (VDict sats) ->
     (forall d, In (name, d) sats -> dropped d = true) ->
     fuse_satellite_data now (VDict top) = Ok (Fused r) ->
     ~ In name (data_sources r)
     /\ forall key cv,
          In (key, cv) (cross_validation r) ->
          ~ In name (dict_keys (cv_sources cv)))
  /\ (forall now top s1 s2 name d,
        dict_get "satellites" top = Some (VDict (s1 ++ (name, d) :: s2)) ->
        dropped d = true ->
        fuse_satellite_data now (VDict top) =
        fuse_satellite_data now (VDict (dict_set "satellites" (VDict (s1 ++ s2)) top)))
  /\ (forall entry,
        dict_get "status" entry = Some (VStr "error") ->
        dropped (VDict entry) = true).
Proof.
  split; [| split].
  - intros now top sats name r Hs Hdrop H.
    destruct (fused_sources_are_filtered now top sats r Hs H) as (valid & Hf & Hr).
    assert (Hnot : ~ In name (dict_keys valid)).
    { intros Hin. destruct (filtered_keys_eligible sats valid name Hf Hin) as (d & Hd & E).
      rewrite (Hdrop d Hd) in E. discriminate. }
    split.
    + rewrite (report_data_sources now _ valid r Hr). exact Hnot.
    + intros key cv Hin Hname.
      destruct (report_cross_validation now _ valid r key cv Hr Hin)
        as (m & mr & Hm & _ & -> & _).
      unfold dict_keys in Hname. apply in_map_iff in Hname.
      destruct Hname as ([k v] & E & Hk). simpl in E. subst k.
      destruct (fuse_metric_kept_values m valid mr name v Hm Hk) as (_ & d & _ & Hd & _).
      apply Hnot. unfold dict_keys. apply in_map_iff. exists (name, d). auto.
  - intros now top s1 s2 name d. apply fuse_ignores_dropped.
  - intros entry H. cbn [dropped]. rewrite H. cbn. apply orb_true_r.
Qed.

Lemma ineligible_source_never_used_witness :
  exists r,
    fuse_satellite_data "2026-01-01T00:00:00" (VDict input_with_error_source) = Ok (Fused r)
    /\ ~ In "modis" (data_sources r)
    /\ (forall key cv,
          In (key, cv) (cross_validation r) ->
          ~ In "modis" (dict_keys (cv_sources cv)))
    /\ fuse_satellite_data "2026-01-01T00:00:00" (VDict input_with_error_source)
       = fuse_satellite_data "2026-01-01T00:00:00"
           (VDict (dict_set "satellites" (VDict valid_test_satellites)
                     input_with_error_source)).
Proof.
  destruct ineligible_source_never_used as (Hmem & Hinv & Herr).
  eexists. split; [vm_compute; reflexivity |].
  assert (Hd : dropped (VDict [("status", VStr "error"); ("temperature", num 30 1)]) = true).
  { apply Herr. reflexivity. }
  rewrite <- and_assoc. split.
  - eapply (Hmem "2026-01-01T00:00:00" input_with_error_source _ "modis").
    + reflexivity.
    + intros d [E | Hin].
      * injection E as <-. exact Hd.
      * simpl in Hin.
        repeat match goal with
        | H : _ \/ _ |- _ => destruct H as [H | H]
        | H : (_, _) = (_, _) |- _ => discriminate H
        | H : False |- _ => destruct H
        end.
    + vm_compute. reflexivity.
  - apply (Hinv "2026-01-01T00:00:00" input_with_error_source [] valid_test_satellites
             "modis" (VDict [("status", VStr "error"); ("temperature", num 30 1)])).
    + reflexivity.
    + exact Hd.
Defined.

(** C7. When the filter leaves no source, the method returns at once a
    report with status [no_valid_data], the explanatory message, and
    empty [fused_metrics], [confidence_scores], [cross_validation] and
    [data_sources]; that report has no [overall_confidence] key, and its
    two tiers are the placeholder ["Unknown"]. *)
Theorem no_valid_data_report (now : string) (top : list (string * pyval))
  (satellites : pyval) :
  dict_get "satellites" top = Some satellites ->
  _filter_valid_satellites satellites = Ok [] ->
  exists r,
    fuse_satellite_data now (VDict top) = Ok (Fused r)
    /\ status r = Some "no_valid_data"
    /\ message r = Some "No valid satellite data available for fusion"
    /\ fused_metrics r = []
    /\ confidence_scores r = []
    /\ cross_validation r = []
    /\ data_sources r = []
    /\ consensus_level r = "Unknown"
    /\ overall_quality r = "Unknown"
    /\ overall_confidence r = None.
Proof.
  intros Hs Hf. rewrite (fuse_satellite_data_dict now top _ Hs), Hf.
  cbn [bind report_of_valid]. eexists. split; [reflexivity |].
  cbn. repeat split; reflexivity.
Qed.

Lemma no_valid_data_report_witness :
  exists r,
    fuse_satellite_data "2026-01-01T00:00:00" empty_input = Ok (Fused r)
    /\ status r = Some "no_valid_data"
    /\ fused_metrics r = []
    /\ overall_confidence r = None.
Proof.
  destruct (no_valid_data_report "2026-01-01T00:00:00"
              [("satellites", VDict [])] (VDict []) eq_refl eq_refl)
    as (r & H & Hst & _ & Hfm & _ & _ & _ & _ & _ & Hoc).
  exists r. auto.
Defined.

(** C8 as stated fails: on the scenario the ndvi confidence is not above 0.9. *)
Lemma ndvi_scenario_confidence_not_above_09 :
  exists r c,
    fuse_satellite_data "2026-01-01T00:00:00" ndvi_scenario = Ok (Fused r)
    /\ dict_get "ndvi" (confidence_scores r) = Some c
    /\ ~ (0.9 < c).
Proof.
  eexists. eexists. split; [vm_compute; reflexivity |].
  split; [vm_compute; reflexivity |].
  vm_compute. discriminate.
Qed.

(** C8, amended. On the scenario (sentinel2 0.65, landsat8 0.63, irs 0.64,
    weights 0.95, 0.85, 0.90) the fused ndvi is the weighted mean
    1729/2700, between 0.640 and 0.641; the variance is 1/15000, about
    0.00007; the agreement tier is "High"; and the ndvi confidence is
    637/750, about 0.849, below the 0.85 that three contributors allow. *)
Theorem ndvi_scenario_report (now : string) :
  exists r f cv c,
    fuse_satellite_data now ndvi_scenario = Ok (Fused r)
    /\ (weight_of "sentinel2" == 0.95 /\ weight_of "landsat8" == 0.85
        /\ weight_of "irs" == 0.90)
    /\ dict_get "ndvi" (fused_metrics r) = Some f
    /\ dict_get "ndvi" (cross_validation r) = Some cv
    /\ dict_get "ndvi" (confidence_scores r) = Some c
    /\ f == (0.65 * 0.95 + 0.63 * 0.85 + 0.64 * 0.90) / (0.95 + 0.85 + 0.90)
    /\ f == 1729 # 2700 /\ 0.640 < f /\ f < 0.641
    /\ cv_variance cv == 1 # 15000
    /\ 0.00006 < cv_variance cv /\ cv_variance cv < 0.00007
    /\ cv_agreement cv = "High"
    /\ cv_num_sources cv = 3%nat
    /\ c == 637 # 750 /\ 0.849 < c /\ c < 0.85.
Proof.
  eexists. eexists. eexists. eexists.
  split; [vm_compute; reflexivity |].
  split; [vm_compute; auto |].
  split; [vm_compute; reflexivity |].
  split; [vm_compute; reflexivity |].
  split; [vm_compute; reflexivity |].
  vm_compute. repeat split; reflexivity.
Qed.

(** C9. For each metric: when every source kept so far reports the same
    value, adding to the input one more source that the routine accepts
    with that same value gives a result with one more contributor whose
    confidence is not lower. *)
Theorem agreeing_source_does_not_lower_confidence (m : metric)
  (s1 s2 : list (string * pyval)) (name : string) (d : pyval)
  (c : contribution) (r : metric_result) :
  ~ In name (dict_keys (s1 ++ s2)) ->
  metric_body m name d = Ok (Some c) ->
  fuse_metric m (s1 ++ s2) = Ok (Some r) ->
  (forall n v, In (n, v) (cv_sources (m_cross_val r)) -> v == c_value c) ->
  exists r',
    fuse_metric m (s1 ++ (name, d) :: s2) = Ok (Some r')
    /\ cv_num_sources (m_cross_val r') = S (cv_num_sources (m_cross_val r))
    /\ m_confidence r <= m_confidence r'.
Proof.
  intros Hfresh Hb Hr Hagree.
  apply fuse_metric_Some in Hr. destruct Hr as (rx & Hcx & Hfx).
  destruct (collect_add_source _ s1 s2 name d c rx Hfresh Hb Hcx) as (ry & Hcy & Hins).
  assert (Hne : ry <> []).
  { destruct Hins as (a1 & a2 & _ & ->). destruct a1; discriminate. }
  destruct (fuse_sources_ok (metric_max_variance m) (metric_high_below m)
              (metric_medium_below m) ry Hne (collected_weights_pos m _ ry Hcy))
    as (r' & Hfy).
  exists r'. split.
  { rewrite fuse_metric_unfold, Hcy. exact Hfy. }
  apply fuse_sources_Some in Hfx. apply fuse_sources_Some in Hfy.
  destruct Hfx as (_ & _ & Hconf & Hsrc & _ & _ & Hnum).
  destruct Hfy as (_ & _ & Hconf' & _ & _ & _ & Hnum').
  split.
  { rewrite Hnum, Hnum'. apply (inserted_length _ _ _ Hins). }
  assert (Hx : Forall (fun kc => c_value (snd kc) == c_value c) rx).
  { apply Forall_forall. intros [k cx] Hin. simpl.
    apply (Hagree k). rewrite Hsrc.
    apply in_map_iff. exists (k, cx). split; [reflexivity | exact Hin]. }
  assert (Hy : Forall (fun kc => c_value (snd kc) == c_value c) ry).
  { apply (inserted_Forall _ _ _ _ Hins); [reflexivity | exact Hx]. }
  pose proof (variance_of_agreeing _ rx Hx) as Vx.
  pose proof (variance_of_agreeing _ ry Hy) as Vy.
  rewrite Hconf, Hconf', !calculate_confidence_spec.
  apply spec_confidence_monotone.
  - rewrite (inserted_length _ _ _ Hins). lia.
  - lra.
  - apply metric_max_variance_pos.
Qed.

Lemma agreeing_source_does_not_lower_confidence_witness :
  exists r r',
    fuse_metric Ndvi (agreeing_pair ++ []) = Ok (Some r)
    /\ fuse_metric Ndvi (agreeing_pair ++ [("irs", agreeing_irs)]) = Ok (Some r')
    /\ cv_num_sources (m_cross_val r') = S (cv_num_sources (m_cross_val r))
    /\ m_confidence r <= m_confidence r'.
Proof.
  eexists. eexists.
  split; [vm_compute; reflexivity |].
  split; [vm_compute; reflexivity |].
  match goal with
  | |- _ /\ m_confidence ?r <= _ =>
      destruct (agreeing_source_does_not_lower_confidence Ndvi agreeing_pair []
                  "irs" agreeing_irs {| c_value := 0.64; c_weight := 0.90 |} r)
        as (r' & H1 & H2 & H3)
  end.
  - simpl. intros [E | [E | []]]; discriminate E.
  - reflexivity.
  - vm_compute. reflexivity.
  - simpl. intros n v [E | [E | []]]; injection E as _ <-; reflexivity.
  - assert (E : Ok (Some r') = fuse_metric Ndvi (agreeing_pair ++ [("irs", agreeing_irs)]))
      by (symmetry; exact H1).
    vm_compute in E. injection E as ->. split; [exact H2 | exact H3].
Defined.

(** C10. Temperature fusion keeps a source only when the scalar it read
    for it lies in [0, 60]: every per-source temperature in the result is
    in that range, and a source whose temperature is below 0 or above 60
    is dropped without an exception, the result being the same as if the
    source were not in the input. *)
Theorem temperature_accepted_only_in_0_60 :
  (forall sats r name v,
     _fuse_temperature sats = Ok (Some r) ->
     In (name, v) (cv_sources (m_cross_val r)) ->
     0 <= v /\ v <= 60)
  /\ (forall s1 s2 name d raw q,
        metric_raw Temperature name d = Ok raw ->
        py_number raw = Some q ->
        q < 0 \/ 60 < q ->
        temperature_body name d = Ok None
        /\ _fuse_temperature (s1 ++ (name, d) :: s2) = _fuse_temperature (s1 ++ s2)).
Proof.
  split.
  - intros sats r name v H Hin.
    destruct (fuse_metric_kept_values Temperature sats r name v H Hin) as [Hr _].
    exact Hr.
  - intros s1 s2 name d raw q Hraw Hnum Hout.
    assert (Hb : temperature_body name d = Ok None).
    { apply (metric_body_outside Temperature name d raw q Hraw Hnum).
      simpl. lra. }
    split; [exact Hb |].
    apply (fuse_metric_skip Temperature name d s1 s2 Hb).
Qed.

Lemma temperature_accepted_only_in_0_60_witness :
  (exists r,
     _fuse_temperature frosty_satellites = Ok (Some r)
     /\ In ("irs", 21.5) (cv_sources (m_cross_val r))
     /\ 0 <= 21.5 /\ 21.5 <= 60)
  /\ temperature_body "landsat8" (VDict [("status", VStr "success"); ("temperature", num (-35) 10)])
     = Ok None
  /\ _fuse_temperature frosty_satellites
     = _fuse_temperature
         [("irs", VDict [("status", VStr "success"); ("temperature", num 215 10)])].
Proof.
  destruct temperature_accepted_only_in_0_60 as [Hkept Hdrop].
  split.
  - eexists. split; [vm_compute; reflexivity |].
    split; [left; reflexivity |].
    eapply (Hkept frosty_satellites _ "irs" 21.5).
    + vm_compute. reflexivity.
    + left. reflexivity.
  - apply (Hdrop [] [("irs", VDict [("status", VStr "success"); ("temperature", num 215 10)])]
             "landsat8" _ (num (-35) 10) (-35 # 10)).
    + reflexivity.
    + reflexivity.
    + left. reflexivity.
Defined.


(** ** Further properties of the engine *)

Lemma report_of_valid_is_Fused (now : string) (loc : pyval)
  (valid : list (string * pyval)) (out : fusion_output) :
  report_of_valid now loc valid = Ok out -> exists r, out = Fused r.
Proof.
  unfold report_of_valid. destruct valid as [| v0 valid'].
  - intros H. injection H as <-. eexists. reflexivity.
  - unfold bind.
    destruct (_fuse_ndvi _) as [r1 |]; [| discriminate].
    destruct (_fuse_temperature _) as [r2 |]; [| discriminate].
    destruct (_fuse_moisture _) as [r3 |]; [| discriminate].
    destruct (_fuse_evi _) as [r4 |]; [| discriminate].
    intros H. injection H as <-. eexists. reflexivity.
Qed.

(** X1. An input that is empty (falsy) gets the two-key error dict, and a
    dict input gets it exactly when it has no ['satellites'] key; the
    error dict is returned, never raised. *)
Theorem invalid_input_report (now : string) :
  (forall input,
     truthy input = false ->
     fuse_satellite_data now input = Ok (InvalidInput "error" "Invalid input data"))
  /\ (forall top,
        fuse_satellite_data now (VDict top)
          = Ok (InvalidInput "error" "Invalid input data")
        <-> dict_get "satellites" top = None).
Proof.
  split.
  - intros input H. unfold fuse_satellite_data. rewrite H. reflexivity.
  - intros top. split.
    + intros H. destruct (dict_get "satellites" top) as [sv |] eqn:E; [| reflexivity].
      rewrite (fuse_satellite_data_dict now top sv E) in H. unfold bind in H.
      destruct (_filter_valid_satellites sv) as [valid |]; [| discriminate].
      destruct (report_of_valid_is_Fused _ _ _ _ H) as (r & Hr). discriminate.
    + intros H. unfold fuse_satellite_data.
      destruct top as [| e top]; [reflexivity |].
      cbn [truthy negb py_contains bind]. rewrite H. reflexivity.
Qed.

Lemma invalid_input_report_witness :
  fuse_satellite_data "2026-01-01T00:00:00" VNone
    = Ok (InvalidInput "error" "Invalid input data")
  /\ fuse_satellite_data "2026-01-01T00:00:00" (VDict [("location", VDict [])])
     = Ok (InvalidInput "error" "Invalid input data").
Proof.
  destruct (invalid_input_report "2026-01-01T00:00:00") as [Hfalsy Hdict].
  split.
  - apply Hfalsy. reflexivity.
  - apply Hdict. reflexivity.
Defined.

(** X2. When the ['satellites'] value of the input is not a dict (for
    instance [None] or a list), the method raises [AttributeError]. *)
Theorem satellites_not_a_dict_raises (now : string) (top : list (string * pyval))
  (satellites : pyval) :
  dict_get "satellites" top = Some satellites ->
  is_dict satellites = false ->
  fuse_satellite_data now (VDict top) = Raise AttributeError.
Proof.
  intros H Hd. rewrite (fuse_satellite_data_dict now top satellites H).
  destruct satellites; try reflexivity. discriminate.
Qed.

Lemma satellites_not_a_dict_raises_witness :
  fuse_satellite_data "2026-01-01T00:00:00" (VDict [("satellites", VNone)])
  = Raise AttributeError.
Proof.
  apply (satellites_not_a_dict_raises "2026-01-01T00:00:00"
           [("satellites", VNone)] VNone); reflexivity.
Defined.

Lemma filter_loop_raises_iff (items : list (string * pyval)) :
  forall valid,
    (exists k d, In (k, d) items /\ filterable d = false)
    <-> filter_loop items valid = Raise AttributeError.
Proof.
  induction items as [| [k d] items IH]; intros valid.
  - cbn. split; [intros (k & d & [] & _) | discriminate].
  - cbn [filter_loop]. unfold filterable in *.
    destruct (truthy d) eqn:T; cbn [negb].
    + destruct d as [| b | q | | s | l | dd]; cbn [py_get bind is_dict orb];
        try (split; [reflexivity | intros _; eexists; eexists; split;
                                     [left; reflexivity | rewrite T; reflexivity]]).
      destruct (existsb _ _); rewrite <- IH; split.
      * intros (k' & d' & [E | Hin] & Hf); [| eauto].
        injection E as <- <-. rewrite T in Hf. discriminate.
      * intros (k' & d' & Hin & Hf). exists k', d'. split; [right |]; assumption.
      * intros (k' & d' & [E | Hin] & Hf); [| eauto].
        injection E as <- <-. rewrite T in Hf. discriminate.
      * intros (k' & d' & Hin & Hf). exists k', d'. split; [right |]; assumption.
    + rewrite <- IH. split.
      * intros (k' & d' & [E | Hin] & Hf); [| eauto].
        injection E as <- <-. rewrite T in Hf. discriminate.
      * intros (k' & d' & Hin & Hf). exists k', d'. split; [right |]; assumption.
Qed.

Lemma filter_loop_never_other (items : list (string * pyval)) :
  forall valid e, filter_loop items valid = Raise e -> e = AttributeError.
Proof.
  induction items as [| [k d] items IH]; intros valid e.
  - discriminate.
  - cbn [filter_loop]. destruct (negb (truthy d)); [apply IH |].
    destruct d; cbn [py_get bind]; try (intros H; injection H as <-; reflexivity).
    destruct (existsb _ _); apply IH.
Qed.

(** X3. The source filter raises exactly when some entry is neither empty
    nor a dict (a non-empty string, a number, a list), and then it raises
    [AttributeError] and so does the whole method; it raises nothing else. *)
Theorem malformed_entry_raises (sats : list (string * pyval)) :
  ((exists name d, In (name, d) sats /\ filterable d = false)
   <-> _filter_valid_satellites (VDict sats) = Raise AttributeError)
  /\ (forall e, _filter_valid_satellites (VDict sats) = Raise e -> e = AttributeError)
  /\ (forall now top,
        dict_get "satellites" top = Some (VDict sats) ->
        (exists name d, In (name, d) sats /\ filterable d = false) ->
        fuse_satellite_data now (VDict top) = Raise AttributeError).
Proof.
  split; [| split].
  - apply (filter_loop_raises_iff sats []).
  - apply (filter_loop_never_other sats []).
  - intros now top Hs Hex.
    rewrite (fuse_satellite_data_dict now top _ Hs).
    apply (filter_loop_raises_iff sats []) in Hex.
    unfold _filter_valid_satellites. cbn [py_items bind]. rewrite Hex. reflexivity.
Qed.

Lemma malformed_entry_raises_witness :
  fuse_satellite_data "2026-01-01T00:00:00"
    (VDict [("satellites", VDict [("sentinel2", VStr "unavailable")])])
  = Raise AttributeError.
Proof.
  destruct (malformed_entry_raises [("sentinel2", VStr "unavailable")]) as (_ & _ & H).
  apply (H "2026-01-01T00:00:00"
           [("satellites", VDict [("sentinel2", VStr "unavailable")])]).
  - reflexivity.
  - exists "sentinel2", (VStr "unavailable"). split; [left; reflexivity | reflexivity].
Defined.

Lemma filter_loop_is_filter (items : list (string * pyval)) :
  NoDup (dict_keys items) ->
  Forall (fun kd => filterable (snd kd) = true) items ->
  forall valid,
    (forall k, In k (dict_keys items) -> ~ In k (dict_keys valid)) ->
    filter_loop items valid
    = Ok (valid ++ filter (fun kd => negb (dropped (snd kd))) items).
Proof.
  unfold dict_keys.
  induction items as [| [k d] items IH]; intros Hnd Hf valid Hfresh.
  - cbn. rewrite app_nil_r. reflexivity.
  - cbn [map fst] in Hnd. inversion Hnd as [| ? ? Hk Hnd']; subst.
    inversion Hf as [| ? ? Hd Hf']; subst. cbn [snd] in Hd.
    assert (Hrest : forall valid',
              (forall k', In k' (map fst items) -> ~ In k' (dict_keys valid')) ->
              filter_loop items valid'
              = Ok (valid' ++ filter (fun kd => negb (dropped (snd kd))) items)).
    { intros valid' H'. apply IH; assumption. }
    cbn [filter_loop filter snd].
    destruct (truthy d) eqn:T; cbn [negb].
    + destruct d as [| b | q | | s | l | dd]; unfold filterable in Hd;
        rewrite T in Hd; cbn in Hd; try discriminate.
      cbn [py_get bind dropped]. rewrite T. cbn [negb orb].
      fold (eligible_status
        (match dict_get "status" dd with Some s => s | None => VStr "" end)).
      destruct (eligible_status _); cbn [negb].
      * rewrite (dict_set_fresh k (VDict dd) valid).
        2:{ apply Hfresh. left. reflexivity. }
        rewrite Hrest.
        { rewrite <- app_assoc. reflexivity. }
        intros k' Hin Hin'. unfold dict_keys in Hin'. rewrite map_app in Hin'.
        apply in_app_or in Hin'. destruct Hin' as [Hin' | [<- | []]].
        -- apply (Hfresh k'); [right; exact Hin | exact Hin'].
        -- contradiction.
      * apply Hrest. intros k' Hin. apply Hfresh. right. exact Hin.
    + assert (Hdrop : dropped d = true).
      { destruct d; cbn [dropped]; rewrite T; reflexivity. }
      rewrite Hdrop. cbn [negb].
      apply Hrest. intros k' Hin. apply Hfresh. right. exact Hin.
Qed.

(** X4. On a mapping whose entries are each empty or a dict, the filter
    returns, in the order of the input, exactly the entries that are
    non-empty and whose status is success, fallback or simulated; the
    report lists their names in that order, each once. *)
Theorem filter_keeps_eligible_in_order (sats : list (string * pyval)) :
  NoDup (dict_keys sats) ->
  Forall (fun kd => filterable (snd kd) = true) sats ->
  _filter_valid_satellites (VDict sats)
    = Ok (filter (fun kd => negb (dropped (snd kd))) sats)
  /\ forall now top r,
       dict_get "satellites" top = Some (VDict sats) ->
       fuse_satellite_data now (VDict top) = Ok (Fused r) ->
       data_sources r
         = dict_keys (filter (fun kd => negb (dropped (snd kd))) sats)
       /\ NoDup (data_sources r).
Proof.
  intros Hnd Hf.
  assert (E : _filter_valid_satellites (VDict sats)
              = Ok (filter (fun kd => negb (dropped (snd kd))) sats)).
  { unfold _filter_valid_satellites. cbn [py_items bind].
    rewrite (filter_loop_is_filter sats Hnd Hf []); [reflexivity |].
    intros k _ []. }
  split; [exact E |].
  intros now top r Hs H.
  destruct (fused_sources_are_filtered now top sats r Hs H) as (valid & Hv & Hr).
  rewrite (report_data_sources now _ valid r Hr).
  split.
  - rewrite E in Hv. injection Hv as <-. reflexivity.
  - apply (filtered_NoDup _ valid Hv).
Qed.

Lemma filter_keeps_eligible_in_order_witness :
  _filter_valid_satellites
    (VDict (("modis", VDict [("status", VStr "error")]) :: valid_test_satellites))
  = Ok valid_test_satellites.
Proof.
  destruct (filter_keeps_eligible_in_order
              (("modis", VDict [("status", VStr "error")]) :: valid_test_satellites))
    as [H _].
  - repeat constructor; simpl; intuition discriminate.
  - repeat constructor.
  - exact H.
Defined.



(** *** Who can contribute *)

Lemma str_in_In (x : string) (l : list string) : str_in x l = true -> In x l.
Proof.
  unfold str_in. intros H. apply existsb_exists in H.
  destruct H as (y & Hy & E). apply String.eqb_eq in E. subst y. exact Hy.
Qed.

Lemma metric_body_eligible (m : metric) (name : string) (d : pyval) (c : contribution) :
  metric_body m name d = Ok (Some c) -> In name (eligible_names m).
Proof.
  destruct m; cbn [metric_body eligible_names];
    unfold ndvi_body, evi_body, temperature_body, moisture_body.
  - destruct (str_in name _) eqn:E; [intros _; apply str_in_In; exact E | discriminate].
  - destruct (str_in name _) eqn:E; [intros _; apply str_in_In; exact E | discriminate].
  - destruct (String.eqb_spec name "landsat8") as [-> | _]; [intros _; simpl; auto |].
    destruct (String.eqb_spec name "modis") as [-> | _]; [intros _; simpl; auto |].
    destruct (String.eqb_spec name "irs") as [-> | _]; [intros _; simpl; auto |].
    discriminate.
  - destruct (str_in name _) eqn:E; [intros _; apply str_in_In; exact E | discriminate].
Qed.

Lemma collect_NoDup body (items : list (string * pyval)) :
  forall acc res,
    NoDup (dict_keys acc) -> collect body items acc = Ok res -> NoDup (dict_keys res).
Proof.
  induction items as [| [k d] items IH]; intros acc res Hacc; simpl.
  - intros H. injection H as <-. exact Hacc.
  - unfold bind. destruct (body k d) as [[c |] | e]; [| | discriminate].
    + apply IH. apply dict_set_NoDup. exact Hacc.
    + apply IH. exact Hacc.
Qed.

Lemma collected_names_eligible (m : metric) (sats : list (string * pyval))
  (sources : list (string * contribution)) :
  collect (metric_body m) sats [] = Ok sources ->
  Forall (fun kc => In (fst kc) (eligible_names m)) sources.
Proof.
  apply collect_invariant; [| constructor].
  intros k d c _ Hb. simpl. apply (metric_body_eligible m k d c Hb).
Qed.

Lemma cv_sources_keys (sources : list (string * contribution)) :
  dict_keys (map (fun '(name, data) => (name, c_value data)) sources)
  = dict_keys sources.
Proof.
  unfold dict_keys. rewrite map_map. apply map_ext. intros [k c]. reflexivity.
Qed.

(** X6. Only the sources a routine consults appear among a metric's
    per-source values: sentinel2, landsat8 and irs for ndvi and evi;
    landsat8, modis and irs for temperature; sentinel1 and risat for soil
    moisture.  In a report, cartosat and oceansat, which the weight table
    ranks, are in no metric's sources. *)
Theorem only_consulted_sources_contribute (m : metric) :
  (forall sats r name,
     fuse_metric m sats = Ok (Some r) ->
     In name (dict_keys (cv_sources (m_cross_val r))) ->
     In name (eligible_names m))
  /\ (forall now input rep name,
        fuse_satellite_data now input = Ok (Fused rep) ->
        In name (metric_sources rep m) ->
        In name (eligible_names m)
        /\ name <> "cartosat" /\ name <> "oceansat").
Proof.
  assert (Hroutine : forall sats r name,
            fuse_metric m sats = Ok (Some r) ->
            In name (dict_keys (cv_sources (m_cross_val r))) ->
            In name (eligible_names m)).
  { intros sats r name H Hin.
    apply fuse_metric_Some in H. destruct H as (sources & Hc & H).
    apply fuse_sources_Some in H. destruct H as (_ & _ & _ & Hs & _).
    rewrite Hs, cv_sources_keys in Hin.
    pose proof (collected_names_eligible m sats sources Hc) as HF.
    rewrite Forall_forall in HF.
    unfold dict_keys in Hin. apply in_map_iff in Hin.
    destruct Hin as (kc & <- & Hin). apply (HF kc Hin). }
  split; [exact Hroutine |].
  intros now input rep name H Hin.
  destruct (reported_metric now input rep m H) as (valid & om & Hom & Hx & _).
  unfold metric_sources in Hin. rewrite Hx in Hin.
  destruct om as [mr |]; cbn [option_map] in Hin; [| destruct Hin].
  pose proof (Hroutine valid mr name Hom Hin) as He.
  split; [exact He |].
  destruct m; simpl in He; intuition (subst; discriminate).
Qed.

Lemma only_consulted_sources_contribute_witness :
  exists r,
    fuse_metric Ndvi valid_test_satellites = Ok (Some r)
    /\ In "irs" (dict_keys (cv_sources (m_cross_val r)))
    /\ In "irs" (eligible_names Ndvi).
Proof.
  destruct (only_consulted_sources_contribute Ndvi) as [H _].
  eexists. split; [vm_compute; reflexivity |].
  assert (Hin : In "irs" ["sentinel2"; "landsat8"; "irs"]) by (simpl; auto).
  split; [exact Hin |].
  eapply (H valid_test_satellites _ "irs").
  - vm_compute. reflexivity.
  - exact Hin.
Defined.

(** *** Bounds on the variance and the confidence of a metric *)

Lemma qsum_nonneg (l : list Q) : Forall (fun x => 0 <= x) l -> 0 <= qsum l.
Proof.
  induction 1 as [| x l Hx _ IH].
  - rewrite qsum_nil. lra.
  - rewrite qsum_cons. lra.
Qed.

Lemma np_var_nonneg (l : list Q) : 0 <= np_var l.
Proof.
  unfold np_var.
  set (n := inject_Z (Z.of_nat (length l))). set (mu := qsum l / n).
  assert (Hs : 0 <= qsum (map (fun x => (x - mu) * (x - mu)) l)).
  { apply qsum_nonneg. apply Forall_map. apply Forall_forall.
    intros x _. cbv beta. clearbody mu. clear.
    destruct (Qlt_le_dec x mu); nra. }
  assert (Hn : 0 <= n) by apply inject_nat_nonneg.
  apply Qle_lt_or_eq in Hn. destruct Hn as [Hn | Hn].
  - apply Qle_shift_div_l; [exact Hn | lra].
  - unfold Qdiv. rewrite <- Hn. change (/ 0) with 0. lra.
Qed.

Lemma variance_of_nonneg (sources : list (string * contribution)) :
  0 <= variance_of sources.
Proof.
  unfold variance_of. destruct (1 <? _)%nat; [apply np_var_nonneg | discriminate].
Qed.

Lemma spec_confidence_bounds (n : nat) (v mv : Q) :
  (1 <= n)%nat -> 0 <= v -> 0 < mv ->
  0.15 <= spec_confidence n v mv
  /\ spec_confidence n v mv <= 0.6 * (inject_Z (Z.of_nat n) / 4) + 0.4
  /\ spec_confidence n v mv <= 1.
Proof.
  intros Hn Hv Hmv. unfold spec_confidence.
  assert (Hc : 0.25 <= inject_Z (Z.of_nat n) / 4).
  { apply Qle_shift_div_l; [reflexivity |].
    assert (H1 : inject_Z 1 <= inject_Z (Z.of_nat n)) by (rewrite <- Zle_Qle; lia).
    change (inject_Z 1) with 1 in H1. lra. }
  assert (Hd : 0 <= v / mv).
  { apply Qle_shift_div_l; [exact Hmv | lra]. }
  generalize dependent (inject_Z (Z.of_nat n) / 4).
  generalize dependent (v / mv).
  intros d Hd c Hc.
  name_minmax. split_minmax; repeat split; lra.
Qed.

Lemma eligible_names_NoDup (m : metric) : NoDup (eligible_names m).
Proof.
  destruct m; simpl; repeat constructor; simpl; intuition discriminate.
Qed.

Lemma fuse_metric_bounds (m : metric)
  (sats : list (string * pyval)) (r : metric_result) :
  fuse_metric m sats = Ok (Some r) ->
  (1 <= cv_num_sources (m_cross_val r) <= length (eligible_names m))%nat
  /\ NoDup (dict_keys (cv_sources (m_cross_val r)))
  /\ 0 <= cv_variance (m_cross_val r)
  /\ 0.15 <= m_confidence r
  /\ m_confidence r
       <= 0.6 * (inject_Z (Z.of_nat (cv_num_sources (m_cross_val r))) / 4) + 0.4
  /\ m_confidence r <= (match m with SoilMoisture => 0.70 | _ => 0.85 end).
Proof.
  intros H. pose proof (routine_confidence_spec m sats r H) as Hconf.
  apply fuse_metric_Some in H. destruct H as (sources & Hc & H).
  apply fuse_sources_Some in H.
  destruct H as (Hne & _ & _ & Hs & _ & Hv & Hn).
  assert (Hnd : NoDup (dict_keys sources)).
  { apply (collect_NoDup (metric_body m) sats [] sources); [constructor | exact Hc]. }
  assert (Hlen : (1 <= length sources <= length (eligible_names m))%nat).
  { split.
    - destruct sources; [congruence | simpl; lia].
    - replace (length sources) with (length (dict_keys sources))
        by (unfold dict_keys; apply length_map).
      apply NoDup_incl_length; [exact Hnd |].
      intros k Hk. unfold dict_keys in Hk. apply in_map_iff in Hk.
      destruct Hk as (kc & <- & Hin).
      pose proof (collected_names_eligible m sats sources Hc) as HF.
      rewrite Forall_forall in HF. apply (HF kc Hin). }
  assert (Hvar : 0 <= cv_variance (m_cross_val r)).
  { rewrite Hv. apply variance_of_nonneg. }
  rewrite Hn in *.
  destruct (spec_confidence_bounds (length sources) (cv_variance (m_cross_val r))
              (spec_max_variance m)) as (B1 & B2 & _).
  { lia. } { exact Hvar. } { destruct m; reflexivity. }
  split; [exact Hlen |].
  split; [rewrite Hs, cv_sources_keys; exact Hnd |].
  split; [exact Hvar |].
  split; [lra |]. split; [lra |].
  assert (Hq : inject_Z (Z.of_nat (length sources))
               <= inject_Z (Z.of_nat (length (eligible_names m)))).
  { rewrite <- Zle_Qle. lia. }
  assert (H4 : inject_Z (Z.of_nat (length sources)) / 4
               == 0.25 * inject_Z (Z.of_nat (length sources))) by field.
  generalize dependent (inject_Z (Z.of_nat (length sources)) / 4).
  intros t B2 H4.
  generalize dependent (inject_Z (Z.of_nat (length sources))).
  intros q Hq H4.
  destruct m; cbn in Hq; unfold inject_Z in Hq; lra.
Qed.


(** X7. A metric that is reported has at least one contributor and at
    most as many as the routine consults (three, or two for soil
    moisture), each source counted once; its variance is not negative;
    and its confidence is at least 0.15 and at most
    [0.6 * count/4 + 0.4], hence at most 0.85, or 0.70 for soil moisture.
    The same holds for every cross-validation record of a report. *)
Theorem metric_contributors_and_confidence_bounded (m : metric) :
  (forall sats r,
     fuse_metric m sats = Ok (Some r) ->
     (1 <= cv_num_sources (m_cross_val r) <= length (eligible_names m))%nat
     /\ NoDup (dict_keys (cv_sources (m_cross_val r)))
     /\ 0 <= cv_variance (m_cross_val r)
     /\ 0.15 <= m_confidence r
     /\ m_confidence r
          <= 0.6 * (inject_Z (Z.of_nat (cv_num_sources (m_cross_val r))) / 4) + 0.4
     /\ m_confidence r <= (match m with SoilMoisture => 0.70 | _ => 0.85 end))
  /\ (forall now input rep cv,
        fuse_satellite_data now input = Ok (Fused rep) ->
        dict_get (metric_key m) (cross_validation rep) = Some cv ->
        (1 <= cv_num_sources cv <= length (eligible_names m))%nat
        /\ NoDup (dict_keys (cv_sources cv))
        /\ 0 <= cv_variance cv).
Proof.
  split.
  - intros sats r H. apply (fuse_metric_bounds m sats r H).
  - intros now input rep cv H Hcv.
    destruct (reported_metric now input rep m H) as (valid & om & Hom & Hx & _).
    rewrite Hcv in Hx. destruct om as [mr |]; [| discriminate].
    injection Hx as ->.
    destruct (fuse_metric_bounds m valid mr Hom) as (H1 & H2 & H3 & _).
    split; [exact H1 |]. split; [exact H2 | exact H3].
Qed.

Lemma metric_contributors_and_confidence_bounded_witness :
  exists r,
    fuse_metric SoilMoisture valid_test_satellites = Ok (Some r)
    /\ 0.15 <= m_confidence r /\ m_confidence r <= 0.70.
Proof.
  destruct (metric_contributors_and_confidence_bounded SoilMoisture) as [Hroutine _].
  eexists. split; [vm_compute; reflexivity |].
  match goal with
  | |- 0.15 <= m_confidence ?r /\ _ =>
      destruct (Hroutine valid_test_satellites r) as (_ & _ & _ & H1 & _ & H2)
  end.
  - vm_compute. reflexivity.
  - split; [exact H1 | exact H2].
Defined.

(** *** The shape of a report *)

Lemma report_structure (now : string) (loc : pyval)
  (valid : list (string * pyval)) (r : report) :
  report_of_valid now loc valid = Ok (Fused r) ->
  exists (results : list (metric * metric_result)) (f : metric -> bool),
    map fst results = filter f metric_order
    /\ Forall (fun e => fuse_metric (fst e) valid = Ok (Some (snd e))) results
    /\ fused_metrics r = map (fun e => (metric_key (fst e), m_value (snd e))) results
    /\ confidence_scores r
       = map (fun e => (metric_key (fst e), m_confidence (snd e))) results
    /\ cross_validation r
       = map (fun e => (metric_key (fst e), m_cross_val (snd e))) results
    /\ (valid <> [] ->
        status r = Some "success"
        /\ overall_confidence r
           = Some (_calculate_overall_confidence (confidence_scores r))
        /\ consensus_level r = _calculate_consensus_level (cross_validation r)
        /\ overall_quality r
           = _determine_quality (_calculate_overall_confidence (confidence_scores r))
               (length valid)).
Proof.
  unfold report_of_valid.
  destruct valid as [| v0 valid']; [| set (valid := v0 :: valid')].
  { intros H. injection H as <-. exists [], (fun _ => false).
    split; [reflexivity |]. split; [constructor |].
    split; [reflexivity |]. split; [reflexivity |]. split; [reflexivity |].
    intros Hc. congruence. }
  unfold bind.
  destruct (_fuse_ndvi valid) as [r1 |] eqn:E1; [| discriminate].
  destruct (_fuse_temperature valid) as [r2 |] eqn:E2; [| discriminate].
  destruct (_fuse_moisture valid) as [r3 |] eqn:E3; [| discriminate].
  destruct (_fuse_evi valid) as [r4 |] eqn:E4; [| discriminate].
  intros H. injection H as <-.
  exists ((match r1 with Some x => [(Ndvi, x)] | None => [] end)
          ++ (match r2 with Some x => [(Temperature, x)] | None => [] end)
          ++ (match r3 with Some x => [(SoilMoisture, x)] | None => [] end)
          ++ (match r4 with Some x => [(Evi, x)] | None => [] end)),
         (fun m => match m with
                   | Ndvi => match r1 with Some _ => true | None => false end
                   | Temperature => match r2 with Some _ => true | None => false end
                   | SoilMoisture => match r3 with Some _ => true | None => false end
                   | Evi => match r4 with Some _ => true | None => false end
                   end).
  destruct r1, r2, r3, r4;
    (split; [reflexivity |]);
    (split; [repeat constructor; assumption |]);
    repeat split; reflexivity.
Qed.

(** X8. The three per-metric dicts of a report list the same metrics, a
    selection of ndvi, temperature, soil_moisture, evi in that order; and
    the cross-validation record of a metric repeats the fused value the
    report lists for it and counts the per-source values it holds. *)
Theorem report_dicts_aligned (now : string) (input : pyval) (rep : report) :
  fuse_satellite_data now input = Ok (Fused rep) ->
  (exists f,
     dict_keys (fused_metrics rep) = map metric_key (filter f metric_order)
     /\ dict_keys (confidence_scores rep) = map metric_key (filter f metric_order)
     /\ dict_keys (cross_validation rep) = map metric_key (filter f metric_order))
  /\ forall key cv,
       In (key, cv) (cross_validation rep) ->
       dict_get key (fused_metrics rep) = Some (cv_fused cv)
       /\ cv_num_sources cv = length (cv_sources cv).
Proof.
  intros H. apply fuse_satellite_data_Fused in H. destruct H as (loc & valid & H).
  split.
  - destruct (report_structure now loc valid rep H)
      as (results & f & Hk & _ & Hf & Hc & Hx & _).
    exists f. unfold dict_keys. rewrite Hf, Hc, Hx, !map_map. cbn [fst].
    rewrite <- Hk, map_map. auto.
  - intros key cv Hin.
    destruct (report_cross_validation now loc valid rep key cv H Hin)
      as (m & mr & Hm & _ & -> & _ & Hv).
    apply fuse_metric_Some in Hm. destruct Hm as (sources & _ & Hs).
    apply fuse_sources_Some in Hs. destruct Hs as (_ & _ & _ & Hsrc & Hfv & _ & Hn).
    rewrite Hfv, Hn, Hsrc, length_map. auto.
Qed.

Lemma report_dicts_aligned_witness :
  exists rep,
    fuse_satellite_data "2026-01-01T00:00:00" test_data = Ok (Fused rep)
    /\ exists f,
         dict_keys (fused_metrics rep) = map metric_key (filter f metric_order)
         /\ dict_keys (confidence_scores rep) = map metric_key (filter f metric_order)
         /\ dict_keys (cross_validation rep) = map metric_key (filter f metric_order).
Proof.
  eexists. split; [vm_compute; reflexivity |].
  match goal with
  | |- exists f, dict_keys (fused_metrics ?rep) = _ /\ _ =>
      destruct (report_dicts_aligned "2026-01-01T00:00:00" test_data rep) as [H _]
  end.
  - vm_compute. reflexivity.
  - exact H.
Defined.

(** *** The overall confidence *)

Lemma mean_in_range (lo hi : Q) (l : list Q) :
  l <> [] ->
  Forall (fun x => lo <= x /\ x <= hi) l ->
  lo <= qsum l / inject_Z (Z.of_nat (length l))
  /\ qsum l / inject_Z (Z.of_nat (length l)) <= hi.
Proof.
  intros Hne HF.
  assert (Hn : 0 < inject_Z (Z.of_nat (length l))).
  { destruct l as [| x l]; [congruence |]. cbn [length].
    rewrite inject_nat_succ. pose proof (inject_nat_nonneg (length l)). lra. }
  assert (Hs : lo * inject_Z (Z.of_nat (length l)) <= qsum l
               /\ qsum l <= hi * inject_Z (Z.of_nat (length l))).
  { clear Hne Hn. induction HF as [| x l [H1 H2] _ [IH1 IH2]].
    - simpl. rewrite qsum_nil. change (inject_Z 0) with 0. lra.
    - cbn [length]. rewrite qsum_cons, inject_nat_succ.
      generalize dependent (inject_Z (Z.of_nat (length l))). intros k IH1 IH2.
      lra. }
  destruct Hs as [Hs1 Hs2]. split.
  - apply Qle_shift_div_l; assumption.
  - apply Qle_shift_div_r; [assumption | lra].
Qed.

Lemma reported_scores_bounded (now : string) (loc : pyval)
  (valid : list (string * pyval)) (rep : report) :
  report_of_valid now loc valid = Ok (Fused rep) ->
  Forall (fun x => 0.15 <= x /\ x <= 0.85) (dict_values (confidence_scores rep)).
Proof.
  intros H.
  destruct (report_structure now loc valid rep H)
    as (results & f & _ & HF & _ & Hc & _).
  rewrite Hc. unfold dict_values. rewrite map_map. cbn [snd].
  apply Forall_map. eapply Forall_impl; [| exact HF].
  intros [m mr] Hm. cbn [fst snd] in *.
  destruct (fuse_metric_bounds m valid mr Hm) as (_ & _ & _ & H1 & _ & H2).
  split; [exact H1 |]. destruct m; lra.
Qed.

(** X9. In a report with status success the overall confidence is the
    mean of the listed confidence scores; every listed score lies between
    0.15 and 0.85, and so does the overall confidence when at least one
    metric was fused; when none was, it is 0.0. *)
Theorem overall_confidence_bounds (now : string) (input : pyval) (rep : report) :
  fuse_satellite_data now input = Ok (Fused rep) ->
  status rep = Some "success" ->
  exists c,
    overall_confidence rep = Some c
    /\ c = _calculate_overall_confidence (confidence_scores rep)
    /\ (forall key x, In (key, x) (confidence_scores rep) -> 0.15 <= x /\ x <= 0.85)
    /\ (confidence_scores rep <> [] -> 0.15 <= c /\ c <= 0.85)
    /\ (confidence_scores rep = [] -> c = 0.0).
Proof.
  intros H Hst. apply fuse_satellite_data_Fused in H. destruct H as (loc & valid & H).
  pose proof (reported_scores_bounded now loc valid rep H) as HB.
  destruct (report_structure now loc valid rep H) as (_ & _ & _ & _ & _ & _ & _ & Hv).
  assert (Hne : valid <> []).
  { intros ->. cbn in H. injection H as <-. discriminate Hst. }
  destruct (Hv Hne) as (_ & Hoc & _).
  exists (_calculate_overall_confidence (confidence_scores rep)).
  split; [exact Hoc |]. split; [reflexivity |]. split; [| split].
  - intros key x Hin. rewrite Forall_forall in HB. apply HB.
    unfold dict_values. apply in_map_iff. exists (key, x). auto.
  - intros Hs. unfold _calculate_overall_confidence.
    destruct (confidence_scores rep) as [| s0 rest] eqn:E; [congruence |].
    rewrite <- E in *. apply mean_in_range; [| exact HB].
    rewrite E. discriminate.
  - intros ->. reflexivity.
Qed.

Lemma overall_confidence_bounds_witness :
  exists rep c,
    fuse_satellite_data "2026-01-01T00:00:00" test_data = Ok (Fused rep)
    /\ overall_confidence rep = Some c
    /\ 0.15 <= c /\ c <= 0.85.
Proof.
  eexists.
  match goal with
  | |- exists c, ?A = Ok (Fused ?rep) /\ _ =>
      assert (H : A = Ok (Fused rep)) by (vm_compute; reflexivity);
      destruct (overall_confidence_bounds "2026-01-01T00:00:00" test_data rep H)
        as (c & Hc & _ & _ & Hb & _)
  end.
  - vm_compute. reflexivity.
  - exists c. split; [exact H |]. split; [exact Hc |].
    apply Hb. vm_compute. discriminate.
Defined.

(** *** Valid sources that no routine consults *)

Lemma metric_body_not_eligible (m : metric) (name : string) (d : pyval) :
  ~ In name (eligible_names m) -> metric_body m name d = Ok None.
Proof.
  intros Hn.
  destruct (metric_body m name d) as [[c |] | e] eqn:E.
  - exfalso. apply Hn. apply (metric_body_eligible m name d c E).
  - reflexivity.
  - exfalso. revert E.
    destruct m; cbn [metric_body eligible_names] in *;
      unfold ndvi_body, evi_body, temperature_body, moisture_body.
    + destruct (str_in name _) eqn:S; [| discriminate].
      exfalso. apply Hn. apply str_in_In. exact S.
    + destruct (str_in name _) eqn:S; [| discriminate].
      exfalso. apply Hn. apply str_in_In. exact S.
    + destruct (String.eqb_spec name "landsat8") as [-> | _]; [simpl in Hn; tauto |].
      destruct (String.eqb_spec name "modis") as [-> | _]; [simpl in Hn; tauto |].
      destruct (String.eqb_spec name "irs") as [-> | _]; [simpl in Hn; tauto |].
      discriminate.
    + destruct (str_in name _) eqn:S; [| discriminate].
      exfalso. apply Hn. apply str_in_In. exact S.
Qed.

Lemma collect_nothing body (items : list (string * pyval)) :
  Forall (fun kd => body (fst kd) (snd kd) = Ok None) items ->
  forall acc, collect body items acc = Ok acc.
Proof.
  induction 1 as [| [k d] items Hb _ IH]; intros acc; simpl.
  - reflexivity.
  - simpl in Hb. rewrite Hb. cbn [bind]. apply IH.
Qed.

Lemma fuse_metric_nothing (m : metric) (valid : list (string * pyval)) :
  (forall name, In name (dict_keys valid) -> ~ In name (eligible_names m)) ->
  fuse_metric m valid = Ok None.
Proof.
  intros H. rewrite fuse_metric_unfold.
  rewrite (collect_nothing (metric_body m) valid); [reflexivity |].
  apply Forall_forall. intros [k d] Hin. cbn [fst snd].
  apply metric_body_not_eligible. apply H.
  unfold dict_keys. apply in_map_iff. exists (k, d). auto.
Qed.

(** X10. When sources pass the filter but none of them is one a routine
    consults (only cartosat and oceansat, say), the method still reports
    success: no metric is fused, the overall confidence is 0.0, the
    consensus level is "Unknown" and the overall quality is "Limited",
    however many sources there are. *)
Theorem success_without_metrics (now : string) (top : list (string * pyval))
  (satellites : pyval) (valid : list (string * pyval)) :
  dict_get "satellites" top = Some satellites ->
  _filter_valid_satellites satellites = Ok valid ->
  valid <> [] ->
  (forall name m, In name (dict_keys valid) -> ~ In name (eligible_names m)) ->
  fuse_satellite_data now (VDict top)
  = Ok (Fused
      {| timestamp := now;
         location := location_of top;
         fused_metrics := [];
         cross_validation := [];
         confidence_scores := [];
         data_sources := dict_keys valid;
         consensus_level := "Unknown";
         overall_quality := "Limited";
         overall_confidence := Some 0.0;
         status := Some "success";
         message := None |}).
Proof.
  intros Hs Hf Hne Hnone.
  rewrite (fuse_satellite_data_dict now top _ Hs), Hf. cbn [bind].
  unfold report_of_valid. destruct valid as [| v0 valid']; [congruence |].
  change (_fuse_ndvi (v0 :: valid')) with (fuse_metric Ndvi (v0 :: valid')).
  change (_fuse_temperature (v0 :: valid'))
    with (fuse_metric Temperature (v0 :: valid')).
  change (_fuse_moisture (v0 :: valid'))
    with (fuse_metric SoilMoisture (v0 :: valid')).
  change (_fuse_evi (v0 :: valid')) with (fuse_metric Evi (v0 :: valid')).
  rewrite !fuse_metric_nothing by (intros name Hin; apply Hnone; exact Hin).
  reflexivity.
Qed.

Lemma success_without_metrics_witness :
  exists r,
    fuse_satellite_data "2026-01-01T00:00:00"
      (VDict [("satellites", VDict
                 [("cartosat", VDict [("status", VStr "success")]);
                  ("oceansat", VDict [("status", VStr "simulated")])])])
    = Ok (Fused r)
    /\ status r = Some "success"
    /\ fused_metrics r = []
    /\ overall_quality r = "Limited".
Proof.
  eexists. split.
  - apply (success_without_metrics "2026-01-01T00:00:00"
             [("satellites", VDict
                 [("cartosat", VDict [("status", VStr "success")]);
                  ("oceansat", VDict [("status", VStr "simulated")])])]
             (VDict
                 [("cartosat", VDict [("status", VStr "success")]);
                  ("oceansat", VDict [("status", VStr "simulated")])])
             [("cartosat", VDict [("status", VStr "success")]);
              ("oceansat", VDict [("status", VStr "simulated")])]).
    + reflexivity.
    + reflexivity.
    + discriminate.
    + intros name m [<- | [<- | []]]; destruct m; simpl; intuition discriminate.
  - repeat split.
Defined.

(** *** The quality tier *)

Lemma quality_rank_at_least (confidence : Q) (num_sources : nat) :
  ((3 <= quality_rank (_determine_quality confidence num_sources))%nat
   <-> 0.8 <= confidence /\ (4 <= num_sources)%nat)
  /\ ((2 <= quality_rank (_determine_quality confidence num_sources))%nat
      <-> 0.7 <= confidence /\ (3 <= num_sources)%nat)
  /\ ((1 <= quality_rank (_determine_quality confidence num_sources))%nat
      <-> 0.5 <= confidence /\ (2 <= num_sources)%nat).
Proof.
  unfold _determine_quality.
  destruct (Qle_bool 0.8 confidence) eqn:A; destruct (Qle_bool 0.7 confidence) eqn:B;
    destruct (Qle_bool 0.5 confidence) eqn:C;
    destruct (4 <=? num_sources)%nat eqn:D; destruct (3 <=? num_sources)%nat eqn:E;
    destruct (2 <=? num_sources)%nat eqn:F;
    cbn [andb quality_rank String.eqb Ascii.eqb Bool.eqb];
    rewrite ?Qle_bool_iff in *;
    try (apply not_true_iff_false in A; rewrite Qle_bool_iff in A);
    try (apply not_true_iff_false in B; rewrite Qle_bool_iff in B);
    try (apply not_true_iff_false in C; rewrite Qle_bool_iff in C);
    rewrite ?Nat.leb_le, ?Nat.leb_gt in *;
    repeat split; intros; try lia; try lra; try tauto;
    repeat match goal with H : _ /\ _ |- _ => destruct H end;
    try lia; try lra.
Qed.

(** X11. The overall quality is at least "Fair" exactly when the
    confidence is at least 0.5 with two or more sources, at least "Good"
    exactly when it is at least 0.7 with three or more, and "Excellent"
    exactly when it is at least 0.8 with four or more; so more confidence
    or more sources never give a lower tier, and fewer than two sources
    always give "Limited". *)
Theorem quality_tier_monotone (c c' : Q) (n n' : nat) :
  c <= c' -> (n <= n')%nat ->
  (quality_rank (_determine_quality c n)
   <= quality_rank (_determine_quality c' n'))%nat
  /\ ((n < 2)%nat -> _determine_quality c n = "Limited").
Proof.
  intros Hc Hn.
  destruct (quality_rank_at_least c n) as (A3 & A2 & A1).
  destruct (quality_rank_at_least c' n') as (B3 & B2 & B1).
  split.
  - assert (Hr : (quality_rank (_determine_quality c n) <= 3)%nat).
    { unfold quality_rank.
      repeat match goal with |- context [String.eqb ?a ?b] => destruct (String.eqb a b) end;
        lia. }
    destruct (quality_rank (_determine_quality c n)) as [| [| [| [| k]]]] eqn:E;
      [lia | | | | lia].
    + apply B1. destruct A1 as [A1 _]. destruct (A1 (le_n _)). split; [lra | lia].
    + apply B2. destruct A2 as [A2 _]. destruct (A2 (le_n _)). split; [lra | lia].
    + apply B3. destruct A3 as [A3 _]. destruct (A3 (le_n _)). split; [lra | lia].
  - intros Hlt. unfold _determine_quality.
    destruct (4 <=? n)%nat eqn:D; [apply Nat.leb_le in D; lia |].
    destruct (3 <=? n)%nat eqn:E; [apply Nat.leb_le in E; lia |].
    destruct (2 <=? n)%nat eqn:F; [apply Nat.leb_le in F; lia |].
    rewrite !andb_false_r. reflexivity.
Qed.

Lemma quality_tier_monotone_witness :
  (quality_rank (_determine_quality 0.72 3)
   <= quality_rank (_determine_quality 0.81 4))%nat
  /\ ((1 < 2)%nat -> _determine_quality 0.72 1 = "Limited").
Proof.
  split.
  - apply (quality_tier_monotone 0.72 0.81 3 4); [discriminate | lia].
  - apply (quality_tier_monotone 0.72 0.72 1 1); [discriminate | lia].
Defined.

(** *** The consensus level *)

Lemma count_str_le (x : string) (l : list string) : (count_str x l <= length l)%nat.
Proof. unfold count_str. apply filter_length_le. Qed.

Lemma count_str_all (x : string) (l : list string) :
  Forall (eq x) l -> count_str x l = length l.
Proof.
  unfold count_str. induction 1 as [| y l <- _ IH]; simpl.
  - reflexivity.
  - rewrite String.eqb_refl. simpl. rewrite IH. reflexivity.
Qed.

Lemma count_str_none (x : string) (l : list string) :
  Forall (fun y => y <> x) l -> count_str x l = 0%nat.
Proof.
  unfold count_str. induction 1 as [| y l Hy _ IH]; simpl.
  - reflexivity.
  - destruct (String.eqb_spec x y) as [E | _]; [congruence | exact IH].
Qed.

(** X12. The consensus level is "Unknown" exactly when the report has no
    cross-validation record; otherwise it is "High" when every metric's
    agreement tier is "High", and "Low" when no tier is "High" or
    "Medium". *)
Theorem consensus_level_cases (cross_validation : list (string * cross_val)) :
  (_calculate_consensus_level cross_validation = "Unknown" <-> cross_validation = [])
  /\ (cross_validation <> [] ->
      Forall (fun kc => cv_agreement (snd kc) = "High") cross_validation ->
      _calculate_consensus_level cross_validation = "High")
  /\ (cross_validation <> [] ->
      Forall (fun kc => cv_agreement (snd kc) <> "High"
                        /\ cv_agreement (snd kc) <> "Medium") cross_validation ->
      _calculate_consensus_level cross_validation = "Low").
Proof.
  split; [| split].
  - split.
    + unfold _calculate_consensus_level.
      destruct cross_validation as [| c0 rest]; [reflexivity |].
      destruct (Qle_bool _ _); [discriminate |].
      destruct (Qle_bool _ _); discriminate.
    + intros ->. reflexivity.
  - intros Hne HF. unfold _calculate_consensus_level.
    destruct cross_validation as [| c0 rest] eqn:E; [congruence |]. rewrite <- E in *.
    rewrite count_str_all.
    2:{ unfold dict_values. rewrite map_map. apply Forall_map.
        eapply Forall_impl; [| exact HF]. intros kc H. symmetry. exact H. }
    assert (H : Qle_bool
                  (inject_Z (Z.of_nat
                     (length (map cv_agreement (dict_values cross_validation)))) * 0.7)
                  (inject_Z (Z.of_nat
                     (length (map cv_agreement (dict_values cross_validation)))))
                = true).
    { apply Qle_bool_iff.
      pose proof (inject_nat_nonneg
                    (length (map cv_agreement (dict_values cross_validation)))).
      lra. }
    rewrite H. reflexivity.
  - intros Hne HF. unfold _calculate_consensus_level.
    destruct cross_validation as [| c0 rest] eqn:E; [congruence |]. rewrite <- E in *.
    rewrite (count_str_none "High"), (count_str_none "Medium").
    2:{ unfold dict_values. rewrite map_map. apply Forall_map.
        eapply Forall_impl; [| exact HF]. intros kc [_ H]. exact H. }
    2:{ unfold dict_values. rewrite map_map. apply Forall_map.
        eapply Forall_impl; [| exact HF]. intros kc [H _]. exact H. }
    assert (Hpos : 0 < inject_Z (Z.of_nat
                     (length (map cv_agreement (dict_values cross_validation))))).
    { rewrite E. cbn [dict_values map length]. rewrite inject_nat_succ.
      pose proof (inject_nat_nonneg (length (map cv_agreement (map snd rest)))).
      lra. }
    change (inject_Z (Z.of_nat 0)) with 0.
    destruct (Qle_bool _ 0) eqn:A; [apply Qle_bool_iff in A; lra |].
    destruct (Qle_bool _ (0 + 0)) eqn:B; [apply Qle_bool_iff in B; lra |].
    reflexivity.
Qed.

Lemma consensus_level_cases_witness :
  _calculate_consensus_level
    [("ndvi", {| cv_sources := [("irs", 0.64)]; cv_fused := 0.64; cv_variance := 0.0;
                 cv_agreement := "High"; cv_num_sources := 1 |})]
  = "High".
Proof.
  destruct (consensus_level_cases
              [("ndvi", {| cv_sources := [("irs", 0.64)]; cv_fused := 0.64;
                           cv_variance := 0.0; cv_agreement := "High";
                           cv_num_sources := 1 |})]) as (_ & H & _).
  apply H.
  - discriminate.
  - repeat constructor.
Defined.

(** *** One contributor, agreeing contributors *)

Lemma fuse_sources_agreement (mv hb mb : Q) (sources : list (string * contribution))
  (r : metric_result) :
  fuse_sources mv hb mb sources = Ok (Some r) ->
  cv_agreement (m_cross_val r)
  = if Qlt_le_dec (variance_of sources) hb then "High"
    else if Qlt_le_dec (variance_of sources) mb then "Medium"
    else "Low".
Proof.
  unfold fuse_sources. destruct sources as [| s0 rest]; [discriminate |].
  destruct (Qeq_bool _ 0); [discriminate |].
  intros H. injection H as <-. reflexivity.
Qed.

Lemma metric_high_below_pos (m : metric) : 0 < metric_high_below m.
Proof. destruct m; reflexivity. Qed.

Lemma agreeing_sources_result (m : metric) (sats : list (string * pyval))
  (r : metric_result) (v : Q) :
  fuse_metric m sats = Ok (Some r) ->
  (forall name x, In (name, x) (cv_sources (m_cross_val r)) -> x == v) ->
  cv_agreement (m_cross_val r) = "High"
  /\ m_confidence r
     == 0.6 * Qmin (inject_Z (Z.of_nat (cv_num_sources (m_cross_val r))) / 4) 1 + 0.4.
Proof.
  intros H Hall. pose proof (routine_confidence_spec m sats r H) as Hconf.
  pose proof (fuse_metric_bounds m sats r H) as (Hcount & _).
  apply fuse_metric_Some in H. destruct H as (sources & Hc & H).
  pose proof (fuse_sources_agreement _ _ _ _ _ H) as Hag.
  apply fuse_sources_Some in H.
  destruct H as (Hne & Hval & _ & Hs & _ & Hv & Hn).
  assert (Hx : Forall (fun kc => c_value (snd kc) == v) sources).
  { apply Forall_forall. intros [k cx] Hin. simpl. apply (Hall k). rewrite Hs.
    apply in_map_iff. exists (k, cx). split; [reflexivity | exact Hin]. }
  pose proof (variance_of_agreeing v sources Hx) as Hvar.
  split.
  - rewrite Hag. pose proof (metric_high_below_pos m).
    destruct (Qlt_le_dec (variance_of sources) (metric_high_below m)); [reflexivity | lra].
  - rewrite Hconf. rewrite Hv. unfold spec_confidence.
    assert (Hd : variance_of sources / spec_max_variance m == 0).
    { unfold Qdiv. rewrite Hvar. lra. }
    assert (Hc4 : 0.25 <= inject_Z (Z.of_nat (cv_num_sources (m_cross_val r))) / 4).
    { apply Qle_shift_div_l; [reflexivity |].
      assert (H1 : inject_Z 1 <= inject_Z (Z.of_nat (cv_num_sources (m_cross_val r))))
        by (rewrite <- Zle_Qle; lia).
      change (inject_Z 1) with 1 in H1. lra. }
    generalize dependent (inject_Z (Z.of_nat (cv_num_sources (m_cross_val r))) / 4).
    generalize dependent (variance_of sources / spec_max_variance m).
    intros d Hd c Hc4.
    name_minmax. split_minmax; lra.
Qed.

(** X13. When all the sources kept for a metric report the same value,
    the agreement tier is "High" and the confidence is
    [0.6 * min(count/4, 1) + 0.4], whatever the reliability weights. *)
Theorem agreeing_sources_fuse_to_their_value (m : metric)
  (sats : list (string * pyval)) (r : metric_result) (v : Q) :
  fuse_metric m sats = Ok (Some r) ->
  (forall name x, In (name, x) (cv_sources (m_cross_val r)) -> x == v) ->
  cv_agreement (m_cross_val r) = "High"
  /\ m_confidence r
     == 0.6 * Qmin (inject_Z (Z.of_nat (cv_num_sources (m_cross_val r))) / 4) 1 + 0.4.
Proof.
  intros H Hall.
  destruct (agreeing_sources_result m sats r v H Hall) as (Hag & Hconf).
  split; [exact Hag | exact Hconf].
Qed.

Lemma agreeing_sources_fuse_to_their_value_witness :
  exists r,
    fuse_metric Ndvi agreeing_pair = Ok (Some r)
    /\ cv_agreement (m_cross_val r) = "High"
    /\ m_confidence r == 0.7.
Proof.
  eexists. split; [vm_compute; reflexivity |].
  match goal with
  | |- cv_agreement (m_cross_val ?r) = _ /\ _ =>
      destruct (agreeing_sources_fuse_to_their_value Ndvi agreeing_pair r 0.64)
        as (H1 & H2)
  end.
  - vm_compute. reflexivity.
  - simpl. intros n x [E | [E | []]]; injection E as _ <-; reflexivity.
  - split; [exact H1 |]. rewrite H2. reflexivity.
Defined.

(** X14. A metric with a single contributor lists that contributor's
    value as its only per-source value and reports variance 0.0,
    agreement "High" and confidence 0.55 ([0.6 * 1/4 + 0.4]). *)
Theorem single_contributor_result (m : metric) (sats : list (string * pyval))
  (r : metric_result) :
  fuse_metric m sats = Ok (Some r) ->
  cv_num_sources (m_cross_val r) = 1%nat ->
  exists name v,
    cv_sources (m_cross_val r) = [(name, v)]
    /\ (valid_lo m <= v /\ v <= valid_hi m)
    /\ cv_variance (m_cross_val r) = 0.0
    /\ cv_agreement (m_cross_val r) = "High"
    /\ m_confidence r == 0.55.
Proof.
  intros H H1.
  assert (Hs : exists name v, cv_sources (m_cross_val r) = [(name, v)]
                              /\ cv_variance (m_cross_val r) = 0.0).
  { pose proof H as H'. apply fuse_metric_Some in H'. destruct H' as (sources & _ & H').
    apply fuse_sources_Some in H'.
    destruct H' as (_ & _ & _ & Hs & _ & Hv & Hn).
    rewrite Hn in H1. destruct sources as [| [k c] [| s1 rest]]; try discriminate.
    exists k, (c_value c). rewrite Hs, Hv. split; reflexivity. }
  destruct Hs as (name & v & Hs & Hv). exists name, v.
  destruct (agreeing_sources_result m sats r v H) as (A3 & A4).
  { rewrite Hs. intros n x [E | []]. injection E as _ <-. reflexivity. }
  split; [exact Hs |]. split.
  { destruct (fuse_metric_kept_values m sats r name v H) as [Hr _];
      [rewrite Hs; left; reflexivity | exact Hr]. }
  split; [exact Hv |]. split; [exact A3 |].
  rewrite A4, H1. reflexivity.
Qed.

Lemma single_contributor_result_witness :
  exists r name v,
    fuse_metric Temperature valid_test_satellites = Ok (Some r)
    /\ cv_sources (m_cross_val r) = [(name, v)]
    /\ m_confidence r == 0.55.
Proof.
  eexists.
  match goal with
  | |- exists name v, ?A = Ok (Some ?r) /\ _ =>
      assert (H : A = Ok (Some r)) by (vm_compute; reflexivity);
      destruct (single_contributor_result Temperature valid_test_satellites r H)
        as (name & v & H1 & _ & _ & _ & H5)
  end.
  - reflexivity.
  - exists name, v. split; [exact H |]. split; [exact H1 | exact H5].
Defined.

(** X16. A modis entry carrying the temperature profile that
    [satellite_data.py] produces (keys day, night and range, no
    land_surface and no mean) contributes nothing to temperature fusion,
    whatever the values in the profile: the result is that of the input
    without the modis entry. *)
Theorem produced_modis_profile_is_ignored (d : list (string * pyval))
  (day night range : pyval) (s1 s2 : list (string * pyval)) :
  dict_get "temperature" d = Some (modis_temperature_profile day night range) ->
  temperature_body "modis" (VDict d) = Ok None
  /\ _fuse_temperature (s1 ++ ("modis", VDict d) :: s2) = _fuse_temperature (s1 ++ s2).
Proof.
  intros H.
  assert (Hb : temperature_body "modis" (VDict d) = Ok None).
  { apply normalised_temperature_none. unfold normalised_temperature.
    cbn [str_in existsb String.eqb Ascii.eqb Bool.eqb andb orb]. rewrite H.
    reflexivity. }
  split; [exact Hb |].
  apply (fuse_metric_skip Temperature "modis" (VDict d) s1 s2 Hb).
Qed.

Lemma produced_modis_profile_is_ignored_witness :
  _fuse_temperature
    [("modis", VDict [("status", VStr "fallback");
                      ("temperature",
                       modis_temperature_profile (VNum 31) (VNum 18) (VNum 13))]);
     ("landsat8", VDict [("status", VStr "success"); ("temperature", VNum 28.5)])]
  = _fuse_temperature
      [("landsat8", VDict [("status", VStr "success"); ("temperature", VNum 28.5)])].
Proof.
  apply (produced_modis_profile_is_ignored
           [("status", VStr "fallback");
            ("temperature", modis_temperature_profile (VNum 31) (VNum 18) (VNum 13))]
           (VNum 31) (VNum 18) (VNum 13) []
           [("landsat8", VDict [("status", VStr "success"); ("temperature", VNum 28.5)])]).
  reflexivity.
Defined.

(** ** The fusion variants *)





Lemma max_by_weight_first_maximal (items : list (string * contribution)) :
  forall best,
    exists pre post,
      best :: items = pre ++ max_by_weight best items :: post
      /\ Forall (fun x => c_weight (snd x)
                          < c_weight (snd (max_by_weight best items))) pre
      /\ Forall (fun x => c_weight (snd x)
                          <= c_weight (snd (max_by_weight best items))) post.
Proof.
  induction items as [| x rest IH]; intros best.
  - exists [], []. simpl. split; [reflexivity | split; constructor].
  - cbn [max_by_weight].
    destruct (Qlt_le_dec (c_weight (snd best)) (c_weight (snd x))) as [Hlt | Hle].
    + destruct (IH x) as (pre & post & E & Hpre & Hpost).
      remember (max_by_weight x rest) as e eqn:He. clear He.
      exists (best :: pre), post. split; [simpl; f_equal; exact E |].
      split; [| exact Hpost].
      constructor; [| exact Hpre].
      destruct pre as [| p pre'].
      * simpl in E. injection E as E _. rewrite <- E. exact Hlt.
      * simpl in E. injection E as E _. subst p.
        inversion Hpre; subst. lra.
    + destruct (IH best) as (pre & post & E & Hpre & Hpost).
      remember (max_by_weight best rest) as e eqn:He. clear He.
      destruct pre as [| p pre'].
      * simpl in E. injection E as E1 E2. subst e rest.
        exists [], (x :: post). split; [reflexivity |].
        split; [constructor |].
        constructor; [exact Hle | exact Hpost].
      * simpl in E. injection E as E1 E2. subst p rest.
        exists (best :: x :: pre'), post. split; [reflexivity |].
        split; [| exact Hpost].
        inversion Hpre as [| ? ? Hb Hpre']; subst.
        constructor; [exact Hb |]. constructor; [lra | exact Hpre'].
Qed.

(** X18. [_max_confidence_fusion] returns [None] only for an empty dict;
    otherwise it returns the value of a source whose weight no other
    source exceeds, and among sources of that weight the one that comes
    first. *)
Theorem max_confidence_fusion_picks_first_heaviest
  (sources : list (string * contribution)) :
  (_max_confidence_fusion sources = None <-> sources = [])
  /\ (sources <> [] ->
      exists pre name c post,
        sources = pre ++ (name, c) :: post
        /\ _max_confidence_fusion sources = Some (c_value c)
        /\ Forall (fun x => c_weight (snd x) < c_weight c) pre
        /\ Forall (fun x => c_weight (snd x) <= c_weight c) post).
Proof.
  split.
  - destruct sources; simpl; split; intros H; congruence.
  - intros Hne. destruct sources as [| first rest]; [congruence |].
    destruct (max_by_weight_first_maximal rest first) as (pre & post & E & H1 & H2).
    destruct (max_by_weight first rest) as [name c] eqn:Em.
    exists pre, name, c, post. cbn [_max_confidence_fusion]. rewrite Em.
    split; [exact E |]. split; [reflexivity |]. split; assumption.
Qed.

Lemma max_confidence_fusion_picks_first_heaviest_witness :
  exists pre name c post,
    [("landsat8", {| c_value := 0.63; c_weight := 0.85 |});
     ("sentinel1", {| c_value := 0.40; c_weight := 0.80 |});
     ("risat", {| c_value := 0.50; c_weight := 0.80 |})]
    = pre ++ (name, c) :: post
    /\ _max_confidence_fusion
         [("landsat8", {| c_value := 0.63; c_weight := 0.85 |});
          ("sentinel1", {| c_value := 0.40; c_weight := 0.80 |});
          ("risat", {| c_value := 0.50; c_weight := 0.80 |})]
       = Some (c_value c)
    /\ Forall (fun x => c_weight (snd x) < c_weight c) pre
    /\ Forall (fun x => c_weight (snd x) <= c_weight c) post.
Proof.
  apply (max_confidence_fusion_picks_first_heaviest
           [("landsat8", {| c_value := 0.63; c_weight := 0.85 |});
            ("sentinel1", {| c_value := 0.40; c_weight := 0.80 |});
            ("risat", {| c_value := 0.50; c_weight := 0.80 |})]).
  discriminate.
Defined.

(** *** The median *)














(** ** Feature-level fusion *)

Lemma gather_feature_dicts (feature_name : string) (sources : list pyval) :
  Forall (fun s => is_dict s = true) sources ->
  forall values,
    exists found,
      gather_feature feature_name sources values = Ok (values ++ found)
      /\ Forall (fun v => is_number v = true
                          /\ exists d, In (VDict d) sources
                                       /\ dict_get feature_name d = Some v) found.
Proof.
  induction 1 as [| s sources Hs _ IH]; intros values.
  - exists []. simpl. rewrite app_nil_r. split; [reflexivity | constructor].
  - destruct s as [| | | | | | d]; try discriminate.
    cbn [gather_feature py_contains py_getitem bind].
    assert (Hweak : forall found,
              Forall (fun v => is_number v = true
                               /\ exists d', In (VDict d') sources
                                             /\ dict_get feature_name d' = Some v) found ->
              Forall (fun v => is_number v = true
                               /\ exists d', In (VDict d') (VDict d :: sources)
                                             /\ dict_get feature_name d' = Some v) found).
    { intros found HF. eapply Forall_impl; [| exact HF].
      intros v (Hn & d' & Hin & Hg). split; [exact Hn |].
      exists d'. split; [right; exact Hin | exact Hg]. }
    destruct (dict_get feature_name d) as [val |] eqn:E.
    + cbn [bind]. destruct (is_number val) eqn:N.
      * destruct (IH (values ++ [val])) as (found & Hg & HF).
        exists (val :: found). rewrite Hg, <- app_assoc. split; [reflexivity |].
        constructor; [| apply Hweak; exact HF].
        split; [exact N |]. exists d. split; [left; reflexivity | exact E].
      * destruct (IH values) as (found & Hg & HF).
        exists found. split; [exact Hg | apply Hweak; exact HF].
    + destruct (IH values) as (found & Hg & HF).
      exists found. split; [exact Hg | apply Hweak; exact HF].
Qed.

Lemma feature_loop_dicts (sources : list pyval) (first_keys : list string)
  (P : string * pyval -> Prop) :
  Forall (fun s => is_dict s = true) sources ->
  (forall name found,
     found <> [] ->
     Forall (fun v => is_number v = true
                      /\ exists d, In (VDict d) sources
                                   /\ dict_get name d = Some v) found ->
     In name first_keys ->
     P (name, np_mean found)) ->
  forall names fused,
    incl names first_keys ->
    Forall P fused ->
    exists res, feature_loop names sources fused = Ok res /\ Forall P res.
Proof.
  intros Hs HP. induction names as [| name names IH]; intros fused Hincl Hf.
  - exists fused. split; [reflexivity | exact Hf].
  - cbn [feature_loop].
    destruct (gather_feature_dicts name sources Hs []) as (found & Hg & HF).
    rewrite Hg. cbn [bind app].
    assert (Hincl' : incl names first_keys).
    { intros k Hk. apply Hincl. right. exact Hk. }
    destruct found as [| v0 found'] eqn:E.
    + apply IH; assumption.
    + rewrite <- E in *. apply IH; [exact Hincl' |].
      apply dict_set_Forall; [exact Hf |].
      apply HP; [rewrite E; discriminate | exact HF | apply Hincl; left; reflexivity].
Qed.

(** X20. [feature_level_fusion] returns the empty dict for an empty
    input.  For a non-empty mapping whose values are all dicts holding
    numbers of magnitude at most 1e300 it succeeds, names its method and
    counts the sources; only features of the first source are ever fused,
    even when every other source has more; and every fused feature has a
    number in at least one source. *)
Theorem feature_level_fusion_behaviour :
  (forall features, truthy features = false -> feature_level_fusion features = Ok NoFeatures)
  /\ forall k0 first rest,
       Forall (fun s => is_dict s = true) (dict_values ((k0, VDict first) :: rest)) ->
       (forall k d name v q,
          In (k, VDict d) ((k0, VDict first) :: rest) ->
          dict_get name d = Some v -> py_number v = Some q ->
          within_float_safe q) ->
       exists r,
         feature_level_fusion (VDict ((k0, VDict first) :: rest)) = Ok (FeatureReport r)
         /\ ff_success r = true
         /\ ff_method r = "feature_average"
         /\ ff_num_sources r = S (length rest)
         /\ (forall name v,
               In (name, v) (ff_fused_features r) ->
               In name (dict_keys first)
               /\ exists k d x,
                    In (k, VDict d) ((k0, VDict first) :: rest)
                    /\ dict_get name d = Some x
                    /\ is_number x = true).
Proof.
  split.
  - intros features H. unfold feature_level_fusion. rewrite H. reflexivity.
  - intros k0 first rest Hs _.
    set (d := (k0, VDict first) :: rest) in *.
    set (P := fun kv : string * pyval =>
                In (fst kv) (dict_keys first)
                /\ exists k dd x,
                     In (k, VDict dd) d
                     /\ dict_get (fst kv) dd = Some x
                     /\ is_number x = true).
    destruct (feature_loop_dicts (dict_values d) (dict_keys first) P Hs)
      with (names := dict_keys first) (fused := @nil (string * pyval))
      as (res & Hres & HP).
    + intros name found Hne HF Hin. unfold P. cbn [fst snd].
      split; [exact Hin |].
      destruct found as [| v found']; [congruence |].
      apply Forall_inv in HF. destruct HF as (Hnum & dd & Hdd & Hget).
      unfold dict_values in Hdd. apply in_map_iff in Hdd.
      destruct Hdd as ([k s] & Es & Hks). simpl in Es. subst s.
      exists k, dd, v. split; [exact Hks |]. split; [exact Hget | exact Hnum].
    + apply incl_refl.
    + constructor.
    + assert (E : feature_level_fusion (VDict d)
                  = (fused_features <-
                       feature_loop (dict_keys first) (dict_values d) [] ;;
                     Ok (FeatureReport
                           {| ff_success := true;
                              ff_fused_features := fused_features;
                              ff_method := "feature_average";
                              ff_num_sources := length d |}))).
      { reflexivity. }
      eexists. rewrite E, Hres. cbn [bind]. split; [reflexivity |].
      cbn [ff_success ff_method ff_num_sources ff_fused_features].
      rewrite Forall_forall in HP.
      split; [reflexivity |]. split; [reflexivity |]. split; [reflexivity |].
      intros name v Hin. exact (HP _ Hin).
Qed.

Lemma feature_level_fusion_behaviour_witness :
  feature_level_fusion (VDict []) = Ok NoFeatures
  /\ exists r,
       feature_level_fusion (VDict sample_features) = Ok (FeatureReport r)
       /\ ff_num_sources r = 2%nat.
Proof.
  destruct feature_level_fusion_behaviour as [Hempty Hdicts].
  split.
  - apply Hempty. reflexivity.
  - destruct (Hdicts "sentinel2" [("ndvi", VNum 0.65); ("label", VStr "crop")]
                [("landsat8", VDict [("ndvi", VNum 0.63); ("evi", VNum 0.50)])])
      as (r & Hr & _ & _ & Hn & _).
    + repeat constructor.
    + intros k d name v q [E | [E | []]] Hget Hq; injection E as _ <-;
        revert Hget; cbn [dict_get];
        repeat (destruct (String.eqb _ _); [intros Hv; injection Hv as <-;
                  try discriminate; injection Hq as <-;
                  split; vm_compute; discriminate |]);
        discriminate.
    + exists r. split; [exact Hr | exact Hn].
Defined.

Lemma gather_feature_raises (feature_name : string) (sources : list pyval) :
  (exists s, In s sources /\ scalar_or_none s = true) ->
  forall values, gather_feature feature_name sources values = Raise TypeError.
Proof.
  induction sources as [| s0 sources IH]; intros (s & Hin & Hs) values.
  - destruct Hin.
  - cbn [gather_feature].
    assert (Hrest : scalar_or_none s0 = false ->
                    forall values',
                      gather_feature feature_name sources values' = Raise TypeError).
    { intros H0 values'. apply IH. destruct Hin as [-> | Hin]; [congruence |].
      exists s. auto. }
    destruct s0 as [| b | q | | str | l | d]; try reflexivity;
      cbn [py_contains bind].
    + destruct (is_substring feature_name str); [reflexivity |].
      apply Hrest. reflexivity.
    + destruct (existsb (is_str feature_name) l); [reflexivity |].
      apply Hrest. reflexivity.
    + cbn [py_getitem]. destruct (dict_get feature_name d) as [val |].
      * cbn [bind]. destruct (is_number val); apply Hrest; reflexivity.
      * apply Hrest. reflexivity.
Qed.

(** X21. When the first source of [feature_level_fusion] is a dict with
    at least one feature and some source of the mapping is [None] or a
    bare number, the function raises [TypeError]. *)
Theorem feature_level_fusion_scalar_source_raises (k0 : string)
  (first rest : list (string * pyval)) :
  first <> [] ->
  (exists k s, In (k, s) rest /\ scalar_or_none s = true) ->
  feature_level_fusion (VDict ((k0, VDict first) :: rest)) = Raise TypeError.
Proof.
  intros Hne (k & s & Hin & Hs).
  destruct first as [| [name v] first']; [congruence |].
  unfold feature_level_fusion.
  cbn [truthy negb py_keys bind dict_keys map fst feature_loop].
  rewrite gather_feature_raises; [reflexivity |].
  exists s. split; [| exact Hs].
  unfold dict_values. right. apply in_map_iff. exists (k, s). auto.
Qed.

Lemma feature_level_fusion_scalar_source_raises_witness :
  feature_level_fusion
    (VDict [("sentinel2", VDict [("ndvi", VNum 0.65)]); ("modis", VNone)])
  = Raise TypeError.
Proof.
  apply (feature_level_fusion_scalar_source_raises "sentinel2"
           [("ndvi", VNum 0.65)] [("modis", VNone)]).
  - discriminate.
  - exists "modis", VNone. split; [left; reflexivity | reflexivity].
Defined.

Example feature_level_fusion_sample :
  feature_level_fusion (VDict sample_features)
  = Ok (FeatureReport
          {| ff_success := true;
             ff_fused_features := [("ndvi", VNum ((0 + 0.65 + 0.63) / inject_Z 2))];
             ff_method := "feature_average";
             ff_num_sources := 2 |}).
Proof. reflexivity. Qed.

(** ** What the engine never raises *)

Lemma metric_body_raises (m : metric) (name : string) (d : pyval) (e : exn) :
  metric_body m name d = Raise e -> e = AttributeError \/ e = TypeError.
Proof.
  rewrite metric_body_raw. unfold bind.
  destruct (metric_raw m name d) as [raw | e'] eqn:E.
  - unfold contribute, bind.
    destruct raw; simpl; try discriminate;
      try (intros H; injection H as <-; auto);
      destruct (_ && _); discriminate.
  - intros H. injection H as <-. left. revert E.
    destruct m; cbn [metric_raw].
    + destruct (str_in name _); [| discriminate].
      destruct d; cbn [py_get bind]; try (intros H; injection H as <-; reflexivity).
      destruct (match dict_get "indices" d with Some x => x | None => VDict [] end);
        cbn [py_get]; try discriminate; intros H; injection H as <-; reflexivity.
    + destruct (str_in name _); [| discriminate].
      destruct d; cbn [py_get bind]; try (intros H; injection H as <-; reflexivity).
      destruct (match dict_get "indices" d with Some x => x | None => VDict [] end);
        cbn [py_get]; try discriminate; intros H; injection H as <-; reflexivity.
    + destruct (String.eqb name "landsat8").
      { destruct d; cbn [py_get]; try discriminate;
          intros H; injection H as <-; reflexivity. }
      destruct (String.eqb name "modis").
      { destruct d; cbn [py_get bind]; try (intros H; injection H as <-; reflexivity).
        destruct (match dict_get "temperature" d with Some x => x | None => VDict [] end);
          cbn [is_dict py_get bind]; discriminate. }
      destruct (String.eqb name "irs"); [| discriminate].
      destruct d; cbn [py_get]; try discriminate;
        intros H; injection H as <-; reflexivity.
    + destruct (str_in name _); [| discriminate].
      destruct d; cbn [py_get]; try discriminate;
        intros H; injection H as <-; reflexivity.
Qed.

Lemma collect_raises body (items : list (string * pyval)) (e : exn) :
  forall acc,
    collect body items acc = Raise e ->
    exists k d, In (k, d) items /\ body k d = Raise e.
Proof.
  induction items as [| [k d] items IH]; intros acc; simpl.
  - discriminate.
  - unfold bind. destruct (body k d) as [[c |] | e'] eqn:E.
    + intros H. destruct (IH _ H) as (k' & d' & Hin & Hb). eauto.
    + intros H. destruct (IH _ H) as (k' & d' & Hin & Hb). eauto.
    + intros H. injection H as <-. eauto.
Qed.

Lemma fuse_metric_raises (m : metric) (sats : list (string * pyval)) (e : exn) :
  fuse_metric m sats = Raise e -> e = AttributeError \/ e = TypeError.
Proof.
  rewrite fuse_metric_unfold. unfold bind.
  destruct (collect (metric_body m) sats []) as [sources | e'] eqn:E.
  - intros H. exfalso.
    destruct sources as [| s0 rest] eqn:Es; [discriminate |]. rewrite <- Es in *.
    destruct (fuse_sources_ok (metric_max_variance m) (metric_high_below m)
                (metric_medium_below m) sources) as (r & Hr).
    + rewrite Es. discriminate.
    + apply (collected_weights_pos m sats). exact E.
    + rewrite Hr in H. discriminate.
  - intros H. injection H as <-.
    destruct (collect_raises _ _ _ _ E) as (k & d & _ & Hb).
    apply (metric_body_raises m k d e' Hb).
Qed.

Lemma report_of_valid_raises (now : string) (loc : pyval)
  (valid : list (string * pyval)) (e : exn) :
  report_of_valid now loc valid = Raise e -> e = AttributeError \/ e = TypeError.
Proof.
  unfold report_of_valid. destruct valid as [| v0 valid']; [discriminate |].
  set (valid := v0 :: valid'). unfold bind.
  destruct (_fuse_ndvi valid) as [r1 | e1] eqn:E1.
  2:{ intros H. injection H as <-. apply (fuse_metric_raises Ndvi valid e1 E1). }
  destruct (_fuse_temperature valid) as [r2 | e2] eqn:E2.
  2:{ intros H. injection H as <-. apply (fuse_metric_raises Temperature valid e2 E2). }
  destruct (_fuse_moisture valid) as [r3 | e3] eqn:E3.
  2:{ intros H. injection H as <-. apply (fuse_metric_raises SoilMoisture valid e3 E3). }
  destruct (_fuse_evi valid) as [r4 | e4] eqn:E4.
  2:{ intros H. injection H as <-. apply (fuse_metric_raises Evi valid e4 E4). }
  discriminate.
Qed.

(** X22. Whatever the input, the only exceptions that leave
    [fuse_satellite_data] are [AttributeError] and [TypeError]: the
    division by the total weight never fails, and no key lookup raises
    [KeyError]. *)
Theorem fusion_raises_only_attribute_or_type_error (now : string) (input : pyval)
  (e : exn) :
  fuse_satellite_data now input = Raise e ->
  e = AttributeError \/ e = TypeError.
Proof.
  destruct input as [| b | q | | s | l | top]; unfold fuse_satellite_data.
  - discriminate.
  - destruct b; cbn; [intros H; injection H as <-; auto | discriminate].
  - cbn [truthy]. destruct (negb (negb (Qeq_bool q 0))); cbn;
      [discriminate | intros H; injection H as <-; auto].
  - cbn. intros H. injection H as <-. auto.
  - cbn [truthy]. destruct (negb (negb (String.eqb s ""))); cbn [bind py_contains];
      [discriminate |].
    destruct (is_substring "satellites" s); cbn;
      [intros H; injection H as <-; auto | discriminate].
  - destruct l as [| x l]; [discriminate |]. cbn [truthy negb bind py_contains].
    destruct (existsb (is_str "satellites") (x :: l)); cbn;
      [intros H; injection H as <-; auto | discriminate].
  - fold (fuse_satellite_data now (VDict top)).
    destruct (dict_get "satellites" top) as [sv |] eqn:E.
    + rewrite (fuse_satellite_data_dict now top sv E). unfold bind.
      destruct (_filter_valid_satellites sv) as [valid | e'] eqn:Ef.
      * apply report_of_valid_raises.
      * intros H. injection H as <-. left.
        unfold _filter_valid_satellites, bind in Ef.
        destruct (py_items sv) as [items |] eqn:Ei.
        -- apply (filter_loop_never_other items [] e' Ef).
        -- destruct sv; cbn in Ei; try discriminate; injection Ei as <-;
             injection Ef as <-; reflexivity.
    + unfold fuse_satellite_data. destruct top as [| t0 top']; [discriminate |].
      cbn [truthy negb py_contains bind]. rewrite E. discriminate.
Qed.

Lemma fusion_raises_only_attribute_or_type_error_witness :
  TypeError = AttributeError \/ TypeError = TypeError.
Proof.
  apply (fusion_raises_only_attribute_or_type_error "2026-01-01T00:00:00"
           input_with_text_ndvi TypeError).
  vm_compute. reflexivity.
Defined.

(** X23. A report has status "no_valid_data" exactly when its
    [data_sources] is empty, and "success" otherwise; it carries an
    [overall_confidence] exactly when the status is "success", and its
    [message] exactly when it is not. *)
Theorem report_status_cases (now : string) (input : pyval) (rep : report) :
  fuse_satellite_data now input = Ok (Fused rep) ->
  (data_sources rep = [] ->
   status rep = Some "no_valid_data"
   /\ overall_confidence rep = None
   /\ message rep <> None)
  /\ (data_sources rep <> [] ->
      status rep = Some "success"
      /\ overall_confidence rep <> None
      /\ message rep = None)
  /\ timestamp rep = now.
Proof.
  intros H. apply fuse_satellite_data_Fused in H. destruct H as (loc & valid & H).
  pose proof (report_data_sources now loc valid rep H) as Hds.
  unfold report_of_valid in H. destruct valid as [| v0 valid'].
  - injection H as <-. cbn. repeat split; try congruence; discriminate.
  - unfold bind in H.
    destruct (_fuse_ndvi _) as [r1 |]; [| discriminate].
    destruct (_fuse_temperature _) as [r2 |]; [| discriminate].
    destruct (_fuse_moisture _) as [r3 |]; [| discriminate].
    destruct (_fuse_evi _) as [r4 |]; [| discriminate].
    injection H as <-. cbn. repeat split; try congruence; try discriminate.
Qed.

Lemma report_status_cases_witness :
  exists rep,
    fuse_satellite_data "2026-01-01T00:00:00" test_data = Ok (Fused rep)
    /\ (data_sources rep <> [] ->
        status rep = Some "success"
        /\ overall_confidence rep <> None
        /\ message rep = None).
Proof.
  eexists. split; [vm_compute; reflexivity |].
  match goal with
  | |- data_sources ?rep <> [] -> _ =>
      destruct (report_status_cases "2026-01-01T00:00:00" test_data rep)
        as (_ & H & _)
  end.
  - vm_compute. reflexivity.
  - exact H.
Defined.
